(** * secure-passkey-auth: the two-factor / passkey verification flow

    A shallow embedding of the page handlers of the front end
    (Verify2FA, Setup2FA, Choose2FA, Settings) together with the
    platform and library functions they call (base64, base32, the
    SHA1-based one-time-password engine), and the properties of the
    verification flow proved about them. *)

From Stdlib Require Import ZArith List String Ascii Bool Lia.
Import ListNotations.
Local Open Scope Z_scope.

(* ------------------------------------------------------------------ *)
(** ** Bytes and 32-bit words *)

Module Word.

(** A byte is a [Z] in [0, 256); a word is a [Z] in [0, 2^32). *)
Definition byte (x : Z) : Z := Z.land x 255.
Definition w32 (x : Z) : Z := Z.land x 4294967295.

Definition add32 (a b : Z) : Z := w32 (a + b).
Definition rotl (n x : Z) : Z :=
  w32 (Z.lor (Z.shiftl x n) (Z.shiftr x (32 - n))).
Definition not32 (x : Z) : Z := Z.lxor x 4294967295.

(** Big-endian encoding of [x] on [n] bytes. *)
Fixpoint be_bytes (n : nat) (x : Z) : list Z :=
  match n with
  | O => []
  | S k => be_bytes k (Z.shiftr x 8) ++ [byte x]
  end.

(** Big-endian decoding. *)
Definition be_word (bs : list Z) : Z :=
  fold_left (fun acc b => Z.lor (Z.shiftl acc 8) b) bs 0.

Fixpoint chunks {A} (fuel : nat) (k : nat) (l : list A) : list (list A) :=
  match fuel with
  | O => []
  | S f =>
      match l with
      | [] => []
      | _ => firstn k l :: chunks f k (skipn k l)
      end
  end.

End Word.

(* ------------------------------------------------------------------ *)
(** ** SHA-1 and HMAC-SHA1 *)

Module SHA1.
Import Word.

(** Message padding: a 1 bit, zeros up to 56 mod 64, the bit length on
    eight bytes. *)
Definition pad (msg : list Z) : list Z :=
  let len := Z.of_nat (List.length msg) in
  let zeros := Z.to_nat ((55 - len) mod 64) in
  msg ++ [128] ++ repeat 0 zeros ++ be_bytes 8 (8 * len).

Definition block_words (blk : list Z) : list Z :=
  map be_word (chunks 16 4 blk).

(** The message schedule, kept in reverse (most recent word first). *)
Fixpoint schedule (n : nat) (rev_w : list Z) : list Z :=
  match n with
  | O => rev_w
  | S k =>
      let x := Z.lxor (Z.lxor (nth 2 rev_w 0) (nth 7 rev_w 0))
                      (Z.lxor (nth 13 rev_w 0) (nth 15 rev_w 0)) in
      schedule k (rotl 1 x :: rev_w)
  end.

Definition f_k (t : nat) (b c d : Z) : Z * Z :=
  if (t <? 20)%nat then
    (Z.lor (Z.land b c) (Z.land (not32 b) d), 1518500249)
  else if (t <? 40)%nat then
    (Z.lxor (Z.lxor b c) d, 1859775393)
  else if (t <? 60)%nat then
    (Z.lor (Z.lor (Z.land b c) (Z.land b d)) (Z.land c d), 2400959708)
  else
    (Z.lxor (Z.lxor b c) d, 3395469782).

Record regs := Regs { ra : Z; rb : Z; rc : Z; rd : Z; re : Z }.

Definition round (st : regs * nat) (w : Z) : regs * nat :=
  let '(Regs a b c d e, t) := st in
  let '(f, k) := f_k t b c d in
  let tmp := add32 (add32 (add32 (add32 (rotl 5 a) f) e) k) w in
  (Regs tmp a (rotl 30 b) c d, S t).

Definition compress (h : regs) (blk : list Z) : regs :=
  let w := rev (schedule 64 (rev (block_words blk))) in
  let '(Regs a b c d e, _) := fold_left round w (h, O) in
  Regs (add32 (ra h) a) (add32 (rb h) b) (add32 (rc h) c)
       (add32 (rd h) d) (add32 (re h) e).

Definition init : regs :=
  Regs 1732584193 4023233417 2562383102 271733878 3285377520.

Definition digest (msg : list Z) : list Z :=
  let p := pad msg in
  let h := fold_left compress (chunks (List.length p) 64 p) init in
  be_bytes 4 (ra h) ++ be_bytes 4 (rb h) ++ be_bytes 4 (rc h)
    ++ be_bytes 4 (rd h) ++ be_bytes 4 (re h).

(** HMAC (RFC 2104) over SHA-1, block size 64. *)
Definition hmac (key msg : list Z) : list Z :=
  let k0 := if (64 <? List.length key)%nat then digest key else key in
  let k := k0 ++ repeat 0 (64 - List.length k0)%nat in
  let ipad := map (fun b => Z.lxor b 54) k in
  let opad := map (fun b => Z.lxor b 92) k in
  digest (opad ++ digest (ipad ++ msg)).

End SHA1.



(* ------------------------------------------------------------------ *)
(** ** Text encodings used by the pages *)

(** Position of a character in an alphabet, as [indexOf] gives it. *)
Fixpoint index_of (c : ascii) (alphabet : string) : option Z :=
  match alphabet with
  | EmptyString => None
  | String a rest =>
      if Ascii.eqb a c then Some 0
      else option_map Z.succ (index_of c rest)
  end.

Definition char_at (alphabet : string) (i : Z) : ascii :=
  match String.get (Z.to_nat i) alphabet with
  | Some c => c
  | None => "="%char
  end.

Definition string_of_bytes (bs : list Z) : string :=
  string_of_list_ascii (map (fun b => ascii_of_nat (Z.to_nat b)) bs).

(** [TextEncoder.encode] / [charCodeAt] on text in the Latin-1 range. *)
Definition bytes_of_string (s : string) : list Z :=
  map (fun c => Z.of_nat (nat_of_ascii c)) (list_ascii_of_string s).

Module Base64.

Definition alphabet : string :=
  "ABCDEFGHIJKLMNOPQRSTUVWXYZabcdefghijklmnopqrstuvwxyz0123456789+/".

Definition enc (i : Z) : ascii := char_at alphabet (Z.land i 63).

(** [btoa(String.fromCharCode(...bytes))]: RFC 4648 with padding. *)
Fixpoint btoa (bs : list Z) : string :=
  match bs with
  | [] => EmptyString
  | [a] =>
      String (enc (Z.shiftr a 2))
        (String (enc (Z.shiftl (Z.land a 3) 4)) "==")
  | [a; b] =>
      String (enc (Z.shiftr a 2))
        (String (enc (Z.lor (Z.shiftl (Z.land a 3) 4) (Z.shiftr b 4)))
           (String (enc (Z.shiftl (Z.land b 15) 2)) "="))
  | a :: b :: c :: rest =>
      String (enc (Z.shiftr a 2))
        (String (enc (Z.lor (Z.shiftl (Z.land a 3) 4) (Z.shiftr b 4)))
           (String (enc (Z.lor (Z.shiftl (Z.land b 15) 2) (Z.shiftr c 6)))
              (String (enc c) (btoa rest))))
  end.

Definition is_space (c : ascii) : bool :=
  let n := nat_of_ascii c in
  ((n =? 9) || (n =? 10) || (n =? 12) || (n =? 13) || (n =? 32))%nat.

(** Sextets of the data characters; [None] on a character outside
    the alphabet. *)
Fixpoint sextets (cs : list ascii) : option (list Z) :=
  match cs with
  | [] => Some []
  | c :: rest =>
      match index_of c alphabet, sextets rest with
      | Some i, Some l => Some (i :: l)
      | _, _ => None
      end
  end.

Fixpoint bytes_of_sextets (l : list Z) : list Z :=
  match l with
  | a :: b :: c :: d :: rest =>
      Z.lor (Z.shiftl a 2) (Z.shiftr b 4)
        :: Z.lor (Z.shiftl (Z.land b 15) 4) (Z.shiftr c 2)
        :: Z.lor (Z.shiftl (Z.land c 3) 6) d
        :: bytes_of_sextets rest
  | [a; b; c] =>
      [Z.lor (Z.shiftl a 2) (Z.shiftr b 4);
       Z.lor (Z.shiftl (Z.land b 15) 4) (Z.shiftr c 2)]
  | [a; b] => [Z.lor (Z.shiftl a 2) (Z.shiftr b 4)]
  | _ => []
  end.

Definition strip_padding (cs : list ascii) : list ascii :=
  if (List.length cs mod 4 =? 0)%nat then
    match rev cs with
    | "="%char :: "="%char :: r => rev r
    | "="%char :: r => rev r
    | _ => cs
    end
  else cs.

(** [atob]: the forgiving base64 decoding of the HTML standard.  [None]
    stands for the InvalidCharacterError it throws. *)
Definition atob (s : string) : option (list Z) :=
  let cs := filter (fun c => negb (is_space c)) (list_ascii_of_string s) in
  let cs := strip_padding cs in
  if (List.length cs mod 4 =? 1)%nat then None
  else option_map bytes_of_sextets (sextets cs).

End Base64.

Module Base32.

Definition alphabet : string := "ABCDEFGHIJKLMNOPQRSTUVWXYZ234567".

Definition upper (c : ascii) : ascii :=
  let n := nat_of_ascii c in
  if ((97 <=? n) && (n <=? 122))%nat then ascii_of_nat (n - 32) else c.

Definition strip_equals (cs : list ascii) : list ascii :=
  let fix drop (r : list ascii) : list ascii :=
    match r with
    | "="%char :: r' => drop r'
    | _ => r
    end in
  rev (drop (rev cs)).

(** The decoding loop: [value] and [bits] are the accumulator and the
    number of pending bits. *)
Fixpoint decode_loop (cs : list ascii) (value bits : Z) : option (list Z) :=
  match cs with
  | [] => Some []
  | c :: rest =>
      match index_of c alphabet with
      | None => None
      | Some idx =>
          let value := Word.w32 (Z.lor (Z.shiftl value 5) idx) in
          let bits := bits + 5 in
          if 8 <=? bits then
            option_map (cons (Word.byte (Z.shiftr value (bits - 8))))
                       (decode_loop rest value (bits - 8))
          else decode_loop rest value bits
      end
  end.

(** [Secret.fromBase32]: spaces removed, trailing padding removed, upper
    case; [None] stands for the TypeError on a foreign character. *)
Definition decode (s : string) : option (list Z) :=
  let cs := filter (fun c => negb (Ascii.eqb c " ")) (list_ascii_of_string s) in
  decode_loop (map upper (strip_equals cs)) 0 0.

Fixpoint emit (fuel : nat) (value bits : Z) : string * Z :=
  match fuel with
  | O => (EmptyString, bits)
  | S f =>
      if 5 <=? bits then
        let '(s, b) := emit f value (bits - 5) in
        (String (char_at alphabet (Z.land (Z.shiftr value (bits - 5)) 31)) s, b)
      else (EmptyString, bits)
  end.

Fixpoint encode_loop (bs : list Z) (value bits : Z) : string :=
  match bs with
  | [] =>
      if 0 <? bits
      then String (char_at alphabet (Z.land (Z.shiftl value (5 - bits)) 31))
                  EmptyString
      else EmptyString
  | b :: rest =>
      let value := Word.w32 (Z.lor (Z.shiftl value 8) b) in
      let '(s, bits') := emit 3 value (bits + 8) in
      s ++ encode_loop rest value bits'
  end.

(** [secret.base32]. *)
Definition encode (bs : list Z) : string := encode_loop bs 0 0.

End Base32.

(* ------------------------------------------------------------------ *)
(** ** The one-time-password engine *)

Module OTPAuth.

(** Modelled from the spec: the [otpauth] package (its [TOTP] class and
    [Secret]) is imported by the pages and is not part of the sources.
    The engine follows section 4.2 of the spec: SHA1-based TOTP with the
    RFC 6238 defaults, which are also the options the pages pass
    ([algorithm: 'SHA1'], [digits: 6], [period: 30]). *)
Definition digits : nat := 6.
Definition period : Z := 30.

Definition digit_char (d : Z) : ascii := ascii_of_nat (48 + Z.to_nat d).

(** Decimal rendering of [n] on exactly [k] characters, zero padded on
    the left. *)
Fixpoint render (k : nat) (n : Z) (acc : string) : string :=
  match k with
  | O => acc
  | S k' => render k' (n / 10) (String (digit_char (n mod 10)) acc)
  end.

(** Modelled from the spec: the dynamic truncation of RFC 4226 on the
    HMAC of the counter (the package's code generation is not in the
    sources). *)
Definition truncate (d : list Z) : Z :=
  let o := Z.to_nat (Z.land (nth 19 d 0) 15) in
  Z.lor (Z.lor (Z.shiftl (Z.land (nth o d 0) 127) 24)
               (Z.shiftl (nth (o + 1) d 0) 16))
        (Z.lor (Z.shiftl (nth (o + 2) d 0) 8) (nth (o + 3) d 0)).

(** Modelled from the spec: the six-digit code of a counter (RFC 4226),
    zero padded. *)
Definition hotp_generate (secret : list Z) (counter : Z) : string :=
  let d := SHA1.hmac secret (Word.be_bytes 8 counter) in
  render digits (truncate d mod 10 ^ Z.of_nat digits) EmptyString.

(** The period a time stamp (milliseconds) falls in. *)
Definition counter_at (timestamp : Z) : Z := timestamp / 1000 / period.

(** Modelled from the spec: [totp.generate({timestamp})], the code of the
    period of a time stamp. *)
Definition generate (secret : list Z) (timestamp : Z) : string :=
  hotp_generate secret (counter_at timestamp).

Definition check (secret : list Z) (token : string) (i : Z) : bool :=
  String.eqb token (hotp_generate secret i).

(** Modelled from the spec: the search of [validate] at the distances
    [i], [i+1], ... ([n] of them), the earlier period before the later
    one, stopping at the first match. *)
Fixpoint scan (secret : list Z) (token : string) (counter i : Z) (n : nat)
  : option Z :=
  match n with
  | O => None
  | S k =>
      if check secret token (counter - i) then Some (- i)
      else if check secret token (counter + i) then Some i
      else scan secret token counter (i + 1) k
  end.

(** Modelled from the spec: a token of the wrong length matches
    nothing; the current period is tried first, then the adjacent ones. *)
Definition hotp_validate (secret : list Z) (token : string)
           (counter : Z) (window : nat) : option Z :=
  if negb (String.length token =? digits)%nat then None
  else if check secret token counter then Some 0
  else scan secret token counter 1 window.

(** Modelled from the spec: [totp.validate({token, timestamp, window})]
    of section 4.2, the first matching period offset or [None] for the
    no-match sentinel [null]. *)
Definition validate (secret : list Z) (token : string)
           (timestamp : Z) (window : nat) : option Z :=
  hotp_validate secret token (counter_at timestamp) window.

End OTPAuth.

(* ------------------------------------------------------------------ *)
(** ** Errors, the backend tables and the platform *)

(** A thrown JavaScript error, by its [name] and [message]. *)
Record JsError := mkError { err_name : string; err_message : string }.

Definition Error (msg : string) : JsError := mkError "Error" msg.

(** The [{ data, error }] pair a store call resolves to. *)
Inductive response (A : Type) : Type :=
| Data (a : A)
| Failure (e : JsError).
Arguments Data {A} a.
Arguments Failure {A} e.

(** A promise of the platform, once settled. *)
Inductive settled (A : Type) : Type :=
| Resolved (a : A)
| Rejected (e : JsError).
Arguments Resolved {A} a.
Arguments Rejected {A} e.

Module Tables.

(** The rows of [public.user_2fa] and [public.user_passkeys] of the
    migration. *)
Record user_2fa_row := {
  tf_id : string;
  tf_user_id : string;
  tf_secret : string;
  tf_enabled : bool;
  tf_backup_codes : option (list string);
  tf_created_at : Z;
  tf_updated_at : Z
}.

Record user_passkeys_row := {
  pk_id : string;
  pk_user_id : string;
  pk_credential_id : string;
  pk_public_key : string;
  pk_counter : Z;
  pk_device_name : option string;
  pk_created_at : Z;
  pk_last_used_at : option Z
}.

Record db := {
  user_2fa : list user_2fa_row;
  user_passkeys : list user_passkeys_row
}.

Definition two_fa_of (uid : string) (d : db) : list user_2fa_row :=
  filter (fun r => String.eqb (tf_user_id r) uid) (user_2fa d).

Definition passkeys_of (uid : string) (d : db) : list user_passkeys_row :=
  filter (fun r => String.eqb (pk_user_id r) uid) (user_passkeys d).

Definition set_enabled (b : bool) (r : user_2fa_row) : user_2fa_row :=
  {| tf_id := tf_id r; tf_user_id := tf_user_id r; tf_secret := tf_secret r;
     tf_enabled := b; tf_backup_codes := tf_backup_codes r;
     tf_created_at := tf_created_at r; tf_updated_at := tf_updated_at r |}.

Definition touch (now : Z) (r : user_2fa_row) : user_2fa_row :=
  {| tf_id := tf_id r; tf_user_id := tf_user_id r; tf_secret := tf_secret r;
     tf_enabled := tf_enabled r; tf_backup_codes := tf_backup_codes r;
     tf_created_at := tf_created_at r; tf_updated_at := now |}.

End Tables.
Import Tables.

(** The public-key credential options the pages build. *)
Record cred_param := { alg : Z; param_type : string }.

Record creation_options := {
  co_challenge : list Z;
  co_rp_name : string;
  co_rp_id : string;
  co_user_id : list Z;
  co_user_name : string;
  co_user_displayName : string;
  co_pubKeyCredParams : list cred_param;
  co_authenticatorAttachment : string;
  co_userVerification : string;
  co_requireResidentKey : bool;
  co_timeout : Z;
  co_attestation : string
}.

Record descriptor := { desc_type : string; desc_id : list Z }.

Record request_options := {
  ro_challenge : list Z;
  ro_allowCredentials : list descriptor;
  ro_timeout : Z;
  ro_userVerification : string
}.

(** What a creation ceremony hands back: the raw credential id and the
    result of [response.getPublicKey()]. *)
Record attestation := { att_rawId : list Z; att_publicKey : option (list Z) }.

(** What an assertion ceremony hands back. *)
Record assertion := {
  as_rawId : list Z;
  as_authenticatorData : list Z;
  as_clientDataJSON : list Z;
  as_signature : list Z
}.

(** Requests sent to the store. *)
Inductive request :=
| SelectSecret (uid : string)
| SelectEnabled (uid : string)
| SelectPasskeyIdLimit1 (uid : string)
| SelectCredentialIds (uid : option string)
| SelectPasskeys (uid : string)
| InsertTwoFA (uid : option string) (secret : string) (enabled : bool)
| InsertPasskey (uid credential_id public_key device_name : string)
| UpdateEnabled (uid : string) (enabled : bool)
| DeletePasskey (id : string).

Definition is_read (q : request) : bool :=
  match q with
  | SelectSecret _ | SelectEnabled _ | SelectPasskeyIdLimit1 _
  | SelectCredentialIds _ | SelectPasskeys _ => true
  | _ => false
  end.

Definition is_write (q : request) : bool := negb (is_read q).

(** Everything a handler does to the outside, in the order it does it. *)
Inductive effect :=
| StoreCall (q : request)
| CredentialsCreate (o : creation_options)
| CredentialsGet (o : request_options)
| ToastError (msg : string)
| ToastSuccess (msg : string)
| Navigate (path : string) (state_userId : option string)
| ConsoleError (e : JsError).

(** What the handlers read from the browser and the network during one
    run. *)
Record Env := {
  in_iframe : bool;                 (* window.self !== window.top *)
  has_PublicKeyCredential : bool;   (* window.PublicKeyCredential *)
  hostname : string;                (* window.location.hostname *)
  now : Z;                          (* Date.now(), milliseconds *)
  random_byte : nat -> Z;           (* the source of crypto.getRandomValues *)
  credentials_create : creation_options -> settled (option attestation);
  credentials_get : request_options -> settled (option assertion);
  qr_toDataURL : string -> settled string;   (* QRCode.toDataURL *)
  store_fault : option JsError;     (* the error of the store calls of this
                                       run, when the backend cannot be
                                       reached *)
  gen_random_uuid : string;         (* the id the backend gives a new row *)
  db_now : Z                        (* NOW() at the backend *)
}.

(** [crypto.getRandomValues(new Uint8Array(n))]. *)
Definition getRandomValues (env : Env) (n : nat) : list Z :=
  map (fun i => Word.byte (random_byte env i)) (seq 0 n).

(** The router location and the shared outside world. *)
Record World := {
  database : db;
  pathname : string;
  location_userId : option string;
  trace : list effect
}.

Definition with_db (d : db) (w : World) : World :=
  {| database := d; pathname := pathname w;
     location_userId := location_userId w; trace := trace w |}.

Definition emit (e : effect) (w : World) : World :=
  {| database := database w; pathname := pathname w;
     location_userId := location_userId w; trace := trace w ++ [e] |}.

Definition goto (path : string) (st : option string) (w : World) : World :=
  {| database := database w; pathname := path;
     location_userId := st; trace := trace w ++ [Navigate path st] |}.

(* ------------------------------------------------------------------ *)
(** ** The handler monad: component state, world, exceptions *)

Inductive outcome (A : Type) : Type :=
| Ok (a : A)
| Throw (e : JsError).
Arguments Ok {A} a.
Arguments Throw {A} e.

Record page (X : Type) := Page { comp : X; world : World }.
Arguments Page {X} comp world.
Arguments comp {X} p.
Arguments world {X} p.

Definition M (X A : Type) : Type := page X -> outcome A * page X.

Definition ret {X A} (a : A) : M X A := fun s => (Ok a, s).

Definition bind {X A B} (c : M X A) (k : A -> M X B) : M X B :=
  fun s =>
    match c s with
    | (Ok a, s') => k a s'
    | (Throw e, s') => (Throw e, s')
    end.

Definition throw {X A} (e : JsError) : M X A := fun s => (Throw e, s).

Notation "x <- c ;; k" := (bind c (fun x => k))
  (at level 61, c at next level, right associativity).
Notation "c ;; k" := (bind c (fun _ => k))
  (at level 61, right associativity).

(** [try { body } catch (error) { handler } finally { fin }]. *)
Definition try_catch_finally {X A} (body : M X A)
           (handler : JsError -> M X A) (fin : M X unit) : M X A :=
  fun s =>
    let after r :=
      match r with
      | (Ok a, s') =>
          match fin s' with
          | (Ok _, s'') => (Ok a, s'')
          | (Throw e, s'') => (Throw e, s'')
          end
      | (Throw e, s') =>
          match fin s' with
          | (Ok _, s'') => (Throw e, s'')
          | (Throw e', s'') => (Throw e', s'')
          end
      end in
    match body s with
    | (Ok a, s') => after (Ok a, s')
    | (Throw e, s') => after (handler e s')
    end.

Definition get {X} : M X X := fun s => (Ok (comp s), s).

Definition modify {X} (f : X -> X) : M X unit :=
  fun s => (Ok tt, Page (f (comp s)) (world s)).

Definition act {X} (f : World -> World) : M X unit :=
  fun s => (Ok tt, Page (comp s) (f (world s))).

Definition toast_error {X} (msg : string) : M X unit := act (emit (ToastError msg)).
Definition toast_success {X} (msg : string) : M X unit := act (emit (ToastSuccess msg)).
Definition console_error {X} (e : JsError) : M X unit := act (emit (ConsoleError e)).
Definition navigate {X} (path : string) (st : option string) : M X unit :=
  act (goto path st).

(** [userId] read as a condition: [undefined] and the empty string are
    falsy, so [!userId] holds of both; a truthy id is a non-empty
    string. *)
Definition truthy (o : option string) : option string :=
  match o with
  | Some s => if String.eqb s "" then None else Some s
  | None => None
  end.

Arguments truthy : simpl never.

(** A promise the caller does not await: what it does is done, its
    rejection is seen by nobody. *)
Definition unawaited {X} (m : M X unit) : M X unit :=
  fun s => (Ok tt, snd (m s)).

(** A value that may be missing, or a throwing decoder. *)
Definition or_throw {X A} (o : option A) (e : JsError) : M X A :=
  match o with
  | Some a => ret a
  | None => throw e
  end.

Fixpoint mapM {X A B} (f : A -> M X B) (l : list A) : M X (list B) :=
  match l with
  | [] => ret []
  | a :: rest => b <- f a ;; bs <- mapM f rest ;; ret (b :: bs)
  end.

(** [error.message || fallback]. *)
Definition message_or (e : JsError) (fallback : string) : string :=
  if String.eqb (err_message e) "" then fallback else err_message e.

(* ------------------------------------------------------------------ *)
(** ** The store client *)

Module Supabase.

(** Modelled from the spec: the store client
    ([@/integrations/supabase/client]) and the hosted backend are not
    part of the sources.  Following section 4.1, every operation is one
    network call that either fails with a store error carrying the
    underlying message or answers from the tables; the tables and their
    NOT NULL, UNIQUE and DEFAULT clauses are those of the migration.
    Row level security is the backend's business: the session is taken
    to be the owner of the rows it asks for by user id.  The delete
    names a row by its own id, so there the DELETE policy of the
    migration ([auth.uid() = user_id]) is applied to the session's
    account. *)

Definition postgrest (msg : string) : JsError := mkError "PostgrestError" msg.

(** One call: logged, then answered by the backend unless it cannot be
    reached. *)
Definition call {X A} (env : Env) (q : request)
           (run : db -> response A * db) : M X (response A) :=
  fun s =>
    let w := emit (StoreCall q) (world s) in
    match store_fault env with
    | Some e => (Ok (Failure e), Page (comp s) w)
    | None =>
        let '(r, d) := run (database w) in
        (Ok r, Page (comp s) (with_db d w))
    end.

Definition read {A} (f : db -> response A) (d : db) : response A * db :=
  (f d, d).

(** [.single()]: exactly one row, or an error. *)
Definition single {A} (rows : list A) : response A :=
  match rows with
  | [r] => Data r
  | _ => Failure (postgrest "JSON object requested, multiple (or no) rows returned")
  end.

(** [.from('user_2fa').select('secret').eq('user_id', uid).single()] *)
Definition select_secret {X} (env : Env) (uid : string) : M X (response string) :=
  call env (SelectSecret uid)
       (read (fun d => single (map tf_secret (two_fa_of uid d)))).

(** [.from('user_2fa').select('enabled').eq('user_id', uid).single()] *)
Definition select_enabled {X} (env : Env) (uid : string) : M X (response bool) :=
  call env (SelectEnabled uid)
       (read (fun d => single (map tf_enabled (two_fa_of uid d)))).

(** [.from('user_passkeys').select('id').eq('user_id', uid).limit(1)] *)
Definition select_passkey_id_limit1 {X} (env : Env) (uid : string)
  : M X (response (list string)) :=
  call env (SelectPasskeyIdLimit1 uid)
       (read (fun d => Data (firstn 1 (map pk_id (passkeys_of uid d))))).

(** [.from('user_passkeys').select('credential_id').eq('user_id', userId)];
    an undefined [userId] is no uuid and the backend refuses it. *)
Definition select_credential_ids {X} (env : Env) (uid : option string)
  : M X (response (list string)) :=
  call env (SelectCredentialIds uid)
       (read (fun d =>
                match uid with
                | Some u => Data (map pk_credential_id (passkeys_of u d))
                | None => Failure (postgrest "invalid input syntax for type uuid")
                end)).

(** [.from('user_passkeys').select('*').eq('user_id', uid)] *)
Definition select_passkeys {X} (env : Env) (uid : string)
  : M X (response (list user_passkeys_row)) :=
  call env (SelectPasskeys uid) (read (fun d => Data (passkeys_of uid d))).

(** [.from('user_2fa').insert({ user_id, secret, enabled })] *)
Definition insert_two_fa {X} (env : Env) (uid : option string)
           (secret : string) (enabled : bool) : M X (response unit) :=
  call env (InsertTwoFA uid secret enabled)
       (fun d =>
          match uid with
          | None =>
              (Failure (postgrest "null value in column user_id violates not-null constraint"), d)
          | Some u =>
              if existsb (fun r => String.eqb (tf_user_id r) u) (user_2fa d)
              then (Failure (postgrest "duplicate key value violates unique constraint"), d)
              else
                (Data tt,
                 {| user_2fa :=
                      user_2fa d ++
                        [{| tf_id := gen_random_uuid env; tf_user_id := u;
                            tf_secret := secret; tf_enabled := enabled;
                            tf_backup_codes := None;
                            tf_created_at := db_now env;
                            tf_updated_at := db_now env |}];
                    user_passkeys := user_passkeys d |})
          end).

(** [.from('user_passkeys').insert({ user_id, credential_id, public_key,
    device_name })] *)
Definition insert_passkey {X} (env : Env)
           (uid credential_id public_key device_name : string)
  : M X (response unit) :=
  call env (InsertPasskey uid credential_id public_key device_name)
       (fun d =>
          if existsb (fun r => String.eqb (pk_credential_id r) credential_id)
                     (user_passkeys d)
          then (Failure (postgrest "duplicate key value violates unique constraint"), d)
          else
            (Data tt,
             {| user_2fa := user_2fa d;
                user_passkeys :=
                  user_passkeys d ++
                    [{| pk_id := gen_random_uuid env; pk_user_id := uid;
                        pk_credential_id := credential_id;
                        pk_public_key := public_key;
                        pk_counter := 0;
                        pk_device_name := Some device_name;
                        pk_created_at := db_now env;
                        pk_last_used_at := None |}] |})).

(** [.from('user_2fa').update({ enabled }).eq('user_id', uid)], with the
    [updated_at] trigger of the migration. *)
Definition update_enabled_rows (now : Z) (uid : string) (enabled : bool)
           (d : db) : db :=
  {| user_2fa :=
       map (fun r => if String.eqb (tf_user_id r) uid
                     then touch now (set_enabled enabled r) else r)
           (user_2fa d);
     user_passkeys := user_passkeys d |}.

Definition update_enabled {X} (env : Env) (uid : string) (enabled : bool)
  : M X (response unit) :=
  call env (UpdateEnabled uid enabled)
       (fun d => (Data tt, update_enabled_rows (db_now env) uid enabled d)).

(** The rows the policy "Users can delete own passkeys" lets a session
    delete: those of its own account; a session without an account owns
    none. *)
Definition owned_by (session : option string) (r : user_passkeys_row) : bool :=
  match session with
  | Some uid => String.eqb (pk_user_id r) uid
  | None => false
  end.

(** [.from('user_passkeys').delete().eq('id', id)], sent with the
    session of the signed-in account: the rows of that id that the
    session owns go, the others stay, and the call succeeds either
    way. *)
Definition delete_passkey {X} (env : Env) (session : option string) (id : string)
  : M X (response unit) :=
  call env (DeletePasskey id)
       (fun d =>
          (Data tt,
           {| user_2fa := user_2fa d;
              user_passkeys :=
                filter (fun r => negb (String.eqb (pk_id r) id && owned_by session r))
                       (user_passkeys d) |})).

End Supabase.

(** [const { data, error } = await ...; if (error) throw error;] *)
Definition data_or_throw {X A} (c : M X (response A)) : M X A :=
  r <- c ;;
  match r with
  | Data a => ret a
  | Failure e => throw e
  end.

(** Awaiting a platform promise: a rejection is thrown. *)
Definition await {X A} (e : effect) (p : settled A) : M X A :=
  act (emit e) ;;
  match p with
  | Resolved a => ret a
  | Rejected err => throw err
  end.

(** [OTPAuth.Secret.fromBase32(text)], which throws on a foreign
    character. *)
Definition fromBase32 {X} (text : string) : M X (list Z) :=
  or_throw (Base32.decode text) (mkError "TypeError" "Invalid character found").

(* ------------------------------------------------------------------ *)
(** ** Verify2FA: the code step of the login flow *)

Module Verify2FA.

Record state := {
  userId : option string;   (* location.state?.userId *)
  token : string;
  loading : bool
}.

Definition setLoading (b : bool) : M state unit :=
  modify (fun c => {| userId := userId c; token := token c; loading := b |}).

Definition setToken (t : string) : M state unit :=
  modify (fun c => {| userId := userId c; token := t; loading := loading c |}).

Definition handleVerify (env : Env) : M state unit :=
  setLoading true ;;
  try_catch_finally
    (c <- get ;;
     uid <- or_throw (truthy (userId c)) (Error "User ID not found") ;;
     twoFAData <- data_or_throw (Supabase.select_secret env uid) ;;
     secret <- fromBase32 twoFAData ;;
     match OTPAuth.validate secret (token c) (now env) 1 with
     | None =>
         toast_error "Invalid code. Please try again." ;;
         setLoading false
     | Some _ =>
         toast_success "Verification successful!" ;;
         navigate "/dashboard" None
     end)
    (fun error => toast_error (message_or error "Verification failed"))
    (setLoading false).

End Verify2FA.

(* ------------------------------------------------------------------ *)
(** ** Setup2FA: first-time configuration *)

Module Setup2FA.

Record state := {
  userId : option string;
  qrCode : string;
  secret : string;
  token : string;
  copied : bool;
  loading : bool
}.

Definition setLoading (b : bool) : M state unit :=
  modify (fun c => {| userId := userId c; qrCode := qrCode c; secret := secret c;
                      token := token c; copied := copied c; loading := b |}).

Definition setSecret (v : string) : M state unit :=
  modify (fun c => {| userId := userId c; qrCode := qrCode c; secret := v;
                      token := token c; copied := copied c; loading := loading c |}).

Definition setQrCode (v : string) : M state unit :=
  modify (fun c => {| userId := userId c; qrCode := v; secret := secret c;
                      token := token c; copied := copied c; loading := loading c |}).

Definition setToken (v : string) : M state unit :=
  modify (fun c => {| userId := userId c; qrCode := qrCode c; secret := secret c;
                      token := v; copied := copied c; loading := loading c |}).

(** Modelled from the spec: [totp.toString()] of the [otpauth] package,
    which is not part of the sources.  Section 4.2 gives it as
    [provisioningURI(secret, accountLabel, issuer)], an otpauth:// URI
    and purely a formatting function; label and issuer are the
    'SecureAuth' the page passes, the parameters the RFC 6238 defaults it
    passes. *)
Definition provisioningURI (secret32 : string) : string :=
  "otpauth://totp/SecureAuth:SecureAuth?issuer=SecureAuth&secret="
    ++ secret32 ++ "&algorithm=SHA1&digits=6&period=30".

(** Modelled from the spec: [new OTPAuth.TOTP({...}).secret] of the
    [otpauth] package, constructed without a secret.  Section 4.2 gives
    it as [generateSecret()], cryptographically random key material of
    fixed length, sufficient for SHA1-based TOTP: here the 20 bytes of
    the SHA1 block of RFC 4226, drawn from [crypto.getRandomValues]. *)
Definition totp_secret (env : Env) : list Z := getRandomValues env 20.

(** The page keeps the new secret as base32 text and the image that
    [QRCode.toDataURL] makes of the provisioning URI; when no image is
    made the secret stays and the image is not set. *)
Definition generateSecret (env : Env) : M state unit :=
  let newSecret := Base32.encode (totp_secret env) in
  setSecret newSecret ;;
  let otpauthUrl := provisioningURI newSecret in
  match qr_toDataURL env otpauthUrl with
  | Resolved qr => setQrCode qr
  | Rejected e => throw e
  end.

(** The mount effect, which does not await [generateSecret]. *)
Definition mountEffect (env : Env) : M state unit :=
  c <- get ;;
  match truthy (userId c) with
  | None => navigate "/auth/login" None
  | Some _ => unawaited (generateSecret env)
  end.

Definition handleVerify (env : Env) : M state unit :=
  setLoading true ;;
  try_catch_finally
    (c <- get ;;
     key <- fromBase32 (secret c) ;;
     match OTPAuth.validate key (token c) (now env) 1 with
     | None =>
         toast_error "Invalid code. Please try again." ;;
         setLoading false
     | Some _ =>
         data_or_throw (Supabase.insert_two_fa env (userId c) (secret c) true) ;;
         toast_success "2FA setup complete!" ;;
         navigate "/dashboard" None
     end)
    (fun error => toast_error (message_or error "Failed to setup 2FA"))
    (setLoading false).

End Setup2FA.

(* ------------------------------------------------------------------ *)
(** ** Choose2FA: the method-choice step and the passkey assertion *)

Module Choose2FA.

Record state := {
  userId : option string;
  loading : bool;
  hasPasskeys : bool
}.

(** What [useState] starts the component with. *)
Definition mount (uid : option string) : state :=
  {| userId := uid; loading := false; hasPasskeys := false |}.

Definition setLoading (b : bool) : M state unit :=
  modify (fun c => {| userId := userId c; loading := b; hasPasskeys := hasPasskeys c |}).

Definition setHasPasskeys (b : bool) : M state unit :=
  modify (fun c => {| userId := userId c; loading := loading c; hasPasskeys := b |}).

Definition checkPasskeys (env : Env) : M state unit :=
  c <- get ;;
  match truthy (userId c) with
  | None => ret tt
  | Some uid =>
      r <- Supabase.select_passkey_id_limit1 env uid ;;
      match r with
      | Data (_ :: _) => setHasPasskeys true
      | _ => ret tt
      end
  end.

Definition handleUseCode : M state unit :=
  c <- get ;;
  navigate "/auth/verify-2fa" (userId c).

Definition handleUsePasskey (env : Env) : M state unit :=
  if in_iframe env then
    toast_error "Passkeys cannot be used in preview mode. Please use 2FA code or deploy your app."
  else
    setLoading true ;;
    try_catch_finally
      (if negb (has_PublicKeyCredential env) then
         throw (Error "Passkeys are not supported on this browser")
       else
         c <- get ;;
         passkeys <- data_or_throw (Supabase.select_credential_ids env (userId c)) ;;
         match passkeys with
         | [] => toast_error "No passkeys found. Please use 2FA code."
         | _ :: _ =>
             let challenge := getRandomValues env 32 in
             allowCredentials <-
               mapM (fun credential_id =>
                       id <- or_throw (Base64.atob credential_id)
                               (mkError "InvalidCharacterError"
                                  "The string to be decoded is not correctly encoded.") ;;
                       ret {| desc_type := "public-key"; desc_id := id |})
                    passkeys ;;
             let publicKeyCredentialRequestOptions :=
               {| ro_challenge := challenge;
                  ro_allowCredentials := allowCredentials;
                  ro_timeout := 60000;
                  ro_userVerification := "preferred" |} in
             credential <-
               await (CredentialsGet publicKeyCredentialRequestOptions)
                     (credentials_get env publicKeyCredentialRequestOptions) ;;
             match credential with
             | None => throw (Error "Failed to authenticate with passkey")
             | Some _ =>
                 toast_success "Passkey verified successfully!" ;;
                 navigate "/dashboard" None
             end
         end)
      (fun error =>
         console_error error ;;
         if String.eqb (err_name error) "NotAllowedError" then
           toast_error "Passkey authentication was cancelled"
         else
           toast_error ("Failed to authenticate with passkey: " ++ err_message error))
      (setLoading false).

(** The two buttons of the page. *)
Inductive method := UseCode | UsePasskey.

Record button := { choice : method; disabled : bool }.

(** What the component returns: nothing under [!userId], else the
    code button always and the passkey button under [hasPasskeys]. *)
Definition render (c : state) : list button :=
  match truthy (userId c) with
  | None => []
  | Some _ =>
      {| choice := UseCode; disabled := loading c |}
        :: (if hasPasskeys c
            then [{| choice := UsePasskey; disabled := loading c |}]
            else [])
  end.

Definition offered (m : method) (c : state) : bool :=
  existsb (fun b => match choice b, m with
                    | UseCode, UseCode | UsePasskey, UsePasskey => true
                    | _, _ => false
                    end) (render c).

Definition enabled (m : method) (c : state) : bool :=
  existsb (fun b => match choice b, m with
                    | UseCode, UseCode | UsePasskey, UsePasskey => negb (disabled b)
                    | _, _ => false
                    end) (render c).

(** The component function: under [!userId] it leaves for the
    login page and renders nothing. *)
Definition component : M state (list button) :=
  c <- get ;;
  match truthy (userId c) with
  | None => navigate "/auth/login" None ;; ret []
  | Some _ => ret (render c)
  end.

(** A click reaches its handler only through a rendered, enabled
    button. *)
Definition click (env : Env) (m : method) : M state unit :=
  c <- get ;;
  if enabled m c then
    match m with
    | UseCode => handleUseCode
    | UsePasskey => handleUsePasskey env
    end
  else ret tt.

End Choose2FA.

(* ------------------------------------------------------------------ *)
(** ** Settings: 2FA toggle and passkey registration *)

Module Settings.

Record user := { id : string; email : option string }.

Record state := {
  current_user : option user;     (* useAuth().user *)
  twoFAEnabled : bool;
  passkeys : list user_passkeys_row;
  passkeyName : string;
  loading : bool
}.

Definition setLoading (b : bool) : M state unit :=
  modify (fun c => {| current_user := current_user c; twoFAEnabled := twoFAEnabled c;
                      passkeys := passkeys c; passkeyName := passkeyName c;
                      loading := b |}).

Definition setTwoFAEnabled (b : bool) : M state unit :=
  modify (fun c => {| current_user := current_user c; twoFAEnabled := b;
                      passkeys := passkeys c; passkeyName := passkeyName c;
                      loading := loading c |}).

Definition setPasskeys (l : list user_passkeys_row) : M state unit :=
  modify (fun c => {| current_user := current_user c; twoFAEnabled := twoFAEnabled c;
                      passkeys := l; passkeyName := passkeyName c;
                      loading := loading c |}).

Definition setPasskeyName (n : string) : M state unit :=
  modify (fun c => {| current_user := current_user c; twoFAEnabled := twoFAEnabled c;
                      passkeys := passkeys c; passkeyName := n;
                      loading := loading c |}).

Definition loadSettings (env : Env) : M state unit :=
  c <- get ;;
  match current_user c with
  | None => ret tt
  | Some u =>
      twoFAData <- Supabase.select_enabled env (id u) ;;
      match twoFAData with
      | Data enabled => setTwoFAEnabled enabled
      | Failure _ => ret tt
      end ;;
      passkeyData <- Supabase.select_passkeys env (id u) ;;
      match passkeyData with
      | Data rows => setPasskeys rows
      | Failure _ => ret tt
      end
  end.

Definition toggleTwoFA (env : Env) : M state unit :=
  c <- get ;;
  match current_user c with
  | None => ret tt
  | Some u =>
      setLoading true ;;
      try_catch_finally
        (data_or_throw (Supabase.update_enabled env (id u) (negb (twoFAEnabled c))) ;;
         setTwoFAEnabled (negb (twoFAEnabled c)) ;;
         toast_success (if negb (twoFAEnabled c) then "2FA enabled" else "2FA disabled"))
        (fun _ => toast_error "Failed to update 2FA settings")
        (setLoading false)
  end.

(** White space as [String.prototype.trim] sees it, on Latin-1 text. *)
Definition is_white (c : ascii) : bool :=
  let n := nat_of_ascii c in
  (((9 <=? n) && (n <=? 13)) || (n =? 32) || (n =? 160))%nat.

(** [!passkeyName.trim()] *)
Definition blank (s : string) : bool := forallb is_white (list_ascii_of_string s).

Definition or_empty (o : option string) : string :=
  match o with
  | Some s => s
  | None => EmptyString
  end.

Definition creationOptions (env : Env) (u : user) (challenge : list Z)
  : creation_options :=
  {| co_challenge := challenge;
     co_rp_name := "Secure Auth App";
     co_rp_id := hostname env;
     co_user_id := bytes_of_string (id u);
     co_user_name := or_empty (email u);
     co_user_displayName := or_empty (email u);
     co_pubKeyCredParams :=
       [ {| alg := -7; param_type := "public-key" |};      (* ES256 *)
         {| alg := -257; param_type := "public-key" |} ];  (* RS256 *)
     co_authenticatorAttachment := "platform";
     co_userVerification := "required";
     co_requireResidentKey := false;
     co_timeout := 60000;
     co_attestation := "none" |}.

(** [new Uint8Array(response.getPublicKey()!)]: a missing key gives the
    empty array. *)
Definition publicKeyBytes (a : attestation) : list Z :=
  match att_publicKey a with
  | Some bs => bs
  | None => []
  end.

(** The handler proper; [true] when it ends by calling [loadSettings],
    which it does not await. *)
Definition addPasskey_body (env : Env) (u : user) : M state bool :=
  setLoading true ;;
  try_catch_finally
    (c <- get ;;
     let challenge := getRandomValues env 32 in
     let publicKeyCredentialCreationOptions := creationOptions env u challenge in
     credential <-
       await (CredentialsCreate publicKeyCredentialCreationOptions)
             (credentials_create env publicKeyCredentialCreationOptions) ;;
     match credential with
     | None => throw (Error "Failed to create credential")
     | Some cred =>
         let credentialId := Base64.btoa (att_rawId cred) in
         let publicKey := Base64.btoa (publicKeyBytes cred) in
         data_or_throw
           (Supabase.insert_passkey env (id u) credentialId publicKey (passkeyName c)) ;;
         toast_success "Passkey added successfully" ;;
         setPasskeyName "" ;;
         ret true
     end)
    (fun error =>
       (if String.eqb (err_name error) "NotAllowedError" then
          toast_error "Passkey registration was cancelled"
        else if String.eqb (err_name error) "NotSupportedError" then
          toast_error "Passkeys are not supported on this device"
        else
          toast_error ("Failed to add passkey: " ++ err_message error)) ;;
       ret false)
    (setLoading false).

Definition addPasskey (env : Env) : M state unit :=
  c <- get ;;
  match current_user c with
  | Some u =>
      if blank (passkeyName c) then toast_error "Please enter a device name"
      else
        reload <- addPasskey_body env u ;;
        if reload : bool then loadSettings env else ret tt
  | None => toast_error "Please enter a device name"
  end.

Definition removePasskey (env : Env) (row_id : string) : M state unit :=
  setLoading true ;;
  c <- get ;;
  reload <-
    try_catch_finally
      (data_or_throw
         (Supabase.delete_passkey env (option_map id (current_user c)) row_id) ;;
       toast_success "Passkey removed" ;;
       ret true)
      (fun _ => toast_error "Failed to remove passkey" ;; ret false)
      (setLoading false) ;;
  if reload : bool then loadSettings env else ret tt.

End Settings.

(* ------------------------------------------------------------------ *)
(** ** The flow states of the controller, as routes *)

Inductive flow_state :=
| AwaitingPassword
| AwaitingMethodChoice
| AwaitingTOTPCode
| AwaitingConfirmationCode
| Authenticated
| Elsewhere.

(** The routes of [App]. *)
Definition flow_state_of (path : string) : flow_state :=
  if String.eqb path "/auth/login" then AwaitingPassword
  else if String.eqb path "/auth/choose-2fa" then AwaitingMethodChoice
  else if String.eqb path "/auth/verify-2fa" then AwaitingTOTPCode
  else if String.eqb path "/auth/setup-2fa" then AwaitingConfirmationCode
  else if String.eqb path "/dashboard" then Authenticated
  else Elsewhere.

Definition flow {X} (p : page X) : flow_state := flow_state_of (pathname (world p)).

(** The effects a run added to the trace. *)
Definition added {X} (before after : page X) (effs : list effect) : Prop :=
  trace (world after) = trace (world before) ++ effs.

(** A store call that only reads, or no store call at all. *)
Definition quiet (e : effect) : bool :=
  match e with
  | StoreCall q => is_read q
  | _ => true
  end.

(** A computation that leaves the tables alone and issues no write. *)
Definition read_only {X A} (m : M X A) : Prop :=
  forall s,
    database (world (snd (m s))) = database (world s) /\
    exists effs,
      trace (world (snd (m s))) = trace (world s) ++ effs /\
      forallb quiet effs = true.

(** What a user can see of a run: the result, the component, the route
    and the effects; not the tables. *)
Definition observe {X A} (r : outcome A * page X)
  : outcome A * X * string * option string * list effect :=
  (fst r, comp (snd r), pathname (world (snd r)),
   location_userId (world (snd r)), trace (world (snd r))).

(** Two states of the tables whose 2FA records carry the same user ids
    and secrets, in the same order; the [enabled] flags and every other
    column may differ. *)
Definition id_and_secret (r : user_2fa_row) : string * string :=
  (tf_user_id r, tf_secret r).

Definition same_secrets (d d' : db) : Prop :=
  map id_and_secret (user_2fa d) = map id_and_secret (user_2fa d').

(** The descriptor the passkey step builds from decoded id bytes. *)
Definition public_key_descriptor (id : list Z) : descriptor :=
  {| desc_type := "public-key"; desc_id := id |}.

(** The tables after the setup page's insert for [uid] is accepted. *)
Definition new_two_fa (env : Env) (uid secret : string) (d : db) : db :=
  {| user_2fa :=
       user_2fa d ++
         [{| tf_id := gen_random_uuid env; tf_user_id := uid;
             tf_secret := secret; tf_enabled := true;
             tf_backup_codes := None;
             tf_created_at := db_now env;
             tf_updated_at := db_now env |}];
     user_passkeys := user_passkeys d |}.

(** The tables after a passkey row for [uid] is accepted. *)
Definition new_passkey (env : Env) (uid credential_id public_key device_name : string)
           (d : db) : db :=
  {| user_2fa := user_2fa d;
     user_passkeys :=
       user_passkeys d ++
         [{| pk_id := gen_random_uuid env; pk_user_id := uid;
             pk_credential_id := credential_id;
             pk_public_key := public_key;
             pk_counter := 0;
             pk_device_name := Some device_name;
             pk_created_at := db_now env;
             pk_last_used_at := None |}] |}.

(** Messages and values of the passkey step, named for the statements
    below. *)
Definition preview_notice : string :=
  "Passkeys cannot be used in preview mode. Please use 2FA code or deploy your app.".

Definition decode_error : JsError :=
  mkError "InvalidCharacterError" "The string to be decoded is not correctly encoded.".

(** The options [handleUsePasskey] hands to the assertion ceremony when
    the stored ids decode to [decoded]. *)
Definition requestOptions (env : Env) (decoded : list (list Z)) : request_options :=
  {| ro_challenge := getRandomValues env 32;
     ro_allowCredentials := map public_key_descriptor decoded;
     ro_timeout := 60000;
     ro_userVerification := "preferred" |}.

(** What the catch block of [handleUsePasskey] reports. *)
Definition report (e : JsError) (w : World) : World :=
  emit (ToastError
          (if String.eqb (err_name e) "NotAllowedError"
           then "Passkey authentication was cancelled"
           else "Failed to authenticate with passkey: " ++ err_message e))
       (emit (ConsoleError e) w).

(** Sample data: the secret of the RFC 4226 test vectors and a second
    20-byte secret. *)
Definition secret_rfc : list Z := bytes_of_string "12345678901234567890".
Definition secret_other : list Z := bytes_of_string "ABCDEFGHIJ0000802350".

(** Sample accounts, tables and environments for the closed instances of
    the statements below. *)
Definition alice : string := "7b0c1f0e-5a3d-4c62-9d0e-2f4b8a6c1e11".
Definition bob : string := "c2a9d4b6-11f3-4e08-b7a5-90d3e6f2a744".

Definition alice_two_fa : user_2fa_row :=
  {| tf_id := "0d5e1c1a-8f0b-4a57-a7a1-3b6f0c9d2e01";
     tf_user_id := alice;
     tf_secret := "GEZDGNBVGY3TQOJQGEZDGNBVGY3TQOJQ";
     tf_enabled := true;
     tf_backup_codes := None;
     tf_created_at := 1760990000;
     tf_updated_at := 1760990000 |}.

Definition alice_passkey : user_passkeys_row :=
  {| pk_id := "5f1b7c3e-2d4a-4b6c-8e9f-0a1b2c3d4e5f";
     pk_user_id := alice;
     pk_credential_id := "AQIDBA==";
     pk_public_key := "MFkwEw==";
     pk_counter := 0;
     pk_device_name := Some "Laptop"%string;
     pk_created_at := 1760990100;
     pk_last_used_at := None |}.

Definition sample_db : db :=
  {| user_2fa := [alice_two_fa]; user_passkeys := [alice_passkey] |}.

Definition sample_world (path : string) (uid : string) : World :=
  {| database := sample_db; pathname := path;
     location_userId := Some uid; trace := [] |}.

Definition sample_assertion : assertion :=
  {| as_rawId := [1; 2; 3; 4];
     as_authenticatorData := [73; 150; 13; 229];
     as_clientDataJSON := [123; 125];
     as_signature := [48; 69; 2; 32] |}.

Definition sample_attestation : attestation :=
  {| att_rawId := [9; 8; 7; 6; 5]; att_publicKey := Some [48; 89; 48; 19] |}.

(** A browser tab at time 59 s, the platform consenting to every
    ceremony, the store reachable. *)
Definition sample_env : Env :=
  {| in_iframe := false;
     has_PublicKeyCredential := true;
     hostname := "app.example";
     now := 59000;
     random_byte := fun i => 37 * Z.of_nat i + 11;
     credentials_create := fun _ => Resolved (Some sample_attestation);
     credentials_get := fun _ => Resolved (Some sample_assertion);
     qr_toDataURL := fun _ => Resolved "data:image/png;base64,iVBORw0KGgo="%string;
     store_fault := None;
     gen_random_uuid := "e3b0c442-98fc-4c14-9afb-f4c8996fb924";
     db_now := 1761000000 |}.

(** The same tab shown inside a preview frame. *)
Definition preview_env : Env :=
  {| in_iframe := true;
     has_PublicKeyCredential := has_PublicKeyCredential sample_env;
     hostname := hostname sample_env;
     now := now sample_env;
     random_byte := random_byte sample_env;
     credentials_create := credentials_create sample_env;
     credentials_get := credentials_get sample_env;
     qr_toDataURL := qr_toDataURL sample_env;
     store_fault := store_fault sample_env;
     gen_random_uuid := gen_random_uuid sample_env;
     db_now := db_now sample_env |}.

Definition verify_page (tok : string) : page Verify2FA.state :=
  Page {| Verify2FA.userId := Some alice; Verify2FA.token := tok;
          Verify2FA.loading := false |}
       (sample_world "/auth/verify-2fa" alice).

Definition choose_page (uid : string) : page Choose2FA.state :=
  Page (Choose2FA.mount (Some uid)) (sample_world "/auth/choose-2fa" uid).

(** The setup page of [bob] once its mount effect has run. *)
Definition setup_page (tok : string) : page Setup2FA.state :=
  let mounted :=
    snd (Setup2FA.mountEffect sample_env
           (Page {| Setup2FA.userId := Some bob; Setup2FA.qrCode := "";
                    Setup2FA.secret := ""; Setup2FA.token := "";
                    Setup2FA.copied := false; Setup2FA.loading := false |}
                 (sample_world "/auth/setup-2fa" bob))) in
  snd (Setup2FA.setToken tok mounted).

Definition settings_page (name : string) : page Settings.state :=
  Page {| Settings.current_user :=
            Some {| Settings.id := alice; Settings.email := Some "alice@example.org"%string |};
          Settings.twoFAEnabled := true;
          Settings.passkeys := [alice_passkey];
          Settings.passkeyName := name;
          Settings.loading := false |}
       (sample_world "/dashboard/settings" alice).

(* ------------------------------------------------------------------ *)
(** ** The handlers case by case, and further sample data *)

(** What [Verify2FA.handleVerify] leaves of the world, case by case. *)
Definition verify_world (env : Env) (c : Verify2FA.state) (w : World) : World :=
  match truthy (Verify2FA.userId c) with
  | None => emit (ToastError "User ID not found") w
  | Some uid =>
      let w1 := emit (StoreCall (SelectSecret uid)) w in
      match store_fault env with
      | Some e => emit (ToastError (message_or e "Verification failed")) w1
      | None =>
          match map tf_secret (two_fa_of uid (database w)) with
          | [secret32] =>
              match Base32.decode secret32 with
              | None => emit (ToastError "Invalid character found") w1
              | Some key =>
                  match OTPAuth.validate key (Verify2FA.token c) (now env) 1 with
                  | Some _ =>
                      goto "/dashboard" None
                           (emit (ToastSuccess "Verification successful!") w1)
                  | None => emit (ToastError "Invalid code. Please try again.") w1
                  end
              end
          | _ =>
              emit (ToastError "JSON object requested, multiple (or no) rows returned") w1
          end
      end
  end.

(** Every character of a string passes a test. *)
Fixpoint all_chars (p : ascii -> bool) (s : string) : bool :=
  match s with
  | EmptyString => true
  | String c rest => p c && all_chars p rest
  end.

(** A character of the base32 alphabet. *)
Definition is_base32 (c : ascii) : bool :=
  match index_of c Base32.alphabet with
  | Some _ => true
  | None => false
  end.

(** What [Setup2FA.handleVerify] leaves of the world, case by case. *)
Definition setup_world (env : Env) (c : Setup2FA.state) (w : World) : World :=
  match Base32.decode (Setup2FA.secret c) with
  | None => emit (ToastError "Invalid character found") w
  | Some key =>
      match OTPAuth.validate key (Setup2FA.token c) (now env) 1 with
      | None => emit (ToastError "Invalid code. Please try again.") w
      | Some _ =>
          let w1 :=
            emit (StoreCall (InsertTwoFA (Setup2FA.userId c) (Setup2FA.secret c) true)) w in
          match store_fault env, Setup2FA.userId c with
          | Some e, _ => emit (ToastError (message_or e "Failed to setup 2FA")) w1
          | None, None =>
              emit (ToastError "null value in column user_id violates not-null constraint") w1
          | None, Some uid =>
              if existsb (fun r => String.eqb (tf_user_id r) uid)
                         (user_2fa (database w))
              then emit (ToastError "duplicate key value violates unique constraint") w1
              else
                goto "/dashboard" None
                  (emit (ToastSuccess "2FA setup complete!")
                     (with_db (new_two_fa env uid (Setup2FA.secret c) (database w)) w1))
          end
      end
  end.

(** The allow-list [handleUsePasskey] builds from the stored ids: the
    decoded ids in order, or nothing when one of them does not decode. *)
Fixpoint allow_list (ids : list string) : option (list descriptor) :=
  match ids with
  | [] => Some []
  | i :: rest =>
      match Base64.atob i with
      | None => None
      | Some b =>
          match allow_list rest with
          | None => None
          | Some l => Some (public_key_descriptor b :: l)
          end
      end
  end.

(** The options of the assertion ceremony for an allow-list. *)
Definition assertionOptions (env : Env) (allow : list descriptor) : request_options :=
  {| ro_challenge := getRandomValues env 32;
     ro_allowCredentials := allow;
     ro_timeout := 60000;
     ro_userVerification := "preferred" |}.

(** What [Choose2FA.handleUsePasskey] leaves of the world outside a
    preview frame, case by case. *)
Definition use_passkey_world (env : Env) (c : Choose2FA.state) (w : World) : World :=
  if negb (has_PublicKeyCredential env) then
    report (Error "Passkeys are not supported on this browser") w
  else
    let w1 := emit (StoreCall (SelectCredentialIds (Choose2FA.userId c))) w in
    match store_fault env, Choose2FA.userId c with
    | Some e, _ => report e w1
    | None, None => report (Supabase.postgrest "invalid input syntax for type uuid") w1
    | None, Some uid =>
        match map pk_credential_id (passkeys_of uid (database w)) with
        | [] => emit (ToastError "No passkeys found. Please use 2FA code.") w1
        | i :: rest =>
            match allow_list (i :: rest) with
            | None => report decode_error w1
            | Some allow =>
                let opts := assertionOptions env allow in
                let w2 := emit (CredentialsGet opts) w1 in
                match credentials_get env opts with
                | Resolved (Some _) =>
                    goto "/dashboard" None
                         (emit (ToastSuccess "Passkey verified successfully!") w2)
                | Resolved None =>
                    report (Error "Failed to authenticate with passkey") w2
                | Rejected e => report e w2
                end
            end
        end
    end.

(** The state the code page starts with: the account id of the router
    location, an empty code, not loading. *)
Definition verify_mount (w : World) : Verify2FA.state :=
  {| Verify2FA.userId := location_userId w;
     Verify2FA.token := "";
     Verify2FA.loading := false |}.

(** The state the settings page starts with. *)
Definition settings_mount (u : option Settings.user) : Settings.state :=
  {| Settings.current_user := u;
     Settings.twoFAEnabled := true;
     Settings.passkeys := [];
     Settings.passkeyName := "";
     Settings.loading := false |}.

(** The row a registration adds. *)
Definition passkey_row (env : Env) (uid credential_id public_key device_name : string)
  : user_passkeys_row :=
  {| pk_id := gen_random_uuid env; pk_user_id := uid;
     pk_credential_id := credential_id;
     pk_public_key := public_key;
     pk_counter := 0;
     pk_device_name := Some device_name;
     pk_created_at := db_now env;
     pk_last_used_at := None |}.

(** The tables without the passkey row of a given id of a given
    account. *)
Definition without_passkey (uid row_id : string) (d : db) : db :=
  {| user_2fa := user_2fa d;
     user_passkeys :=
       filter (fun r => negb (String.eqb (pk_id r) row_id
                              && String.eqb (pk_user_id r) uid))
              (user_passkeys d) |}.

(** The notice the catch block of [Settings.addPasskey] shows for an
    error. *)
Definition registration_notice (e : JsError) : string :=
  if String.eqb (err_name e) "NotAllowedError" then
    "Passkey registration was cancelled"
  else if String.eqb (err_name e) "NotSupportedError" then
    "Passkeys are not supported on this device"
  else "Failed to add passkey: " ++ err_message e.

(** The byte values, for properties checked on all of them. *)
Definition bytes256 : list Z := map Z.of_nat (seq 0 256).

(** The six-bit groups [btoa] encodes, and the padding it appends. *)
Fixpoint sextets_of (bs : list Z) : list Z :=
  match bs with
  | [] => []
  | [a] => [Z.shiftr a 2; Z.shiftl (Z.land a 3) 4]
  | [a; b] =>
      [Z.shiftr a 2;
       Z.lor (Z.shiftl (Z.land a 3) 4) (Z.shiftr b 4);
       Z.shiftl (Z.land b 15) 2]
  | a :: b :: c :: rest =>
      Z.shiftr a 2
        :: Z.lor (Z.shiftl (Z.land a 3) 4) (Z.shiftr b 4)
        :: Z.lor (Z.shiftl (Z.land b 15) 2) (Z.shiftr c 6)
        :: c
        :: sextets_of rest
  end.

Fixpoint padding_of (bs : list Z) : list ascii :=
  match bs with
  | [] => []
  | [_] => ["="%char; "="%char]
  | [_; _] => ["="%char]
  | _ :: _ :: _ :: rest => padding_of rest
  end.

(** The setup page of an account once its mount effect has run and a
    code has been typed. *)
Definition setup_page_of (uid tok : string) : page Setup2FA.state :=
  let mounted :=
    snd (Setup2FA.mountEffect sample_env
           (Page {| Setup2FA.userId := Some uid; Setup2FA.qrCode := "";
                    Setup2FA.secret := ""; Setup2FA.token := "";
                    Setup2FA.copied := false; Setup2FA.loading := false |}
                 (sample_world "/auth/setup-2fa" uid))) in
  snd (Setup2FA.setToken tok mounted).

(** The sample tab with the store out of reach. *)
Definition offline_env : Env :=
  {| in_iframe := in_iframe sample_env;
     has_PublicKeyCredential := has_PublicKeyCredential sample_env;
     hostname := hostname sample_env;
     now := now sample_env;
     random_byte := random_byte sample_env;
     credentials_create := credentials_create sample_env;
     credentials_get := credentials_get sample_env;
     qr_toDataURL := qr_toDataURL sample_env;
     store_fault := Some (Supabase.postgrest "Failed to fetch");
     gen_random_uuid := gen_random_uuid sample_env;
     db_now := db_now sample_env |}.

(** The sample tab with a platform that turns every ceremony down. *)
Definition declining_env : Env :=
  {| in_iframe := in_iframe sample_env;
     has_PublicKeyCredential := has_PublicKeyCredential sample_env;
     hostname := hostname sample_env;
     now := now sample_env;
     random_byte := random_byte sample_env;
     credentials_create :=
       fun _ => Rejected {| err_name := "NotAllowedError"; err_message := "The operation was cancelled" |};
     credentials_get :=
       fun _ => Rejected {| err_name := "NotAllowedError"; err_message := "The operation was cancelled" |};
     qr_toDataURL := qr_toDataURL sample_env;
     store_fault := store_fault sample_env;
     gen_random_uuid := gen_random_uuid sample_env;
     db_now := db_now sample_env |}.

(* ================================================================== *)
(** * Properties *)

(** ** The one-time-password engine *)

Section Engine.
Import OTPAuth.

Lemma render_length (k : nat) : forall n acc,
  String.length (render k n acc) = (k + String.length acc)%nat.
Proof.
  induction k as [|k IH]; intros n acc; simpl.
  - reflexivity.
  - rewrite IH. simpl. lia.
Qed.

Lemma hotp_generate_length (secret : list Z) (c : Z) :
  String.length (hotp_generate secret c) = digits.
Proof.
  unfold hotp_generate. rewrite render_length. apply Nat.add_0_r.
Qed.

Local Opaque hotp_generate.

Lemma check_iff (secret : list Z) (tok : string) (i : Z) :
  check secret tok i = true <-> tok = hotp_generate secret i.
Proof. unfold check. apply String.eqb_eq. Qed.

Lemma check_own (secret : list Z) (i : Z) :
  check secret (hotp_generate secret i) i = true.
Proof. apply check_iff. reflexivity. Qed.

(** With [window: 1] the loop runs once. *)
Lemma validate_window1 (secret : list Z) (tok : string) (ts : Z) :
  validate secret tok ts 1 =
    if negb (String.length tok =? digits)%nat then None
    else if check secret tok (counter_at ts) then Some 0
    else if check secret tok (counter_at ts - 1) then Some (-1)
    else if check secret tok (counter_at ts + 1) then Some 1
    else None.
Proof. unfold validate, hotp_validate, scan. reflexivity. Qed.

(** A match names a period of the window whose code is the token. *)
Lemma validate_sound (secret : list Z) (tok : string) (ts d : Z) :
  validate secret tok ts 1 = Some d ->
  (d = 0 \/ d = -1 \/ d = 1) /\ tok = hotp_generate secret (counter_at ts + d).
Proof.
  rewrite validate_window1.
  destruct (negb _); [discriminate|].
  destruct (check secret tok (counter_at ts)) eqn:E0.
  { intros [= <-]. rewrite Z.add_0_r. split; [auto|]. now apply check_iff. }
  destruct (check secret tok (counter_at ts - 1)) eqn:E1.
  { intros [= <-]. split; [auto|]. now apply check_iff. }
  destruct (check secret tok (counter_at ts + 1)) eqn:E2.
  { intros [= <-]. split; [auto|]. now apply check_iff. }
  discriminate.
Qed.

(** No match: the token is the code of no period of the window. *)
Lemma validate_none (secret : list Z) (tok : string) (ts : Z) :
  validate secret tok ts 1 = None <->
  (String.length tok <> digits \/
   (tok <> hotp_generate secret (counter_at ts) /\
    tok <> hotp_generate secret (counter_at ts - 1) /\
    tok <> hotp_generate secret (counter_at ts + 1))).
Proof.
  rewrite validate_window1.
  destruct (String.length tok =? digits)%nat eqn:L; simpl.
  - apply Nat.eqb_eq in L.
    destruct (check secret tok (counter_at ts)) eqn:E0.
    { apply check_iff in E0. split; [discriminate|]. intros [?|[? _]]; congruence. }
    destruct (check secret tok (counter_at ts - 1)) eqn:E1.
    { apply check_iff in E1. split; [discriminate|]. intros [?|[_ [? _]]]; congruence. }
    destruct (check secret tok (counter_at ts + 1)) eqn:E2.
    { apply check_iff in E2. split; [discriminate|]. intros [?|[_ [_ ?]]]; congruence. }
    split; [intros _; right|reflexivity].
    repeat split; intro H; apply check_iff in H; congruence.
  - apply Nat.eqb_neq in L. split; [auto|reflexivity].
Qed.

(** The first matching offset, in the order 0, -1, +1. *)
Lemma validate_first (secret : list Z) (tok : string) (ts d : Z) :
  validate secret tok ts 1 = Some d ->
  (d = -1 -> tok <> hotp_generate secret (counter_at ts)) /\
  (d = 1 -> tok <> hotp_generate secret (counter_at ts) /\
            tok <> hotp_generate secret (counter_at ts - 1)).
Proof.
  rewrite validate_window1.
  destruct (negb _); [discriminate|].
  destruct (check secret tok (counter_at ts)) eqn:E0.
  { intros [= <-]. split; intros; lia. }
  assert (N0 : tok <> hotp_generate secret (counter_at ts)).
  { intro H. apply check_iff in H. congruence. }
  destruct (check secret tok (counter_at ts - 1)) eqn:E1.
  { intros [= <-]. split; [auto|intros; lia]. }
  assert (N1 : tok <> hotp_generate secret (counter_at ts - 1)).
  { intro H. apply check_iff in H. congruence. }
  destruct (check secret tok (counter_at ts + 1)); [|discriminate].
  intros [= <-]. split; [intros; lia|auto].
Qed.

(** A code of the window is accepted. *)
Lemma validate_complete (secret : list Z) (ts c : Z) :
  counter_at ts - 1 <= c <= counter_at ts + 1 ->
  exists d, validate secret (hotp_generate secret c) ts 1 = Some d.
Proof.
  intros Hc. rewrite validate_window1, hotp_generate_length, Nat.eqb_refl. simpl.
  destruct (check secret _ (counter_at ts)) eqn:E0; [eauto|].
  destruct (check secret _ (counter_at ts - 1)) eqn:E1; [eauto|].
  destruct (check secret _ (counter_at ts + 1)) eqn:E2; [eauto|].
  exfalso.
  assert (c = counter_at ts \/ c = counter_at ts - 1 \/ c = counter_at ts + 1)
    as [-> | [-> | ->]] by lia; rewrite check_own in *; discriminate.
Qed.

(** C3 (amended): for every secret and time, the code of [t] validated
    at the instant [now_ms] with window 1 is accepted when the period of
    [t] is the current period or an adjacent one; when it is outside, the
    code is rejected exactly when it differs from the three codes of the
    window (six digits leave room for coincidences).  [validate] looks
    at the current period and the two adjacent ones and nothing else: a
    match is the first offset among 0, -1, +1 whose code is the token,
    and the sentinel means that no code of the window is the token. *)
Theorem C3_validate_window (secret : list Z) (t now_ms : Z) :
  let c := counter_at now_ms in
  let code := generate secret t in
  (c - 1 <= counter_at t <= c + 1 ->
     exists d, validate secret code now_ms 1 = Some d) /\
  (~ (c - 1 <= counter_at t <= c + 1) ->
     (validate secret code now_ms 1 = None <->
        code <> hotp_generate secret c /\
        code <> hotp_generate secret (c - 1) /\
        code <> hotp_generate secret (c + 1))) /\
  (forall tok d,
      validate secret tok now_ms 1 = Some d ->
      (d = 0 \/ d = -1 \/ d = 1) /\
      tok = hotp_generate secret (c + d) /\
      (d = -1 -> tok <> hotp_generate secret c) /\
      (d = 1 -> tok <> hotp_generate secret c /\
                tok <> hotp_generate secret (c - 1))) /\
  (forall tok,
      validate secret tok now_ms 1 = None <->
      (String.length tok <> digits \/
       (tok <> hotp_generate secret c /\
        tok <> hotp_generate secret (c - 1) /\
        tok <> hotp_generate secret (c + 1)))).
Proof.
  intros c code. split; [|split; [|split]].
  - intros Hin. apply validate_complete. exact Hin.
  - intros _. rewrite validate_none. split.
    + intros [Hlen | H]; [|exact H].
      exfalso. apply Hlen. apply hotp_generate_length.
    + intros H. right. exact H.
  - intros tok d H.
    destruct (validate_sound _ _ _ _ H) as [Hd Htok].
    destruct (validate_first _ _ _ _ H) as [Hm Hp].
    auto.
  - intros tok. apply validate_none.
Qed.

(** C7 (amended): a code generated from a secret [s2] is accepted under
    a secret [s1] only at an offset of the window where it is also the
    code of [s1]; a code that differs from the three codes [s1] has in
    the window is rejected. *)
Theorem C7_validate_other_secret (s1 s2 : list Z) (t now_ms : Z) :
  (forall d,
      validate s1 (generate s2 t) now_ms 1 = Some d ->
      (d = 0 \/ d = -1 \/ d = 1) /\
      generate s2 t = hotp_generate s1 (counter_at now_ms + d)) /\
  ((forall d, -1 <= d <= 1 ->
              generate s2 t <> hotp_generate s1 (counter_at now_ms + d)) ->
   validate s1 (generate s2 t) now_ms 1 = None).
Proof.
  split.
  - intros d H. apply validate_sound. exact H.
  - intros Hdiff. apply validate_none. right.
    pose proof (Hdiff 0) as H0. pose proof (Hdiff (-1)) as H1.
    pose proof (Hdiff 1) as H2. rewrite Z.add_0_r in H0.
    repeat split; [apply H0 | apply H1 | apply H2]; lia.
Qed.

Local Transparent hotp_generate.

End Engine.


Example hotp_rfc4226_vectors :
  map (OTPAuth.hotp_generate secret_rfc) [0; 1; 2; 3; 4; 5; 6; 7; 8; 9] =
    ["755224"; "287082"; "359152"; "969429"; "338314";
     "254676"; "287922"; "162583"; "399871"; "520489"]%string.
Proof. vm_compute. reflexivity. Qed.

Example base32_of_secret_rfc :
  Base32.encode secret_rfc = "GEZDGNBVGY3TQOJQGEZDGNBVGY3TQOJQ"%string /\
  Base32.decode "GEZDGNBVGY3TQOJQGEZDGNBVGY3TQOJQ" = Some secret_rfc.
Proof. vm_compute. split; reflexivity. Qed.

(** C3, as stated, fails: the code of 1761000840000 ms is accepted 800
    periods later, at 1761024840000 ms, because the code of that period is
    the same six digits. *)
Lemma C3_counterexample :
  let t := 1761000840000 in
  let now_ms := 1761024840000 in
  OTPAuth.counter_at now_ms - OTPAuth.counter_at t = 800 /\
  OTPAuth.generate secret_rfc t = "759510"%string /\
  OTPAuth.validate secret_rfc (OTPAuth.generate secret_rfc t) now_ms 1 = Some 0.
Proof. vm_compute. repeat split; reflexivity. Qed.

(** C3 on the RFC secret: a code of the adjacent period is accepted,
    "000000" is not. *)
Lemma C3_witness :
  (exists d, OTPAuth.validate secret_rfc (OTPAuth.generate secret_rfc 59000) 61000 1
             = Some d) /\
  OTPAuth.validate secret_rfc "000000" 59000 1 = None.
Proof.
  split.
  - apply (proj1 (C3_validate_window secret_rfc 59000 61000)).
    vm_compute. split; discriminate.
  - apply (proj2 (proj2 (proj2 (C3_validate_window secret_rfc 0 59000)))).
    right. vm_compute. repeat split; discriminate.
Defined.

(** C7, as stated, fails: two distinct 20-byte secrets have the same code
    in the period of 1761000000000 ms. *)
Lemma C7_counterexample :
  let t := 1761000000000 in
  secret_rfc <> secret_other /\
  OTPAuth.generate secret_other t = "011960"%string /\
  OTPAuth.validate secret_rfc (OTPAuth.generate secret_other t) t 1 = Some 0.
Proof.
  vm_compute. repeat split; try reflexivity. discriminate.
Qed.

(** C7 on the two sample secrets at 59 s: the code of the other
    secret is rejected. *)
Lemma C7_witness :
  OTPAuth.validate secret_rfc (OTPAuth.generate secret_other 59000) 59000 1 = None.
Proof.
  apply (proj2 (C7_validate_other_secret secret_rfc secret_other 59000 59000)).
  intros d Hd.
  assert (d = -1 \/ d = 0 \/ d = 1) as [-> | [-> | ->]] by lia;
    vm_compute; discriminate.
Defined.


(* ------------------------------------------------------------------ *)
(** ** Running a handler *)

(** Unfolds the monad and the store client down to the tests on the
    environment and the tables. *)
Ltac run :=
  unfold try_catch_finally, bind, ret, throw, get, modify, act, or_throw,
    data_or_throw, await, fromBase32, toast_error, toast_success,
    console_error, navigate,
    Supabase.select_secret, Supabase.select_enabled,
    Supabase.select_passkey_id_limit1, Supabase.select_credential_ids,
    Supabase.select_passkeys, Supabase.insert_two_fa,
    Supabase.insert_passkey, Supabase.call, Supabase.read;
  cbn.

Ltac trace_eq := unfold added; cbn; rewrite <- ?app_assoc; reflexivity.

Lemma added_unique {X} (before after : page X) (e1 e2 : list effect) :
  added before after e1 -> added before after e2 -> e1 = e2.
Proof.
  unfold added. intros H1 H2. rewrite H1 in H2.
  apply app_inv_head in H2. exact H2.
Qed.

Lemma two_fa_of_nil_existsb (uid : string) (d : db) :
  two_fa_of uid d = [] ->
  existsb (fun r => String.eqb (tf_user_id r) uid) (user_2fa d) = false.
Proof.
  unfold two_fa_of. induction (user_2fa d) as [|r l IH]; simpl; intros H.
  - reflexivity.
  - destruct (String.eqb (tf_user_id r) uid); [discriminate|]. auto.
Qed.

Lemma two_fa_of_nil_absent (uid : string) (d : db) (r : user_2fa_row) :
  two_fa_of uid d = [] -> In r (user_2fa d) -> tf_user_id r <> uid.
Proof.
  intros Hnil Hin Heq.
  assert (Hr : In r (two_fa_of uid d)).
  { unfold two_fa_of. apply filter_In. split; [exact Hin|].
    apply String.eqb_eq. exact Heq. }
  rewrite Hnil in Hr. exact Hr.
Qed.

(** The secrets an account's query returns depend on the rows only
    through their user ids and secrets. *)
Lemma secrets_of_pairs (uid : string) (rows : list user_2fa_row) :
  map tf_secret (filter (fun r => String.eqb (tf_user_id r) uid) rows) =
  map snd (filter (fun x => String.eqb (fst x) uid) (map id_and_secret rows)).
Proof.
  induction rows as [|r l IH]; simpl.
  - reflexivity.
  - destruct (String.eqb (tf_user_id r) uid); simpl; rewrite IH; reflexivity.
Qed.

Lemma same_secrets_query (uid : string) (d d' : db) :
  same_secrets d d' ->
  map tf_secret (two_fa_of uid d) = map tf_secret (two_fa_of uid d').
Proof.
  intros H. unfold two_fa_of. rewrite !secrets_of_pairs. rewrite H. reflexivity.
Qed.

(** Switching 2FA on or off in the settings keeps ids and secrets. *)
Lemma toggle_same_secrets (t : Z) (uid : string) (b : bool) (d : db) :
  same_secrets d (Supabase.update_enabled_rows t uid b d).
Proof.
  unfold same_secrets, Supabase.update_enabled_rows. cbn.
  rewrite map_map. apply map_ext. intros r.
  destruct (String.eqb (tf_user_id r) uid); reflexivity.
Qed.

(** A truthy id is a non-empty string, a falsy one is missing or
    empty. *)
Lemma truthy_some (uid : string) :
  uid <> ""%string -> truthy (Some uid) = Some uid.
Proof.
  intros H. unfold truthy. apply String.eqb_neq in H. rewrite H. reflexivity.
Qed.

Lemma truthy_inv (o : option string) (uid : string) :
  truthy o = Some uid -> o = Some uid /\ uid <> ""%string.
Proof.
  unfold truthy. destruct o as [s|]; [|discriminate].
  destruct (String.eqb s "") eqn:E; [discriminate|].
  intros H. injection H as <-. split; [reflexivity|].
  apply String.eqb_neq. exact E.
Qed.

Lemma truthy_none (o : option string) :
  truthy o = None <-> o = None \/ o = Some ""%string.
Proof.
  unfold truthy. destruct o as [s|].
  - destruct (String.eqb s "") eqn:E.
    + apply String.eqb_eq in E. subst. split; [right; reflexivity|reflexivity].
    + split; [discriminate|]. intros [H|H]; [discriminate|].
      injection H as ->. discriminate E.
  - split; [left; reflexivity|reflexivity].
Qed.

(* ------------------------------------------------------------------ *)
(** ** The code step *)

Section CodeStep.
Import Verify2FA.
Local Opaque OTPAuth.validate Base32.decode.

(** The whole of [handleVerify] once the secret is loaded and decoded:
    the answer of [validate] decides. *)
Lemma handleVerify_loaded (env : Env) (uid tok : string) (l0 : bool)
      (w : World) (secret32 : string) (key : list Z) :
  uid <> ""%string ->
  store_fault env = None ->
  map tf_secret (two_fa_of uid (database w)) = [secret32] ->
  Base32.decode secret32 = Some key ->
  handleVerify env (Page {| userId := Some uid; token := tok; loading := l0 |} w) =
    let w1 := emit (StoreCall (SelectSecret uid)) w in
    (Ok tt,
     Page {| userId := Some uid; token := tok; loading := false |}
          (match OTPAuth.validate key tok (now env) 1 with
           | Some _ =>
               goto "/dashboard" None
                    (emit (ToastSuccess "Verification successful!") w1)
           | None => emit (ToastError "Invalid code. Please try again.") w1
           end)).
Proof.
  intros Hne Hf Hs Hk. unfold handleVerify, setLoading. run.
  rewrite (truthy_some uid Hne). cbn.
  rewrite Hf. cbn. rewrite Hs. cbn. rewrite Hk. cbn.
  destruct (OTPAuth.validate key tok (now env) 1); cbn;
    destruct w; reflexivity.
Qed.

(** C2: in the code step, with the account's secret stored and loaded,
    every submitted code is validated against it: a match leads to the
    dashboard (Authenticated), a mismatch leaves the flow at the code step
    with the invalid-code notice; so does "000000" when it is the code of
    no period of the window. *)
Theorem C2_code_step (env : Env) (uid tok : string) (l0 : bool)
        (w : World) (secret32 : string) (key : list Z) :
  uid <> ""%string ->
  store_fault env = None ->
  map tf_secret (two_fa_of uid (database w)) = [secret32] ->
  Base32.decode secret32 = Some key ->
  pathname w = "/auth/verify-2fa"%string ->
  let before := Page {| userId := Some uid; token := tok; loading := l0 |} w in
  let after := snd (handleVerify env before) in
  let load := StoreCall (SelectSecret uid) in
  let invalid := ToastError "Invalid code. Please try again." in
  flow before = AwaitingTOTPCode /\
  database (world after) = database w /\
  (forall d, OTPAuth.validate key tok (now env) 1 = Some d ->
     flow after = Authenticated /\
     added before after
       [load; ToastSuccess "Verification successful!"; Navigate "/dashboard" None]) /\
  (OTPAuth.validate key tok (now env) 1 = None ->
     flow after = AwaitingTOTPCode /\ added before after [load; invalid]) /\
  (tok = "000000"%string ->
   (forall d, -1 <= d <= 1 ->
      OTPAuth.hotp_generate key (OTPAuth.counter_at (now env) + d) <> "000000"%string) ->
   flow after = AwaitingTOTPCode /\ added before after [load; invalid]).
Proof.
  intros Hne Hf Hs Hk Hp before after load invalid.
  assert (Hnone : OTPAuth.validate key tok (now env) 1 = None ->
                  flow after = AwaitingTOTPCode /\ added before after [load; invalid]).
  { intros Hv. subst after before.
    rewrite (handleVerify_loaded env uid tok l0 w secret32 key Hne Hf Hs Hk).
    cbn. rewrite Hv. split; [|trace_eq].
    unfold flow. cbn. rewrite Hp. reflexivity. }
  split; [|split; [|split; [|split]]].
  - unfold flow. cbn. rewrite Hp. reflexivity.
  - subst after before.
    rewrite (handleVerify_loaded env uid tok l0 w secret32 key Hne Hf Hs Hk).
    cbn. destruct (OTPAuth.validate key tok (now env) 1); reflexivity.
  - intros d Hv. subst after before.
    rewrite (handleVerify_loaded env uid tok l0 w secret32 key Hne Hf Hs Hk).
    cbn. rewrite Hv. split; [reflexivity|trace_eq].
  - exact Hnone.
  - intros -> Hdiff. apply Hnone.
    apply validate_none. right.
    pose proof (Hdiff 0) as H0. pose proof (Hdiff (-1)) as H1.
    pose proof (Hdiff 1) as H2. rewrite Z.add_0_r in H0.
    repeat split; intro E; [apply H0 | apply H1 | apply H2]; try lia;
      symmetry; exact E.
Qed.

(** C9: the code step asks the store for the [secret] column only, and
    what it does is the same for two states of the tables whose 2FA
    records agree on user id and secret, whatever their [enabled] flags: a
    record switched off is validated against like one switched on. *)
Theorem C9_enabled_flag_ignored (env : Env) (c : state) (w : World) (d d' : db) :
  same_secrets d d' ->
  observe (handleVerify env (Page c (with_db d w))) =
  observe (handleVerify env (Page c (with_db d' w))) /\
  (forall q effs,
      added (Page c (with_db d w)) (snd (handleVerify env (Page c (with_db d w)))) effs ->
      In (StoreCall q) effs ->
      exists uid, userId c = Some uid /\ q = SelectSecret uid).
Proof.
  intros Hsame. destruct c as [o tok l0].
  destruct (truthy o) as [uid|] eqn:Ht.
  - destruct (truthy_inv o uid Ht) as [-> _].
    pose proof (same_secrets_query uid d d' Hsame) as Hs.
    unfold handleVerify, setLoading, observe. run. rewrite Ht. cbn.
    destruct (store_fault env) as [e|]; cbn.
    + split; [reflexivity|]. intros q effs Ha Hin.
      unfold added in Ha. cbn in Ha. rewrite <- app_assoc in Ha.
      apply app_inv_head in Ha. subst effs.
      destruct Hin as [E|[E|[]]]; inversion E. eauto.
    + rewrite <- Hs.
      destruct (map tf_secret (two_fa_of uid d)) as [|s32 [|s' l]]; cbn;
        try (split; [reflexivity|]; intros q effs Ha Hin;
             unfold added in Ha; cbn in Ha; rewrite <- app_assoc in Ha;
             apply app_inv_head in Ha; subst effs;
             destruct Hin as [E|[E|[]]]; inversion E; eauto).
      destruct (Base32.decode s32) as [key|]; cbn;
        [destruct (OTPAuth.validate key tok (now env) 1); cbn|];
        (split; [reflexivity|]; intros q effs Ha Hin;
         unfold added in Ha; cbn in Ha; rewrite <- ?app_assoc in Ha;
         apply app_inv_head in Ha; subst effs; cbn in Hin;
         repeat (destruct Hin as [E|Hin]; [inversion E; eauto|]);
         destruct Hin).
  - unfold handleVerify, setLoading, observe. run. rewrite Ht. cbn.
    split; [reflexivity|]. intros q effs Ha Hin.
    unfold added in Ha. cbn in Ha. apply app_inv_head in Ha. subst effs.
    destruct Hin as [E|[]]; inversion E.
Qed.

End CodeStep.

(* ------------------------------------------------------------------ *)
(** ** The monad *)

Lemma bind_ret_l {X A B} (a : A) (k : A -> M X B) (s : page X) :
  (x <- ret a ;; k x) s = k a s.
Proof. reflexivity. Qed.

Lemma bind_ret_r {X A} (c : M X A) (s : page X) :
  (x <- c ;; ret x) s = c s.
Proof. unfold bind, ret. destruct (c s) as [[a|e] s']; reflexivity. Qed.

Lemma bind_assoc {X A B C} (c : M X A) (k : A -> M X B) (h : B -> M X C)
      (s : page X) :
  (y <- (x <- c ;; k x) ;; h y) s = (x <- c ;; y <- k x ;; h y) s.
Proof. unfold bind. destruct (c s) as [[a|e] s']; reflexivity. Qed.

Lemma throw_bind {X A B} (e : JsError) (k : A -> M X B) (s : page X) :
  (x <- throw e ;; k x) s = (Throw e, s).
Proof. reflexivity. Qed.

(** The finally block runs whether the body returns or throws. *)
Lemma finally_runs {X A} (body : M X A) (handler : JsError -> M X A)
      (s : page X) (f : X -> X) :
  exists x w, snd (try_catch_finally body handler (modify f) s) = Page (f x) w.
Proof.
  unfold try_catch_finally, modify.
  destruct (body s) as [[a|e] s1]; cbn; [eauto|].
  destruct (handler e s1) as [[a|e'] s2]; cbn; eauto.
Qed.

(* ------------------------------------------------------------------ *)
(** ** Read-only computations *)

Section ReadOnly.
Context {X : Type}.

Lemma read_only_ret {A} (a : A) : read_only (@ret X A a).
Proof. intros s. split; [reflexivity|]. exists []. now rewrite app_nil_r. Qed.

Lemma read_only_throw {A} (e : JsError) : read_only (@throw X A e).
Proof. intros s. split; [reflexivity|]. exists []. now rewrite app_nil_r. Qed.

Lemma read_only_get : read_only (@get X).
Proof. intros s. split; [reflexivity|]. exists []. now rewrite app_nil_r. Qed.

Lemma read_only_modify (f : X -> X) : read_only (modify f).
Proof. intros s. split; [reflexivity|]. exists []. now rewrite app_nil_r. Qed.

Lemma read_only_emit (e : effect) :
  quiet e = true -> read_only (@act X (emit e)).
Proof.
  intros Hq s. split; [reflexivity|]. exists [e]. cbn. now rewrite Hq.
Qed.

Lemma read_only_navigate (path : string) (st : option string) :
  read_only (@navigate X path st).
Proof. intros s. split; [reflexivity|]. exists [Navigate path st]. now cbn. Qed.

Lemma read_only_bind {A B} (c : M X A) (k : A -> M X B) :
  read_only c -> (forall a, read_only (k a)) -> read_only (bind c k).
Proof.
  intros Hc Hk s. unfold bind.
  destruct (Hc s) as [Hd [e1 [Ht Hq]]].
  destruct (c s) as [[a|e] s1]; cbn in *.
  - destruct (Hk a s1) as [Hd' [e2 [Ht' Hq']]].
    split; [congruence|]. exists (e1 ++ e2).
    rewrite Ht', Ht, app_assoc, forallb_app, Hq, Hq'. auto.
  - split; [exact Hd|]. exists e1. auto.
Qed.

Lemma read_only_try {A} (body : M X A) (handler : JsError -> M X A)
      (fin : M X unit) :
  read_only body -> (forall e, read_only (handler e)) -> read_only fin ->
  read_only (try_catch_finally body handler fin).
Proof.
  intros Hb Hh Hf s. unfold try_catch_finally.
  destruct (Hb s) as [Hd [e1 [Ht Hq]]].
  destruct (body s) as [[a|e] s1]; cbn in *.
  - destruct (Hf s1) as [Hd' [e2 [Ht' Hq']]].
    destruct (fin s1) as [[u|e'] s2]; cbn in *;
      (split; [congruence|]; exists (e1 ++ e2);
       rewrite Ht', Ht, app_assoc, forallb_app, Hq, Hq'; auto).
  - destruct (Hh e s1) as [Hd' [e2 [Ht' Hq']]].
    destruct (handler e s1) as [[a|e'] s2]; cbn in *;
      destruct (Hf s2) as [Hd'' [e3 [Ht'' Hq'']]];
      destruct (fin s2) as [[u|e''] s3]; cbn in *;
        (split; [congruence|]; exists (e1 ++ e2 ++ e3);
         rewrite Ht'', Ht', Ht, <- !app_assoc, !forallb_app, Hq, Hq', Hq'';
         auto).
Qed.

Lemma read_only_or_throw {A} (o : option A) (e : JsError) :
  read_only (@or_throw X A o e).
Proof. destruct o; [apply read_only_ret|apply read_only_throw]. Qed.

Lemma read_only_mapM {A B} (f : A -> M X B) (l : list A) :
  (forall a, read_only (f a)) -> read_only (mapM f l).
Proof.
  intros Hf. induction l as [|a l IH]; cbn.
  - apply read_only_ret.
  - apply read_only_bind; [apply Hf|]. intros b.
    apply read_only_bind; [exact IH|]. intros bs. apply read_only_ret.
Qed.

Lemma read_only_call {A} (env : Env) (q : request) (f : db -> response A) :
  is_read q = true -> read_only (@Supabase.call X A env q (Supabase.read f)).
Proof.
  intros Hq s. unfold Supabase.call, Supabase.read.
  destruct (store_fault env); cbn;
    (split; [reflexivity|]; exists [StoreCall q]; cbn; now rewrite Hq).
Qed.

Lemma read_only_data_or_throw {A} (c : M X (response A)) :
  read_only c -> read_only (data_or_throw c).
Proof.
  intros Hc. apply read_only_bind; [exact Hc|].
  intros [a|e]; [apply read_only_ret|apply read_only_throw].
Qed.

Lemma read_only_await {A} (e : effect) (p : settled A) :
  quiet e = true -> read_only (@await X A e p).
Proof.
  intros Hq. apply read_only_bind; [apply read_only_emit; exact Hq|].
  intros _. destruct p; [apply read_only_ret|apply read_only_throw].
Qed.

End ReadOnly.

Create HintDb ro.

#[local] Hint Resolve read_only_ret read_only_throw read_only_get
  read_only_modify read_only_navigate read_only_or_throw
  read_only_data_or_throw : ro.

(* ------------------------------------------------------------------ *)
(** ** The method-choice step *)

Section MethodChoice.
Import Choose2FA.
Local Opaque Base64.atob getRandomValues.
Local Arguments mapM : simpl never.

Lemma handleUsePasskey_iframe (env : Env) (c : state) (w : World) :
  in_iframe env = true ->
  handleUsePasskey env (Page c w) =
    (Ok tt, Page c (emit (ToastError preview_notice) w)).
Proof. intros H. unfold handleUsePasskey. rewrite H. reflexivity. Qed.

(** The passkey handler never writes to the store. *)
Lemma handleUsePasskey_read_only (env : Env) : read_only (handleUsePasskey env).
Proof.
  unfold handleUsePasskey. destruct (in_iframe env).
  { apply read_only_emit. reflexivity. }
  apply read_only_bind; [apply read_only_modify|]. intros _.
  apply read_only_try.
  - destruct (negb (has_PublicKeyCredential env)); [apply read_only_throw|].
    apply read_only_bind; [apply read_only_get|]. intros c.
    apply read_only_bind.
    { apply read_only_data_or_throw. apply read_only_call. reflexivity. }
    intros [|i rest]; [apply read_only_emit; reflexivity|].
    apply read_only_bind.
    { apply read_only_mapM. intros a.
      apply read_only_bind; auto with ro. }
    intros allow. apply read_only_bind.
    { apply read_only_await. reflexivity. }
    intros [a|]; [|apply read_only_throw].
    apply read_only_bind; [apply read_only_emit; reflexivity|].
    intros _. apply read_only_navigate.
  - intros e. apply read_only_bind; [apply read_only_emit; reflexivity|].
    intros _. destruct (String.eqb (err_name e) "NotAllowedError");
      apply read_only_emit; reflexivity.
  - apply read_only_modify.
Qed.

(** Decoding the stored ids touches neither the component nor the world. *)
Lemma mapM_descriptors_state (ids : list string) (s : page state) :
  snd (mapM (fun credential_id =>
               id <- or_throw (Base64.atob credential_id) decode_error ;;
               ret {| desc_type := "public-key"; desc_id := id |})
            ids s) = s.
Proof.
  induction ids as [|i ids IH]; [reflexivity|].
  unfold mapM; fold (@mapM state string descriptor).
  unfold bind at 1. unfold bind at 1.
  destruct (Base64.atob i) as [b|]; cbn; [|reflexivity].
  unfold bind at 1.
  destruct (mapM _ ids s) as [[l|e] s1]; cbn in *; exact IH.
Qed.

(** Decoding the stored ids one by one, when each of them decodes. *)
Lemma mapM_descriptors (ids : list string) :
  forall (decoded : list (list Z)) (s : page state),
    map Base64.atob ids = map Some decoded ->
    mapM (fun credential_id =>
            id <- or_throw (Base64.atob credential_id) decode_error ;;
            ret {| desc_type := "public-key"; desc_id := id |})
         ids s
    = (Ok (map public_key_descriptor decoded), s).
Proof.
  induction ids as [|i ids IH]; intros [|b decoded] s H; try discriminate.
  - reflexivity.
  - cbn in H. injection H as Hi Hrest.
    unfold mapM; fold (@mapM state string descriptor).
    unfold bind at 1. unfold bind at 1. rewrite Hi. cbn.
    unfold bind at 1. rewrite (IH decoded s Hrest). reflexivity.
Qed.

Lemma handleUsePasskey_ceremony (env : Env) (c : state) (w : World)
      (uid : string) (decoded : list (list Z)) :
  in_iframe env = false ->
  has_PublicKeyCredential env = true ->
  store_fault env = None ->
  userId c = Some uid ->
  map pk_credential_id (passkeys_of uid (database w)) <> [] ->
  map Base64.atob (map pk_credential_id (passkeys_of uid (database w)))
    = map Some decoded ->
  handleUsePasskey env (Page c w) =
    let opts := requestOptions env decoded in
    let w2 := emit (CredentialsGet opts)
                   (emit (StoreCall (SelectCredentialIds (Some uid))) w) in
    (Ok tt,
     Page {| userId := userId c; loading := false; hasPasskeys := hasPasskeys c |}
          (match credentials_get env opts with
           | Resolved (Some _) =>
               goto "/dashboard" None
                    (emit (ToastSuccess "Passkey verified successfully!") w2)
           | Resolved None =>
               report (Error "Failed to authenticate with passkey") w2
           | Rejected e => report e w2
           end)).
Proof.
  intros Hi Hp Hf Hu Hne Hdec.
  unfold handleUsePasskey, setLoading. rewrite Hi, Hp. run.
  rewrite Hf, Hu. cbn.
  destruct (map pk_credential_id (passkeys_of uid (database w)))
    as [|i rest] eqn:Hids; [contradiction|].
  fold decode_error.
  rewrite (mapM_descriptors (i :: rest) decoded _ Hdec). cbn.
  fold (requestOptions env decoded).
  destruct (credentials_get env (requestOptions env decoded)) as [[a|]|e];
    cbn; unfold report; cbn; try destruct (String.eqb (err_name e) _);
    destruct w; reflexivity.
Qed.

Lemma handleUsePasskey_no_passkeys (env : Env) (c : state) (w : World)
      (uid : string) :
  in_iframe env = false ->
  has_PublicKeyCredential env = true ->
  store_fault env = None ->
  userId c = Some uid ->
  map pk_credential_id (passkeys_of uid (database w)) = [] ->
  handleUsePasskey env (Page c w) =
    (Ok tt,
     Page {| userId := userId c; loading := false; hasPasskeys := hasPasskeys c |}
          (emit (ToastError "No passkeys found. Please use 2FA code.")
                (emit (StoreCall (SelectCredentialIds (Some uid))) w))).
Proof.
  intros Hi Hp Hf Hu Hnil.
  unfold handleUsePasskey, setLoading. rewrite Hi, Hp. run.
  rewrite Hf, Hu. cbn. rewrite Hnil. cbn. destruct w; reflexivity.
Qed.

Lemma limit1_nonempty (uid : string) (d : db) :
  firstn 1 (map pk_id (passkeys_of uid d)) = [] <-> passkeys_of uid d = [].
Proof.
  destruct (passkeys_of uid d); cbn; split; intros H; try reflexivity;
    discriminate.
Qed.

(** The whole of [checkPasskeys] on a freshly mounted page. *)
Lemma checkPasskeys_mount (env : Env) (uid : string) (w : World) :
  uid <> ""%string ->
  checkPasskeys env (Page (mount (Some uid)) w) =
    (Ok tt,
     Page {| userId := Some uid; loading := false;
             hasPasskeys := match store_fault env, passkeys_of uid (database w) with
                            | None, _ :: _ => true
                            | _, _ => false
                            end |}
          (emit (StoreCall (SelectPasskeyIdLimit1 uid)) w)).
Proof.
  intros Hne. unfold checkPasskeys, setHasPasskeys, mount. run.
  rewrite (truthy_some uid Hne). cbn.
  destruct (store_fault env); cbn; [reflexivity|].
  destruct (passkeys_of uid (database w)); cbn; destruct w; reflexivity.
Qed.

(** C5: the method-choice step asks the store for the account's passkeys;
    the code button is always offered, and the passkey button is offered
    only to an account with a stored passkey and, the store answering, to
    every such account; with no stored passkey the code button is the
    only one and a click on the passkey option reaches no handler. *)
Theorem C5_method_choice (env : Env) (uid : string) (w : World) :
  uid <> ""%string ->
  let before := Page (mount (Some uid)) w in
  let after := snd (checkPasskeys env before) in
  added before after [StoreCall (SelectPasskeyIdLimit1 uid)] /\
  offered UseCode (comp after) = true /\
  (offered UsePasskey (comp after) = true ->
     passkeys_of uid (database w) <> []) /\
  (store_fault env = None ->
     (offered UsePasskey (comp after) = true <->
        passkeys_of uid (database w) <> [])) /\
  (passkeys_of uid (database w) = [] ->
     map choice (render (comp after)) = [UseCode] /\
     forall env', click env' UsePasskey after = (Ok tt, after)).
Proof.
  intros Hne before after. subst after before.
  rewrite (checkPasskeys_mount env uid w Hne).
  unfold offered, click, enabled, render. cbn.
  rewrite (truthy_some uid Hne). cbn.
  split; [reflexivity|]. split; [reflexivity|].
  destruct (passkeys_of uid (database w)) as [|r l]; cbn.
  - assert (E : match store_fault env with Some _ | None => false end = false)
      by (destruct (store_fault env); reflexivity).
    rewrite E. cbn. split; [discriminate|]. split.
    + intros _. split; [discriminate|congruence].
    + intros _. split; reflexivity.
  - split; [discriminate|]. split; [|discriminate].
    intros ->. cbn. split; [discriminate|reflexivity].
Qed.

(** C10: inside an iframe the passkey handler only emits its notice: no
    store call and no ceremony is issued, and the component, the route
    and the tables are left as they were. *)
Theorem C10_iframe_refusal (env : Env) (c : state) (w : World) :
  in_iframe env = true ->
  let before := Page c w in
  let after := snd (handleUsePasskey env before) in
  fst (handleUsePasskey env before) = Ok tt /\
  added before after [ToastError preview_notice] /\
  (forall e effs, added before after effs -> In e effs ->
     match e with
     | StoreCall _ | CredentialsGet _ | CredentialsCreate _ => False
     | _ => True
     end) /\
  comp after = c /\
  flow after = flow before /\
  location_userId (world after) = location_userId w /\
  database (world after) = database w.
Proof.
  intros Hi before after. subst after before.
  rewrite (handleUsePasskey_iframe env c w Hi). cbn.
  repeat split.
  intros e effs Ha Hin. unfold added in Ha. cbn in Ha.
  apply app_inv_head in Ha. subst effs.
  destruct Hin as [<-|[]]. exact I.
Qed.

(** C1: outside an iframe, on a browser with WebAuthn and with the store
    answering, the passkey handler first loads the credential ids stored
    for the account; an empty list ends it with the no-passkeys notice and
    no ceremony; otherwise the ceremony is asked with the allow-list of the
    decoded ids, and the flow reaches the dashboard exactly when the
    ceremony resolves to a credential, whatever that credential holds. *)
Theorem C1_passkey_authentication (env : Env) (c : state) (w : World)
        (uid : string) :
  in_iframe env = false ->
  has_PublicKeyCredential env = true ->
  store_fault env = None ->
  userId c = Some uid ->
  flow (Page c w) = AwaitingMethodChoice ->
  let before := Page c w in
  let after := snd (handleUsePasskey env before) in
  let ids := map pk_credential_id (passkeys_of uid (database w)) in
  let load := StoreCall (SelectCredentialIds (Some uid)) in
  (exists rest, added before after (load :: rest)) /\
  (ids = [] ->
     added before after [load; ToastError "No passkeys found. Please use 2FA code."] /\
     flow after = AwaitingMethodChoice) /\
  (forall decoded,
     ids <> [] ->
     map Base64.atob ids = map Some decoded ->
     let opts := requestOptions env decoded in
     (exists rest, added before after (load :: CredentialsGet opts :: rest)) /\
     (flow after = Authenticated <->
        exists a, credentials_get env opts = Resolved (Some a)) /\
     (forall a, credentials_get env opts = Resolved (Some a) ->
        added before after
          [load; CredentialsGet opts;
           ToastSuccess "Passkey verified successfully!";
           Navigate "/dashboard" None])).
Proof.
  intros Hi Hp Hf Hu Hflow before after ids load.
  assert (Hnil : ids = [] ->
                 added before after
                   [load; ToastError "No passkeys found. Please use 2FA code."] /\
                 flow after = AwaitingMethodChoice).
  { intros Hnil. subst after before.
    rewrite (handleUsePasskey_no_passkeys env c w uid Hi Hp Hf Hu Hnil).
    split; [trace_eq|exact Hflow]. }
  assert (Hsome : forall decoded, ids <> [] ->
            map Base64.atob ids = map Some decoded ->
            after = snd (let opts := requestOptions env decoded in
                         let w2 := emit (CredentialsGet opts) (emit load w) in
                         (Ok tt,
                          Page {| userId := userId c; loading := false;
                                  hasPasskeys := hasPasskeys c |}
                               (match credentials_get env opts with
                                | Resolved (Some _) =>
                                    goto "/dashboard" None
                                      (emit (ToastSuccess "Passkey verified successfully!") w2)
                                | Resolved None =>
                                    report (Error "Failed to authenticate with passkey") w2
                                | Rejected e => report e w2
                                end)))).
  { intros decoded Hne Hdec. subst after before.
    rewrite (handleUsePasskey_ceremony env c w uid decoded Hi Hp Hf Hu Hne Hdec).
    reflexivity. }
  split; [|split].
  - destruct ids as [|i rest] eqn:Hids.
    + destruct (Hnil eq_refl) as [Ha _]. eexists. exact Ha.
    + subst after before.
      unfold handleUsePasskey, setLoading. rewrite Hi, Hp. run.
      rewrite Hf, Hu. cbn. fold ids. rewrite Hids. fold decode_error.
      match goal with
      | |- context [mapM ?f ?l ?s] =>
          assert (Hs : snd (mapM f l s) = s) by exact (mapM_descriptors_state l s);
          destruct (mapM f l s) as [[allow|e] s1]
      end; cbn in Hs; subst s1; cbn.
      * destruct (credentials_get env _) as [[a|]|e]; cbn;
          try destruct (String.eqb (err_name e) _); eexists; trace_eq.
      * destruct (String.eqb (err_name e) _); eexists; trace_eq.
  - exact Hnil.
  - intros decoded Hne Hdec opts. rewrite (Hsome decoded Hne Hdec). cbn.
    fold opts. split; [|split].
    + destruct (credentials_get env opts) as [[a|]|e]; eexists; trace_eq.
    + destruct (credentials_get env opts) as [[a|]|e]; unfold flow, report; cbn.
      * split; [eauto|reflexivity].
      * unfold flow in Hflow. cbn in Hflow. rewrite Hflow.
        split; [discriminate|]. intros [a Ha]. discriminate.
      * unfold flow in Hflow. cbn in Hflow. rewrite Hflow.
        split; [discriminate|]. intros [a Ha]. discriminate.
    + intros a Ha. rewrite Ha. trace_eq.
Qed.

(** C8: a run of the passkey handler that ends in success leaves the
    tables as they were, every passkey row with its counter and last-used
    time, and issues no write to the store. *)
Theorem C8_assertion_frame (env : Env) (c : state) (w : World)
        (effs : list effect) :
  let before := Page c w in
  let after := snd (handleUsePasskey env before) in
  added before after effs ->
  In (ToastSuccess "Passkey verified successfully!") effs ->
  database (world after) = database w /\
  (forall r, In r (user_passkeys (database w)) ->
     exists r', In r' (user_passkeys (database (world after))) /\
       r' = r /\ pk_counter r' = pk_counter r /\
       pk_last_used_at r' = pk_last_used_at r) /\
  (forall q, In (StoreCall q) effs -> is_write q = false).
Proof.
  intros before after Ha _.
  destruct (handleUsePasskey_read_only env before) as [Hd [effs' [Ht Hq]]].
  fold after in Hd, Ht. cbn in Hd.
  assert (effs' = effs) as -> by (eapply added_unique; [exact Ht|exact Ha]).
  split; [exact Hd|]. split.
  - intros r Hr. exists r. rewrite Hd. auto.
  - intros q Hin. rewrite forallb_forall in Hq. specialize (Hq _ Hin).
    cbn in Hq. unfold is_write. rewrite Hq. reflexivity.
Qed.

End MethodChoice.

(* ------------------------------------------------------------------ *)
(** ** First-time setup *)

Section Setup.
Import Setup2FA.
Local Opaque OTPAuth.validate Base32.decode.

(** What the setup page does after a matching code: the insert, and
    then either the error of the store or the way to the dashboard. *)
Lemma setup_handleVerify (env : Env) (c : state) (w : World) (uid : string)
      (key : list Z) :
  userId c = Some uid ->
  two_fa_of uid (database w) = [] ->
  Base32.decode (secret c) = Some key ->
  handleVerify env (Page c w) =
    (Ok tt,
     Page {| userId := userId c; qrCode := qrCode c; secret := secret c;
             token := token c; copied := copied c; loading := false |}
          (match OTPAuth.validate key (token c) (now env) 1 with
           | None => emit (ToastError "Invalid code. Please try again.") w
           | Some _ =>
               let w1 := emit (StoreCall (InsertTwoFA (Some uid) (secret c) true)) w in
               match store_fault env with
               | Some e => emit (ToastError (message_or e "Failed to setup 2FA")) w1
               | None =>
                   goto "/dashboard" None
                     (emit (ToastSuccess "2FA setup complete!")
                        (with_db (new_two_fa env uid (secret c) (database w)) w1))
               end
           end)).
Proof.
  intros Hu Hnil Hk. unfold handleVerify, setLoading. run.
  rewrite Hk. cbn.
  destruct (OTPAuth.validate key (token c) (now env) 1); cbn.
  - rewrite Hu. destruct (store_fault env) as [e|]; run.
    + destruct w; reflexivity.
    + rewrite (two_fa_of_nil_existsb uid _ Hnil). run.
      destruct w; reflexivity.
  - destruct w; reflexivity.
Qed.

(** C4: in the setup flow of an account without a 2FA record, the
    generated secret is in the store afterwards (with [enabled] set) only
    if the submitted code validates against it and, the store answering,
    whenever it does; a mismatch issues no store call and leaves the flow
    at the confirmation step; a match issues the insert and, the store
    answering, persists the record, announces the completed setup and
    goes to the dashboard. *)
Theorem C4_setup_persists_iff_valid (env : Env) (c : state) (w : World)
        (uid : string) (key : list Z) :
  userId c = Some uid ->
  two_fa_of uid (database w) = [] ->
  Base32.decode (secret c) = Some key ->
  flow (Page c w) = AwaitingConfirmationCode ->
  let before := Page c w in
  let after := snd (handleVerify env before) in
  let valid := OTPAuth.validate key (token c) (now env) 1 in
  let insert := StoreCall (InsertTwoFA (Some uid) (secret c) true) in
  let persisted :=
    exists r, In r (user_2fa (database (world after))) /\
              tf_user_id r = uid /\ tf_secret r = secret c /\
              tf_enabled r = true in
  (persisted -> valid <> None) /\
  (store_fault env = None -> (persisted <-> valid <> None)) /\
  (valid = None ->
     database (world after) = database w /\
     added before after [ToastError "Invalid code. Please try again."] /\
     flow after = AwaitingConfirmationCode) /\
  (valid <> None -> exists rest, added before after (insert :: rest)) /\
  (store_fault env = None ->
   valid <> None ->
     database (world after) = new_two_fa env uid (secret c) (database w) /\
     added before after
       [insert; ToastSuccess "2FA setup complete!"; Navigate "/dashboard" None] /\
     flow after = Authenticated).
Proof.
  intros Hu Hnil Hk Hflow before after valid insert persisted.
  assert (Hfresh : forall r, In r (user_2fa (database w)) -> tf_user_id r <> uid).
  { intros r Hin. exact (two_fa_of_nil_absent uid _ r Hnil Hin). }
  subst persisted after before.
  rewrite (setup_handleVerify env c w uid key Hu Hnil Hk). cbn.
  fold valid. fold insert. destruct valid as [d|]; cbn.
  - split; [discriminate|]. split; [|split; [discriminate|split]].
    + intros ->. cbn. split; [discriminate|]. intros _.
      eexists. split; [apply in_or_app; right; left; reflexivity|].
      cbn. auto.
    + intros _. destruct (store_fault env); eexists; trace_eq.
    + intros -> _. cbn. split; [reflexivity|]. split; [trace_eq|reflexivity].
  - assert (Hno : ~ exists r, In r (user_2fa (database w)) /\
                              tf_user_id r = uid /\ tf_secret r = secret c /\
                              tf_enabled r = true).
    { intros [r [Hin [Hr _]]]. exact (Hfresh r Hin Hr). }
    split; [intros H; contradiction|].
    split; [intros _; split; [intros H; contradiction|congruence]|].
    split; [|split; [congruence|intros _; congruence]].
    intros _. split; [reflexivity|]. split; [trace_eq|exact Hflow].
Qed.

End Setup.

(* ------------------------------------------------------------------ *)
(** ** Passkey registration *)

Section Registration.
Import Settings.
Local Opaque Base64.btoa.


Local Opaque getRandomValues.





End Registration.


(* ------------------------------------------------------------------ *)
(** ** Closed instances on the sample data *)

(** The tables after [alice] switches 2FA off in the settings. *)
Lemma toggled_off :
  map tf_enabled
      (user_2fa (database (world (snd (Settings.toggleTwoFA sample_env
                                         (settings_page "")))))) = [false].
Proof. vm_compute. reflexivity. Qed.

(** C1 on the sample data: [alice], who has a passkey, reaches the
    dashboard; [bob], who has none, gets the no-passkeys notice. *)
Lemma C1_witness :
  flow (snd (Choose2FA.handleUsePasskey sample_env (choose_page alice)))
    = Authenticated /\
  added (choose_page bob)
        (snd (Choose2FA.handleUsePasskey sample_env (choose_page bob)))
        [StoreCall (SelectCredentialIds (Some bob));
         ToastError "No passkeys found. Please use 2FA code."].
Proof.
  split.
  - pose proof (C1_passkey_authentication sample_env
                  (Choose2FA.mount (Some alice))
                  (sample_world "/auth/choose-2fa" alice) alice
                  eq_refl eq_refl eq_refl eq_refl eq_refl) as H.
    cbv zeta in H. destruct H as [_ [_ H]].
    specialize (H [[1; 2; 3; 4]]).
    destruct H as [_ [H _]].
    + vm_compute. discriminate.
    + vm_compute. reflexivity.
    + apply H. exists sample_assertion. reflexivity.
  - pose proof (C1_passkey_authentication sample_env
                  (Choose2FA.mount (Some bob))
                  (sample_world "/auth/choose-2fa" bob) bob
                  eq_refl eq_refl eq_refl eq_refl eq_refl) as H.
    cbv zeta in H. destruct H as [_ [H _]].
    apply H. vm_compute. reflexivity.
Defined.

(** C2 on the sample data: the code of the current period is accepted,
    "000000" is not. *)
Lemma C2_witness :
  flow (snd (Verify2FA.handleVerify sample_env (verify_page "287082")))
    = Authenticated /\
  flow (snd (Verify2FA.handleVerify sample_env (verify_page "000000")))
    = AwaitingTOTPCode.
Proof.
  assert (Hs : map tf_secret (two_fa_of alice (database (sample_world "/auth/verify-2fa" alice)))
               = ["GEZDGNBVGY3TQOJQGEZDGNBVGY3TQOJQ"%string])
    by (vm_compute; reflexivity).
  assert (Hk : Base32.decode "GEZDGNBVGY3TQOJQGEZDGNBVGY3TQOJQ" = Some secret_rfc)
    by (vm_compute; reflexivity).
  assert (Ha : alice <> ""%string) by discriminate.
  split.
  - pose proof (C2_code_step sample_env alice "287082" false _ _ _
                             Ha eq_refl Hs Hk eq_refl) as H.
    cbv zeta in H. destruct H as [_ [_ [H _]]].
    apply (H 0). vm_compute. reflexivity.
  - pose proof (C2_code_step sample_env alice "000000" false _ _ _
                             Ha eq_refl Hs Hk eq_refl) as H.
    cbv zeta in H. destruct H as [_ [_ [_ [_ H]]]].
    apply H; [reflexivity|].
    intros d Hd.
    assert (d = -1 \/ d = 0 \/ d = 1) as [-> | [-> | ->]] by lia;
      vm_compute; discriminate.
Defined.

(** C4 on the sample data: the code of the generated secret persists
    it; "000000" leaves the tables as they were. *)
Lemma C4_witness :
  (exists r,
      In r (user_2fa (database (world (snd (Setup2FA.handleVerify sample_env
                                              (setup_page "682185")))))) /\
      tf_user_id r = bob /\
      tf_secret r = "BMYFK6U7YTUQ4M2YPWRMP3ARGZNYBJOK"%string /\
      tf_enabled r = true) /\
  database (world (snd (Setup2FA.handleVerify sample_env (setup_page "000000"))))
    = sample_db.
Proof.
  assert (Hk : forall tok,
             Base32.decode (Setup2FA.secret (comp (setup_page tok)))
             = Some (getRandomValues sample_env 20))
    by (intros tok; vm_compute; reflexivity).
  split.
  - pose proof (C4_setup_persists_iff_valid sample_env
                  (comp (setup_page "682185")) (world (setup_page "682185"))
                  bob _ eq_refl eq_refl (Hk _) eq_refl) as H.
    cbv zeta in H. destruct H as [_ [H _]].
    apply (H eq_refl). vm_compute. discriminate.
  - pose proof (C4_setup_persists_iff_valid sample_env
                  (comp (setup_page "000000")) (world (setup_page "000000"))
                  bob _ eq_refl eq_refl (Hk _) eq_refl) as H.
    cbv zeta in H. destruct H as [_ [_ [H _]]].
    apply H. vm_compute. reflexivity.
Defined.

(** C5 on the sample data: [alice] is offered the passkey button, [bob]
    only the code button. *)
Lemma C5_witness :
  Choose2FA.offered Choose2FA.UsePasskey
    (comp (snd (Choose2FA.checkPasskeys sample_env (choose_page alice)))) = true /\
  map Choose2FA.choice
      (Choose2FA.render
         (comp (snd (Choose2FA.checkPasskeys sample_env (choose_page bob)))))
    = [Choose2FA.UseCode].
Proof.
  split.
  - pose proof (C5_method_choice sample_env alice
                  (sample_world "/auth/choose-2fa" alice)
                  ltac:(discriminate)) as H.
    cbv zeta in H. destruct H as [_ [_ [_ [H _]]]].
    apply (H eq_refl). vm_compute. discriminate.
  - pose proof (C5_method_choice sample_env bob
                  (sample_world "/auth/choose-2fa" bob)
                  ltac:(discriminate)) as H.
    cbv zeta in H. destruct H as [_ [_ [_ [_ H]]]].
    apply H. vm_compute. reflexivity.
Defined.


(** C8 on the sample data: after the successful assertion of [alice]
    the tables are the sample tables. *)
Lemma C8_witness :
  database (world (snd (Choose2FA.handleUsePasskey sample_env (choose_page alice))))
    = sample_db.
Proof.
  pose proof (C8_assertion_frame sample_env (Choose2FA.mount (Some alice))
                (sample_world "/auth/choose-2fa" alice)
                [StoreCall (SelectCredentialIds (Some alice));
                 CredentialsGet (requestOptions sample_env [[1; 2; 3; 4]]);
                 ToastSuccess "Passkey verified successfully!";
                 Navigate "/dashboard" None]) as H.
  cbv zeta in H. apply H.
  - vm_compute. reflexivity.
  - right. right. left. reflexivity.
Defined.

(** C9 on the sample data: the code step does the same before and
    after [alice] switches 2FA off in the settings. *)
Lemma C9_witness :
  observe (Verify2FA.handleVerify sample_env
             (Page (comp (verify_page "287082"))
                   (with_db sample_db (world (verify_page "287082"))))) =
  observe (Verify2FA.handleVerify sample_env
             (Page (comp (verify_page "287082"))
                   (with_db (database (world (snd (Settings.toggleTwoFA sample_env
                                                     (settings_page "")))))
                            (world (verify_page "287082"))))).
Proof.
  apply (C9_enabled_flag_ignored sample_env (comp (verify_page "287082"))
           (world (verify_page "287082")) sample_db
           (database (world (snd (Settings.toggleTwoFA sample_env (settings_page "")))))).
  vm_compute. reflexivity.
Defined.

(** C10 on the sample data: in the preview frame the handler only
    shows its notice. *)
Lemma C10_witness :
  added (choose_page alice)
        (snd (Choose2FA.handleUsePasskey preview_env (choose_page alice)))
        [ToastError preview_notice] /\
  database (world (snd (Choose2FA.handleUsePasskey preview_env (choose_page alice))))
    = sample_db.
Proof.
  pose proof (C10_iframe_refusal preview_env (Choose2FA.mount (Some alice))
                (sample_world "/auth/choose-2fa" alice) eq_refl) as H.
  cbv zeta in H. destruct H as [_ [Ha [_ [_ [_ [_ Hd]]]]]].
  split; [exact Ha|exact Hd].
Defined.

(* ================================================================== *)
(** * Further properties of the handlers *)

(* ------------------------------------------------------------------ *)
(** ** The code step, on every input *)

(** Reads the effects of a run off an [added] hypothesis. *)
Ltac effects_of H :=
  unfold added in H; cbn in H; rewrite <- ?app_assoc in H;
  apply app_inv_head in H; cbn in H; subst.

(** Closes a goal whose hypothesis finds an effect in a list that does
    not hold it. *)
Ltac absent H :=
  solve [cbn in H;
         repeat (destruct H as [H|H]; [discriminate H|]);
         destruct H].

Section CodeStepTotal.
Import Verify2FA.
Local Opaque OTPAuth.validate Base32.decode.

(** [handleVerify] on any component state, world and environment. *)
Lemma handleVerify_total (env : Env) (c : state) (w : World) :
  handleVerify env (Page c w) =
    (Ok tt,
     Page {| userId := userId c; token := token c; loading := false |}
          (verify_world env c w)).
Proof.
  destruct c as [o tok l0]; unfold handleVerify, setLoading, verify_world; run.
  destruct (truthy o) as [uid|]; cbn.
  - destruct (store_fault env) as [e|]; cbn; [destruct w; reflexivity|].
    destruct (map tf_secret (two_fa_of uid (database w))) as [|s32 [|s' l]]; cbn;
      try (destruct w; reflexivity).
    destruct (Base32.decode s32) as [key|]; cbn; [|destruct w; reflexivity].
    destruct (OTPAuth.validate key tok (now env) 1); cbn; destruct w; reflexivity.
  - destruct w; reflexivity.
Qed.

(** X1: whatever the component state, the tables and the environment,
    the code step goes to the dashboard only when the account id is
    there, the store returned exactly one secret for it, the secret
    decodes, and [validate] accepted the submitted code. *)
Theorem verify_dashboard_only_on_match (env : Env) (c : state) (w : World)
        (effs : list effect) :
  added (Page c w) (snd (handleVerify env (Page c w))) effs ->
  In (Navigate "/dashboard" None) effs ->
  exists uid secret32 key d,
    userId c = Some uid /\
    store_fault env = None /\
    map tf_secret (two_fa_of uid (database w)) = [secret32] /\
    Base32.decode secret32 = Some key /\
    OTPAuth.validate key (token c) (now env) 1 = Some d.
Proof.
  rewrite handleVerify_total. unfold verify_world. intros Ha Hin.
  destruct (truthy (userId c)) as [uid|] eqn:Ht; [|effects_of Ha; absent Hin].
  destruct (truthy_inv _ _ Ht) as [Hu _].
  destruct (store_fault env) as [e|]; [effects_of Ha; absent Hin|].
  destruct (map tf_secret (two_fa_of uid (database w))) as [|s32 [|s' l]] eqn:Hs;
    try (effects_of Ha; absent Hin).
  destruct (Base32.decode s32) as [key|] eqn:Hk; [|effects_of Ha; absent Hin].
  destruct (OTPAuth.validate key (token c) (now env) 1) as [d|] eqn:Hv;
    [|effects_of Ha; absent Hin].
  exists uid, s32, key, d. repeat split; auto.
Qed.

(** X2: the code step never rejects, always ends with the loading flag
    down, keeps the account id and the typed code, leaves the tables as
    they were and sends the store nothing but the read of the secret. *)
Theorem verify_settles_quietly (env : Env) (c : state) (w : World) :
  let after := snd (handleVerify env (Page c w)) in
  fst (handleVerify env (Page c w)) = Ok tt /\
  loading (comp after) = false /\
  userId (comp after) = userId c /\
  token (comp after) = token c /\
  database (world after) = database w /\
  (forall effs q,
      added (Page c w) after effs -> In (StoreCall q) effs ->
      exists uid, userId c = Some uid /\ q = SelectSecret uid).
Proof.
  cbv zeta. rewrite handleVerify_total. cbn.
  repeat (split; [reflexivity|]).
  unfold verify_world. split.
  - destruct (truthy (userId c)); [|reflexivity].
    destruct (store_fault env); [reflexivity|].
    destruct (map tf_secret _) as [|s32 [|s' l]]; try reflexivity.
    destruct (Base32.decode s32); [|reflexivity].
    destruct (OTPAuth.validate _ _ _ _); reflexivity.
  - intros effs q Ha Hin.
    destruct (truthy (userId c)) as [uid|] eqn:Ht; [|effects_of Ha; absent Hin].
    destruct (truthy_inv _ _ Ht) as [Hu _].
    exists uid. split; [exact Hu|].
    destruct (store_fault env) as [e|].
    { effects_of Ha. destruct Hin as [E|Hin]; [congruence|absent Hin]. }
    destruct (map tf_secret (two_fa_of uid (database w))) as [|s32 [|s' l]];
      try (effects_of Ha; destruct Hin as [E|Hin]; [congruence|absent Hin]).
    destruct (Base32.decode s32) as [key|];
      [|effects_of Ha; destruct Hin as [E|Hin]; [congruence|absent Hin]].
    destruct (OTPAuth.validate key (token c) (now env) 1);
      effects_of Ha; (destruct Hin as [E|Hin]; [congruence|absent Hin]).
Qed.

End CodeStepTotal.

Section CodeStepFailures.
Import Verify2FA.
Local Opaque OTPAuth.validate Base32.decode.

(** X3: with the account id missing or empty the code step asks the
    store nothing and reports the missing id; with a non-empty id, on a
    store failure it reports the store's message, and for an account
    without a 2FA record the error of the single-row read; in each case,
    whatever code was typed, the route and the tables stay as they
    were. *)
Theorem verify_failures_reported (env : Env) (c : state) (w : World) :
  let before := Page c w in
  let after := snd (handleVerify env before) in
  (userId c = None \/ userId c = Some ""%string ->
     added before after [ToastError "User ID not found"] /\
     pathname (world after) = pathname w /\
     database (world after) = database w) /\
  (forall uid e,
     userId c = Some uid -> uid <> ""%string -> store_fault env = Some e ->
     added before after
       [StoreCall (SelectSecret uid);
        ToastError (message_or e "Verification failed")] /\
     pathname (world after) = pathname w /\
     database (world after) = database w) /\
  (forall uid,
     userId c = Some uid -> uid <> ""%string -> store_fault env = None ->
     two_fa_of uid (database w) = [] ->
     added before after
       [StoreCall (SelectSecret uid);
        ToastError "JSON object requested, multiple (or no) rows returned"] /\
     pathname (world after) = pathname w /\
     database (world after) = database w).
Proof.
  cbv zeta. rewrite handleVerify_total. unfold verify_world. cbn.
  split; [|split].
  - intros H. apply truthy_none in H. rewrite H.
    split; [trace_eq|]. split; reflexivity.
  - intros uid e Hu Hne Hf. rewrite Hu, (truthy_some uid Hne), Hf.
    split; [trace_eq|]. split; reflexivity.
  - intros uid Hu Hne Hf Hnil. rewrite Hu, (truthy_some uid Hne), Hf, Hnil.
    split; [trace_eq|]. split; reflexivity.
Qed.

End CodeStepFailures.

(* ------------------------------------------------------------------ *)
(** ** The generated secret *)

Section GeneratedSecret.

Lemma all_chars_app (p : ascii -> bool) (s t : string) :
  all_chars p (s ++ t) = all_chars p s && all_chars p t.
Proof.
  induction s as [|c s IH]; cbn; [reflexivity|].
  rewrite IH, andb_assoc. reflexivity.
Qed.

Lemma all_chars_Forall (p : ascii -> bool) (s : string) :
  all_chars p s = true -> Forall (fun c => p c = true) (list_ascii_of_string s).
Proof.
  induction s as [|c s IH]; cbn; intros H; constructor;
    apply andb_true_iff in H; tauto.
Qed.

Lemma char_at_base32 (x : Z) :
  is_base32 (char_at Base32.alphabet (Z.land x 31)) = true.
Proof.
  change 31 with (Z.ones 5). rewrite Z.land_ones by lia.
  assert (Hall : forallb (fun n => is_base32 (char_at Base32.alphabet (Z.of_nat n)))
                         (seq 0 32) = true) by (vm_compute; reflexivity).
  rewrite forallb_forall in Hall.
  change (2 ^ 5) with 32.
  pose proof (Z.mod_pos_bound x 32 eq_refl) as Hb.
  specialize (Hall (Z.to_nat (x mod 32))).
  rewrite Z2Nat.id in Hall by lia. apply Hall.
  apply in_seq. lia.
Qed.

Lemma emit_base32 (fuel : nat) :
  forall value bits, all_chars is_base32 (fst (Base32.emit fuel value bits)) = true.
Proof.
  induction fuel as [|f IH]; intros value bits; cbn; [reflexivity|].
  destruct (5 <=? bits); [|reflexivity].
  specialize (IH value (bits - 5)).
  destruct (Base32.emit f value (bits - 5)) as [s b]. cbn in *.
  rewrite char_at_base32, IH. reflexivity.
Qed.

Lemma encode_loop_base32 (bs : list Z) :
  forall value bits, all_chars is_base32 (Base32.encode_loop bs value bits) = true.
Proof.
  induction bs as [|b bs IH]; intros value bits.
  - cbn. destruct (0 <? bits); cbn; [rewrite char_at_base32|]; reflexivity.
  - change (Base32.encode_loop (b :: bs) value bits)
      with (let '(s, bits') :=
              Base32.emit 3 (Word.w32 (Z.lor (Z.shiftl value 8) b)) (bits + 8) in
            (s ++ Base32.encode_loop bs (Word.w32 (Z.lor (Z.shiftl value 8) b)) bits')%string).
    pose proof (emit_base32 3 (Word.w32 (Z.lor (Z.shiftl value 8) b)) (bits + 8)) as He.
    destruct (Base32.emit 3 _ (bits + 8)) as [s b']. cbn [fst] in He.
    rewrite all_chars_app, He, IH. reflexivity.
Qed.

(** A character of the alphabet is no space and no padding, and upper
    case already. *)
Lemma base32_char_plain (c : ascii) :
  is_base32 c = true ->
  Ascii.eqb c " " = false /\ c <> "="%char /\ Base32.upper c = c.
Proof.
  intros H.
  destruct c as [b0 b1 b2 b3 b4 b5 b6 b7];
    destruct b0, b1, b2, b3, b4, b5, b6, b7;
    try (vm_compute in H; discriminate H);
    repeat split; try reflexivity; discriminate.
Qed.

Lemma strip_equals_plain (cs : list ascii) :
  Forall (fun c => is_base32 c = true) cs -> Base32.strip_equals cs = cs.
Proof.
  intros H. unfold Base32.strip_equals.
  assert (Hr : Forall (fun c => is_base32 c = true) (rev cs))
    by (apply Forall_rev; exact H).
  rewrite <- (rev_involutive cs) at 2. f_equal.
  destruct (rev cs) as [|a r]; [reflexivity|].
  inversion Hr as [|? ? Ha _]; subst.
  destruct (base32_char_plain a Ha) as [_ [Hne _]].
  destruct a as [b0 b1 b2 b3 b4 b5 b6 b7];
    destruct b0, b1, b2, b3, b4, b5, b6, b7; try reflexivity.
  exfalso. apply Hne. reflexivity.
Qed.

Lemma decode_loop_total (cs : list ascii) :
  Forall (fun c => is_base32 c = true) cs ->
  forall value bits, exists bs, Base32.decode_loop cs value bits = Some bs.
Proof.
  induction 1 as [|c cs Hc _ IH]; intros value bits; [cbn; eauto|].
  unfold Base32.decode_loop; fold Base32.decode_loop.
  unfold is_base32 in Hc.
  destruct (index_of c Base32.alphabet) as [idx|]; [|discriminate].
  cbv zeta. destruct (8 <=? bits + 5).
  - destruct (IH (Word.w32 (Z.lor (Z.shiftl value 5) idx)) (bits + 5 - 8)) as [bs ->].
    cbn [option_map]. eauto.
  - apply IH.
Qed.

(** Text over the base32 alphabet decodes. *)
Lemma decode_base32_text (s : string) :
  all_chars is_base32 s = true -> exists key, Base32.decode s = Some key.
Proof.
  intros H. apply all_chars_Forall in H. unfold Base32.decode.
  assert (Hf : filter (fun c => negb (Ascii.eqb c " ")) (list_ascii_of_string s)
               = list_ascii_of_string s).
  { apply forallb_filter_id. apply forallb_forall. intros c Hc.
    rewrite Forall_forall in H.
    destruct (base32_char_plain c (H c Hc)) as [-> _]. reflexivity. }
  rewrite Hf, (strip_equals_plain _ H).
  assert (Hu : map Base32.upper (list_ascii_of_string s) = list_ascii_of_string s).
  { rewrite <- (map_id (list_ascii_of_string s)) at 2. apply map_ext_in.
    intros c Hc. rewrite Forall_forall in H.
    apply (base32_char_plain c (H c Hc)). }
  rewrite Hu. apply decode_loop_total. exact H.
Qed.

Lemma encode_decodes (bs : list Z) :
  exists key, Base32.decode (Base32.encode bs) = Some key.
Proof. apply decode_base32_text. apply encode_loop_base32. Qed.

End GeneratedSecret.

(* ------------------------------------------------------------------ *)
(** ** First-time setup, on every input *)

Section SetupTotal.
Import Setup2FA.
Local Opaque OTPAuth.validate Base32.decode Base32.encode getRandomValues.

Lemma existsb_two_fa_of (uid : string) (d : db) :
  existsb (fun r => String.eqb (tf_user_id r) uid) (user_2fa d) = true <->
  two_fa_of uid d <> [].
Proof.
  unfold two_fa_of. induction (user_2fa d) as [|r l IH]; cbn.
  - split; [discriminate|congruence].
  - destruct (String.eqb (tf_user_id r) uid); cbn; [|exact IH].
    split; [discriminate|reflexivity].
Qed.

Lemma existsb_user_absent (uid : string) (rows : list user_2fa_row) :
  existsb (fun r => String.eqb (tf_user_id r) uid) rows = false ->
  ~ In uid (map tf_user_id rows).
Proof.
  induction rows as [|r l IH]; cbn; [tauto|].
  destruct (String.eqb (tf_user_id r) uid) eqn:E; cbn; [discriminate|].
  apply String.eqb_neq in E. intros H [H1|H2]; [congruence|]. exact (IH H H2).
Qed.

(** The setup [handleVerify] on any component state, world and
    environment. *)
Lemma setup_handleVerify_total (env : Env) (c : state) (w : World) :
  handleVerify env (Page c w) =
    (Ok tt,
     Page {| userId := userId c; qrCode := qrCode c; secret := secret c;
             token := token c; copied := copied c; loading := false |}
          (setup_world env c w)).
Proof.
  unfold handleVerify, setLoading, setup_world. run.
  destruct (Base32.decode (secret c)) as [key|]; cbn; [|destruct w; reflexivity].
  destruct (OTPAuth.validate key (token c) (now env) 1); cbn;
    [|destruct w; reflexivity].
  destruct (store_fault env) as [e|]; run; [destruct w; reflexivity|].
  destruct (userId c) as [uid|]; run; [|destruct w; reflexivity].
  destruct (existsb _ (user_2fa (database w))); run; destruct w; reflexivity.
Qed.

(** X4: the mount effect of the setup page never rejects.  With the
    account id missing or empty it only leaves for the login page.  With
    a non-empty id it touches neither the route, the tables nor the
    trace, keeps the id and the typed code, and stores a secret that
    [fromBase32] decodes without error; the image it stores is the one
    the QR library made of the provisioning URI of that secret, and when
    the library fails the image is left as it was. *)
Theorem setup_mount_secret (env : Env) (c : state) (w : World) :
  let before := Page c w in
  let after := snd (mountEffect env before) in
  let uri := provisioningURI (secret (comp after)) in
  fst (mountEffect env before) = Ok tt /\
  (userId c = None \/ userId c = Some ""%string ->
     added before after [Navigate "/auth/login" None] /\
     comp after = c) /\
  (forall uid, userId c = Some uid -> uid <> ""%string ->
     world after = w /\
     userId (comp after) = Some uid /\
     token (comp after) = token c /\
     (exists key, Base32.decode (secret (comp after)) = Some key) /\
     (forall qr, qr_toDataURL env uri = Resolved qr -> qrCode (comp after) = qr) /\
     (forall e, qr_toDataURL env uri = Rejected e -> qrCode (comp after) = qrCode c)).
Proof.
  cbv zeta. destruct c as [o q s t cp l].
  unfold mountEffect, unawaited, generateSecret, setSecret, setQrCode. run.
  destruct (truthy o) as [uid'|] eqn:Ht.
  - destruct (truthy_inv o uid' Ht) as [-> Hne'].
    split; [reflexivity|]. split.
    + intros [H|H]; [discriminate H|]. injection H as ->. destruct Hne'. reflexivity.
    + intros uid Hu _. injection Hu as <-.
      destruct (qr_toDataURL env _) as [qr|e] eqn:Hq; cbn;
        (split; [destruct w; reflexivity|]);
        (split; [reflexivity|]); (split; [reflexivity|]);
        (split; [apply encode_decodes|]);
        split; intros x Hx; congruence.
  - split; [reflexivity|]. split.
    + intros _. cbn. split; [trace_eq|reflexivity].
    + intros uid Hu Hne. cbn in Hu. subst o.
      rewrite (truthy_some uid Hne) in Ht. discriminate Ht.
Qed.

(** X5: the setup [handleVerify] never rejects and always ends with the
    loading flag down; it keeps the rows of both tables, adding at most
    one 2FA row, and if no two 2FA rows shared a user id before, none do
    afterwards. *)
Theorem setup_keeps_one_record_per_account (env : Env) (c : state) (w : World) :
  NoDup (map tf_user_id (user_2fa (database w))) ->
  let after := snd (handleVerify env (Page c w)) in
  fst (handleVerify env (Page c w)) = Ok tt /\
  loading (comp after) = false /\
  NoDup (map tf_user_id (user_2fa (database (world after)))) /\
  user_passkeys (database (world after)) = user_passkeys (database w) /\
  (user_2fa (database (world after)) = user_2fa (database w) \/
   exists r, user_2fa (database (world after)) = user_2fa (database w) ++ [r] /\
             userId c = Some (tf_user_id r) /\ tf_secret r = secret c /\
             tf_enabled r = true).
Proof.
  intros Hnd. cbv zeta. rewrite setup_handleVerify_total. cbn.
  split; [reflexivity|]. split; [reflexivity|]. unfold setup_world.
  destruct (Base32.decode (secret c)) as [key|]; cbn; [|auto].
  destruct (OTPAuth.validate key (token c) (now env) 1); cbn; [|auto].
  destruct (store_fault env) as [e|]; cbn; [auto|].
  destruct (userId c) as [uid|]; cbn; [|auto].
  destruct (existsb _ (user_2fa (database w))) eqn:E; cbn; [auto|].
  split; [|split; [reflexivity|]].
  - rewrite map_app. cbn. apply NoDup_app; [exact Hnd|repeat constructor; tauto|].
    intros x Hx [<-|[]]. exact (existsb_user_absent _ _ E Hx).
  - right. eexists. split; [reflexivity|]. cbn. auto.
Qed.

(** X6: for an account that already has a 2FA record the setup
    [handleVerify] changes nothing in the tables and does not leave the
    page, whatever code is typed; with a matching code and the store
    reachable it is the insert that is refused, and the refusal is
    shown. *)
Theorem setup_again_refused (env : Env) (c : state) (w : World) (uid : string) :
  userId c = Some uid ->
  two_fa_of uid (database w) <> [] ->
  let before := Page c w in
  let after := snd (handleVerify env before) in
  database (world after) = database w /\
  pathname (world after) = pathname w /\
  (forall key d,
     Base32.decode (secret c) = Some key ->
     OTPAuth.validate key (token c) (now env) 1 = Some d ->
     store_fault env = None ->
     added before after
       [StoreCall (InsertTwoFA (Some uid) (secret c) true);
        ToastError "duplicate key value violates unique constraint"]).
Proof.
  intros Hu Hex. apply existsb_two_fa_of in Hex.
  cbv zeta. rewrite setup_handleVerify_total. cbn. unfold setup_world.
  rewrite Hu, Hex. split; [|split].
  - destruct (Base32.decode (secret c)) as [key|]; [|reflexivity].
    destruct (OTPAuth.validate key (token c) (now env) 1); [|reflexivity].
    destruct (store_fault env); reflexivity.
  - destruct (Base32.decode (secret c)) as [key|]; [|reflexivity].
    destruct (OTPAuth.validate key (token c) (now env) 1); [|reflexivity].
    destruct (store_fault env); reflexivity.
  - intros key d -> -> ->. trace_eq.
Qed.

(** X7: the setup page goes to the dashboard only after the store has
    accepted the record: the account id is there, the secret decodes, the
    code validates against it, and the tables afterwards are the old ones
    plus the enabled record of that account. *)
Theorem setup_dashboard_only_when_persisted (env : Env) (c : state) (w : World)
        (effs : list effect) :
  let before := Page c w in
  let after := snd (handleVerify env before) in
  added before after effs ->
  In (Navigate "/dashboard" None) effs ->
  exists uid key d,
    userId c = Some uid /\
    Base32.decode (secret c) = Some key /\
    OTPAuth.validate key (token c) (now env) 1 = Some d /\
    two_fa_of uid (database w) = [] /\
    database (world after) = new_two_fa env uid (secret c) (database w).
Proof.
  cbv zeta. rewrite setup_handleVerify_total. cbn. unfold setup_world.
  intros Ha Hin.
  destruct (Base32.decode (secret c)) as [key|] eqn:Hk; [|effects_of Ha; absent Hin].
  destruct (OTPAuth.validate key (token c) (now env) 1) as [d|] eqn:Hv;
    [|effects_of Ha; absent Hin].
  destruct (store_fault env) as [e|]; [effects_of Ha; absent Hin|].
  destruct (userId c) as [uid|]; [|effects_of Ha; absent Hin].
  destruct (existsb _ (user_2fa (database w))) eqn:E; [effects_of Ha; absent Hin|].
  exists uid, key, d. repeat split; try reflexivity; try assumption.
  destruct (two_fa_of uid (database w)) eqn:E2; [reflexivity|].
  assert (H : two_fa_of uid (database w) <> []) by (rewrite E2; discriminate).
  apply existsb_two_fa_of in H. congruence.
Qed.

(** The mount effect for a non-empty account id. *)
Lemma mountEffect_mounted (env : Env) (c : state) (w : World) (uid : string) :
  userId c = Some uid -> uid <> ""%string ->
  snd (mountEffect env (Page c w)) =
    let secret32 := Base32.encode (totp_secret env) in
    Page {| userId := Some uid;
            qrCode := match qr_toDataURL env (provisioningURI secret32) with
                      | Resolved qr => qr
                      | Rejected _ => qrCode c
                      end;
            secret := secret32; token := token c;
            copied := copied c; loading := loading c |} w.
Proof.
  destruct c as [o q s t cp l]. cbn. intros -> Hne.
  unfold mountEffect, unawaited, generateSecret, setSecret, setQrCode. run.
  rewrite (truthy_some uid Hne).
  destruct (qr_toDataURL env _); cbn; destruct w; reflexivity.
Qed.

(** X21: the secret shown at mount is the one that is checked and
    stored: for an account without a 2FA record, the code that the
    decoded secret gives for the current period or one next to it, typed
    and submitted with the store reachable, is accepted; the record
    persisted is the mounted secret for that account, enabled, and the
    page leaves for the dashboard. *)
Theorem setup_round_trip (env env' : Env) (c : state) (w : World) (uid : string)
        (key : list Z) (n : Z) :
  userId c = Some uid -> uid <> ""%string ->
  let mounted := snd (mountEffect env (Page c w)) in
  Base32.decode (secret (comp mounted)) = Some key ->
  OTPAuth.counter_at (now env') - 1 <= n <= OTPAuth.counter_at (now env') + 1 ->
  store_fault env' = None ->
  two_fa_of uid (database w) = [] ->
  let typed := snd (setToken (OTPAuth.hotp_generate key n) mounted) in
  let after := snd (handleVerify env' typed) in
  added typed after
    [StoreCall (InsertTwoFA (Some uid) (secret (comp mounted)) true);
     ToastSuccess "2FA setup complete!";
     Navigate "/dashboard" None] /\
  database (world after) = new_two_fa env' uid (secret (comp mounted)) (database w) /\
  flow after = Authenticated.
Proof.
  intros Hu Hne mounted. subst mounted.
  rewrite (mountEffect_mounted env c w uid Hu Hne). cbv zeta.
  cbn [comp secret]. intros Hk Hn Hf Hnil.
  unfold setToken, modify. cbn [snd comp world userId qrCode secret token copied loading].
  rewrite setup_handleVerify_total. unfold setup_world.
  cbn [snd comp world userId qrCode secret token copied loading].
  rewrite Hk. destruct (validate_complete key (now env') n Hn) as [d ->].
  rewrite Hf, (two_fa_of_nil_existsb uid (database w) Hnil).
  split; [trace_eq|]. split; reflexivity.
Qed.

End SetupTotal.

(* ------------------------------------------------------------------ *)
(** ** The passkey step, on every input *)

Section PasskeyStepTotal.
Import Choose2FA.
Local Opaque Base64.atob getRandomValues.
Local Arguments mapM : simpl never.
Local Arguments allow_list : simpl never.

Lemma mapM_allow_list (ids : list string) (s : page state) :
  mapM (fun credential_id =>
          id <- or_throw (Base64.atob credential_id) decode_error ;;
          ret {| desc_type := "public-key"; desc_id := id |})
       ids s
  = match allow_list ids with
    | Some l => (Ok l, s)
    | None => (Throw decode_error, s)
    end.
Proof.
  induction ids as [|i ids IH]; [reflexivity|].
  unfold mapM; fold (@mapM state string descriptor).
  unfold bind at 1. unfold bind at 1.
  unfold allow_list; fold allow_list.
  destruct (Base64.atob i) as [b|]; cbn; [|reflexivity].
  unfold bind at 1. rewrite IH.
  destruct (allow_list ids); reflexivity.
Qed.

(** [handleUsePasskey] outside a preview frame, on any component state,
    world and environment. *)
Lemma handleUsePasskey_total (env : Env) (c : state) (w : World) :
  in_iframe env = false ->
  handleUsePasskey env (Page c w) =
    (Ok tt,
     Page {| userId := userId c; loading := false; hasPasskeys := hasPasskeys c |}
          (use_passkey_world env c w)).
Proof.
  intros Hi. unfold handleUsePasskey, setLoading, use_passkey_world.
  rewrite Hi. destruct (has_PublicKeyCredential env); run.
  2:{ unfold report. cbn. destruct w; reflexivity. }
  destruct (store_fault env) as [e|]; run.
  { unfold report. destruct (String.eqb (err_name e) _); destruct w; reflexivity. }
  destruct (userId c) as [uid|]; run.
  2:{ unfold report. cbn. destruct w; reflexivity. }
  destruct (map pk_credential_id (passkeys_of uid (database w))) as [|i rest]; run.
  { destruct w; reflexivity. }
  fold decode_error. rewrite mapM_allow_list.
  destruct (allow_list (i :: rest)) as [allow|]; run.
  2:{ unfold report. cbn. destruct w; reflexivity. }
  fold (assertionOptions env allow).
  destruct (credentials_get env (assertionOptions env allow)) as [[a|]|e]; run;
    unfold report; cbn; try destruct (String.eqb (err_name e) _);
    destruct w; reflexivity.
Qed.

(** X8: whatever the component state, the tables and the environment,
    the passkey step goes to the dashboard only outside a preview frame,
    on a browser with WebAuthn, after the store returned a non-empty list
    of ids that all decode, the assertion ceremony was asked with their
    allow-list, and the ceremony resolved to a credential. *)
Theorem passkey_dashboard_only_after_ceremony (env : Env) (c : state)
        (w : World) (effs : list effect) :
  added (Page c w) (snd (handleUsePasskey env (Page c w))) effs ->
  In (Navigate "/dashboard" None) effs ->
  in_iframe env = false /\
  has_PublicKeyCredential env = true /\
  store_fault env = None /\
  exists uid allow a,
    userId c = Some uid /\
    map pk_credential_id (passkeys_of uid (database w)) <> [] /\
    allow_list (map pk_credential_id (passkeys_of uid (database w))) = Some allow /\
    In (CredentialsGet (assertionOptions env allow)) effs /\
    credentials_get env (assertionOptions env allow) = Resolved (Some a).
Proof.
  intros Ha Hin. destruct (in_iframe env) eqn:Hi.
  { rewrite (handleUsePasskey_iframe env c w Hi) in Ha.
    effects_of Ha. absent Hin. }
  rewrite (handleUsePasskey_total env c w Hi) in Ha.
  unfold use_passkey_world, report in Ha.
  destruct (has_PublicKeyCredential env); cbn [negb] in Ha;
    [|effects_of Ha; absent Hin].
  destruct (store_fault env) as [e|]; [effects_of Ha; absent Hin|].
  destruct (userId c) as [uid|]; [|effects_of Ha; absent Hin].
  destruct (map pk_credential_id (passkeys_of uid (database w)))
    as [|i rest] eqn:Hids; [effects_of Ha; absent Hin|].
  destruct (allow_list (i :: rest)) as [allow|] eqn:Hallow;
    [|effects_of Ha; absent Hin].
  destruct (credentials_get env (assertionOptions env allow)) as [[a|]|e] eqn:Hc;
    try (effects_of Ha; absent Hin).
  effects_of Ha. do 3 (split; [reflexivity|]).
  exists uid, allow, a. rewrite Hids.
  split; [reflexivity|]. split; [discriminate|]. split; [exact Hallow|].
  split; [right; left; reflexivity|exact Hc].
Qed.


(** X10: [checkPasskeys] only ever raises the passkey flag: afterwards
    the flag is up if it was up before or if the id is non-empty and the
    store answered with a row for the account, so a flag raised once
    stays up even when the account has no passkey left; with the account
    id missing or empty nothing is asked and nothing changes, with a
    non-empty id the one limit-1 select is sent; the call never rejects,
    never writes and never moves the route. *)
Theorem checkPasskeys_only_raises (env : Env) (c : state) (w : World) :
  let after := snd (checkPasskeys env (Page c w)) in
  fst (checkPasskeys env (Page c w)) = Ok tt /\
  hasPasskeys (comp after) =
    (hasPasskeys c ||
     match truthy (userId c), store_fault env with
     | Some uid, None =>
         match passkeys_of uid (database w) with
         | [] => false
         | _ :: _ => true
         end
     | _, _ => false
     end) /\
  userId (comp after) = userId c /\
  loading (comp after) = loading c /\
  database (world after) = database w /\
  pathname (world after) = pathname w /\
  (userId c = None \/ userId c = Some ""%string -> after = Page c w) /\
  (forall uid, userId c = Some uid -> uid <> ""%string ->
     added (Page c w) after [StoreCall (SelectPasskeyIdLimit1 uid)]).
Proof.
  cbv zeta. destruct c as [o l h]; unfold checkPasskeys, setHasPasskeys; run.
  destruct (truthy o) as [uid|] eqn:Ht.
  - destruct (truthy_inv o uid Ht) as [-> Hne].
    assert (Hfalsy : forall P : Prop,
               Some uid = None \/ Some uid = Some ""%string -> P).
    { intros P [H|H]; [discriminate H|]. injection H as ->.
      destruct Hne. reflexivity. }
    destruct (store_fault env); cbn.
    + rewrite orb_false_r. do 6 (split; [reflexivity|]).
      split; [apply Hfalsy|]. intros uid' [= <-] _. trace_eq.
    + destruct (passkeys_of uid (database w)); cbn;
        rewrite ?orb_false_r, ?orb_true_r;
        do 6 (split; [reflexivity|]);
        (split; [apply Hfalsy|]); intros uid' [= <-] _; trace_eq.
  - cbn. rewrite orb_false_r. do 6 (split; [reflexivity|]).
    split; [reflexivity|].
    intros uid Hu Hne. cbn in Hu. subst o.
    rewrite (truthy_some uid Hne) in Ht. discriminate Ht.
Qed.

End PasskeyStepTotal.

(* ------------------------------------------------------------------ *)
(** ** From the method choice to the code step *)

Section CodePath.
Local Opaque OTPAuth.validate Base32.decode.

(** X11: choosing the code method carries the account id to the code
    page: the route becomes /auth/verify-2fa with the id in the router
    state, no store call is made, and the code page mounted from that
    location, given a code that validates against the account's stored
    secret, ends at the dashboard. *)
Theorem code_path_reaches_dashboard (env : Env) (uid tok : string) (w : World)
        (secret32 : string) (key : list Z) (d : Z) :
  uid <> ""%string ->
  store_fault env = None ->
  map tf_secret (two_fa_of uid (database w)) = [secret32] ->
  Base32.decode secret32 = Some key ->
  OTPAuth.validate key tok (now env) 1 = Some d ->
  let chosen :=
    snd (Choose2FA.click env Choose2FA.UseCode (Page (Choose2FA.mount (Some uid)) w)) in
  let typed :=
    snd (Verify2FA.setToken tok (Page (verify_mount (world chosen)) (world chosen))) in
  let verified := snd (Verify2FA.handleVerify env typed) in
  flow chosen = AwaitingTOTPCode /\
  location_userId (world chosen) = Some uid /\
  Verify2FA.userId (comp typed) = Some uid /\
  flow verified = Authenticated /\
  trace (world verified) =
    trace w ++ [Navigate "/auth/verify-2fa" (Some uid);
                StoreCall (SelectSecret uid);
                ToastSuccess "Verification successful!";
                Navigate "/dashboard" None].
Proof.
  intros Hne Hf Hs Hk Hv. cbv zeta.
  assert (Hc : snd (Choose2FA.click env Choose2FA.UseCode
                      (Page (Choose2FA.mount (Some uid)) w))
               = Page (Choose2FA.mount (Some uid))
                      (goto "/auth/verify-2fa" (Some uid) w)).
  { unfold Choose2FA.click, Choose2FA.enabled, Choose2FA.render,
      Choose2FA.handleUseCode, Choose2FA.mount. run.
    rewrite (truthy_some uid Hne). reflexivity. }
  rewrite Hc.
  change (snd (Verify2FA.setToken tok _))
    with (Page {| Verify2FA.userId := Some uid; Verify2FA.token := tok;
                  Verify2FA.loading := false |}
               (goto "/auth/verify-2fa" (Some uid) w)).
  split; [reflexivity|]. split; [reflexivity|]. split; [reflexivity|].
  rewrite handleVerify_total. unfold verify_world. cbn.
  rewrite (truthy_some uid Hne), Hf, Hs, Hk, Hv. cbn.
  split; [reflexivity|]. rewrite <- !app_assoc. reflexivity.
Qed.

End CodePath.

(* ------------------------------------------------------------------ *)
(** ** The settings page *)

Section SettingsPage.
Import Settings.
Local Arguments Supabase.update_enabled_rows : simpl never.
Local Arguments without_passkey : simpl never.

(** [loadSettings] for a signed-in user. *)
Lemma loadSettings_total (env : Env) (c : state) (w : World) (u : user) :
  current_user c = Some u ->
  loadSettings env (Page c w) =
    (Ok tt,
     Page {| current_user := Some u;
             twoFAEnabled :=
               match store_fault env, map tf_enabled (two_fa_of (id u) (database w)) with
               | None, [b] => b
               | _, _ => twoFAEnabled c
               end;
             passkeys :=
               match store_fault env with
               | None => passkeys_of (id u) (database w)
               | Some _ => passkeys c
               end;
             passkeyName := passkeyName c;
             loading := loading c |}
          (emit (StoreCall (SelectPasskeys (id u)))
                (emit (StoreCall (SelectEnabled (id u))) w))).
Proof.
  destruct c as [cu en pks name l]. cbn. intros ->.
  unfold loadSettings, setTwoFAEnabled, setPasskeys. run.
  destruct (store_fault env) as [e|]; cbn; [reflexivity|].
  destruct (map tf_enabled (two_fa_of (id u) (database w))) as [|b [|b' l']];
    cbn; destruct w; reflexivity.
Qed.

(** X12: [loadSettings] without a signed-in user does nothing; with one
    it reads the account's 2FA flag and passkeys, never writes and never
    rejects; when the store answers, the list is the account's stored
    passkeys and the switch shows the stored flag, but for an account
    without a 2FA record the switch keeps its position, which on a fresh
    page is "enabled"; when the store fails the component is left as it
    was. *)
Theorem loadSettings_reflects_store (env : Env) (c : state) (w : World) :
  let before := Page c w in
  let after := snd (loadSettings env before) in
  (current_user c = None -> loadSettings env before = (Ok tt, before)) /\
  (forall u, current_user c = Some u ->
     fst (loadSettings env before) = Ok tt /\
     database (world after) = database w /\
     pathname (world after) = pathname w /\
     added before after
       [StoreCall (SelectEnabled (id u)); StoreCall (SelectPasskeys (id u))] /\
     passkeyName (comp after) = passkeyName c /\
     loading (comp after) = loading c /\
     (store_fault env = None ->
        passkeys (comp after) = passkeys_of (id u) (database w) /\
        (forall b, map tf_enabled (two_fa_of (id u) (database w)) = [b] ->
                   twoFAEnabled (comp after) = b) /\
        (two_fa_of (id u) (database w) = [] ->
           twoFAEnabled (comp after) = twoFAEnabled c /\
           (c = settings_mount (Some u) -> twoFAEnabled (comp after) = true))) /\
     (store_fault env <> None -> comp after = c)).
Proof.
  cbv zeta. split.
  - intros Hu. unfold loadSettings. run. rewrite Hu. reflexivity.
  - intros u Hu. rewrite (loadSettings_total env c w u Hu). cbn.
    do 3 (split; [reflexivity|]). split; [trace_eq|].
    do 2 (split; [reflexivity|]). split.
    + intros ->. split; [reflexivity|]. split.
      * intros b ->. reflexivity.
      * intros ->. cbn. split; [reflexivity|]. intros ->. reflexivity.
    + intros Hne. destruct (store_fault env); [|congruence].
      destruct c; cbn in *. congruence.
Qed.

(** The rows of an update of the flag: the account's rows carry the new
    flag and the time of the update, the others are the old rows. *)
Lemma update_enabled_rows_spec (t : Z) (uid : string) (b : bool) (d : db)
      (r : user_2fa_row) :
  In r (user_2fa (Supabase.update_enabled_rows t uid b d)) <->
  (In r (user_2fa d) /\ tf_user_id r <> uid) \/
  (exists r0, In r0 (user_2fa d) /\ tf_user_id r0 = uid /\
              r = touch t (set_enabled b r0)).
Proof.
  unfold Supabase.update_enabled_rows. cbn. rewrite in_map_iff. split.
  - intros [r0 [E Hin]].
    destruct (String.eqb (tf_user_id r0) uid) eqn:Eq.
    + apply String.eqb_eq in Eq. right. exists r0. auto.
    + apply String.eqb_neq in Eq. subst r. left. auto.
  - intros [[Hin Hne]|[r0 [Hin [Hu E]]]].
    + exists r. apply String.eqb_neq in Hne. rewrite Hne. auto.
    + exists r0. apply String.eqb_eq in Hu. rewrite Hu. auto.
Qed.

(** [toggleTwoFA] for a signed-in user. *)
Lemma toggleTwoFA_total (env : Env) (c : state) (w : World) (u : user) :
  current_user c = Some u ->
  toggleTwoFA env (Page c w) =
    let target := negb (twoFAEnabled c) in
    let w1 := emit (StoreCall (UpdateEnabled (id u) target)) w in
    (Ok tt,
     Page {| current_user := Some u;
             twoFAEnabled := match store_fault env with
                             | None => target
                             | Some _ => twoFAEnabled c
                             end;
             passkeys := passkeys c;
             passkeyName := passkeyName c;
             loading := false |}
          (match store_fault env with
           | None =>
               emit (ToastSuccess (if target then "2FA enabled" else "2FA disabled"))
                    (with_db (Supabase.update_enabled_rows (db_now env) (id u) target
                                                           (database w)) w1)
           | Some _ => emit (ToastError "Failed to update 2FA settings") w1
           end)).
Proof.
  destruct c as [cu en pks name l]. cbn. intros ->.
  unfold toggleTwoFA, setLoading, setTwoFAEnabled, Supabase.update_enabled. run.
  destruct (store_fault env) as [e|]; cbn; destruct w; reflexivity.
Qed.

(** X13: [toggleTwoFA] by a signed-in user asks the store to set the
    account's flag to the opposite of what the switch shows.  When the
    store answers, the account's rows carry that flag and the time of the
    update, their secrets and every other account's rows and the passkeys
    are untouched, and the switch and the notice follow; when the store
    fails, tables and switch stay and the failure is shown.  Either way
    the handler does not reject and ends with the loading flag down. *)
Theorem toggleTwoFA_flips_flag_only (env : Env) (c : state) (w : World) (u : user) :
  current_user c = Some u ->
  let before := Page c w in
  let after := snd (toggleTwoFA env before) in
  let target := negb (twoFAEnabled c) in
  let update := StoreCall (UpdateEnabled (id u) target) in
  fst (toggleTwoFA env before) = Ok tt /\
  loading (comp after) = false /\
  pathname (world after) = pathname w /\
  (store_fault env = None ->
     added before after
       [update; ToastSuccess (if target then "2FA enabled" else "2FA disabled")] /\
     twoFAEnabled (comp after) = target /\
     same_secrets (database w) (database (world after)) /\
     user_passkeys (database (world after)) = user_passkeys (database w) /\
     (forall r, In r (user_2fa (database (world after))) ->
                tf_user_id r = id u ->
                tf_enabled r = target /\ tf_updated_at r = db_now env) /\
     (forall r, tf_user_id r <> id u ->
                (In r (user_2fa (database (world after))) <->
                 In r (user_2fa (database w))))) /\
  (store_fault env <> None ->
     added before after [update; ToastError "Failed to update 2FA settings"] /\
     twoFAEnabled (comp after) = twoFAEnabled c /\
     database (world after) = database w).
Proof.
  intros Hu. cbv zeta. rewrite (toggleTwoFA_total env c w u Hu). cbn.
  do 2 (split; [reflexivity|]). split; [destruct (store_fault env); reflexivity|].
  split.
  - intros ->. cbn. split; [trace_eq|]. split; [reflexivity|].
    split; [apply toggle_same_secrets|]. split; [reflexivity|]. split.
    + intros r Hin Hr. apply update_enabled_rows_spec in Hin.
      destruct Hin as [[_ Hne]|[r0 [_ [_ ->]]]]; [contradiction|].
      cbn. auto.
    + intros r Hne. rewrite update_enabled_rows_spec. split.
      * intros [[Hin _]|[r0 [_ [Hu0 ->]]]]; [exact Hin|].
        cbn in Hne. contradiction.
      * intros Hin. left. auto.
  - intros Hne. destruct (store_fault env); [|congruence]. cbn.
    split; [trace_eq|]. split; reflexivity.
Qed.

(** X14: two toggles in a row, the store answering both, bring the
    switch back to where it was and leave the account's rows with the
    flag the switch showed at the start, secrets unchanged. *)
Theorem toggleTwoFA_twice (env env' : Env) (c : state) (w : World) (u : user) :
  current_user c = Some u ->
  store_fault env = None ->
  store_fault env' = None ->
  let once := snd (toggleTwoFA env (Page c w)) in
  let twice := snd (toggleTwoFA env' once) in
  twoFAEnabled (comp once) = negb (twoFAEnabled c) /\
  twoFAEnabled (comp twice) = twoFAEnabled c /\
  same_secrets (database w) (database (world twice)) /\
  (forall r, In r (user_2fa (database (world twice))) ->
             tf_user_id r = id u -> tf_enabled r = twoFAEnabled c).
Proof.
  intros Hu Hf Hf'. cbv zeta.
  rewrite (toggleTwoFA_total env c w u Hu). cbv zeta. rewrite Hf. cbn [snd].
  match goal with
  | |- context [toggleTwoFA env' (Page ?c1 ?w1)] =>
      rewrite (toggleTwoFA_total env' c1 w1 u eq_refl)
  end.
  cbv zeta. rewrite Hf'. cbn.
  rewrite negb_involutive. do 2 (split; [reflexivity|]). split.
  - unfold same_secrets.
    rewrite <- (toggle_same_secrets (db_now env') (id u) (twoFAEnabled c)).
    apply toggle_same_secrets.
  - intros r Hin Hr. apply update_enabled_rows_spec in Hin.
    destruct Hin as [[_ Hne]|[r0 [_ [_ ->]]]]; [contradiction|]. reflexivity.
Qed.

Lemma passkeys_of_without (uid row_id : string) (d : db) :
  passkeys_of uid (without_passkey uid row_id d) =
  filter (fun r => negb (String.eqb (pk_id r) row_id)) (passkeys_of uid d).
Proof.
  unfold passkeys_of, without_passkey. cbn.
  induction (user_passkeys d) as [|r l IH]; cbn; [reflexivity|].
  destruct (String.eqb (pk_id r) row_id) eqn:E1;
    destruct (String.eqb (pk_user_id r) uid) eqn:E2;
    cbn; rewrite ?E1, ?E2; cbn; rewrite IH; reflexivity.
Qed.

Lemma passkeys_of_without_other (uid other row_id : string) (d : db) :
  other <> uid ->
  passkeys_of other (without_passkey uid row_id d) = passkeys_of other d.
Proof.
  intros Hne. unfold passkeys_of, without_passkey. cbn.
  induction (user_passkeys d) as [|r l IH]; cbn; [reflexivity|].
  destruct (String.eqb (pk_user_id r) uid) eqn:E2.
  - apply String.eqb_eq in E2.
    assert (E3 : String.eqb (pk_user_id r) other = false)
      by (apply String.eqb_neq; congruence).
    destruct (String.eqb (pk_id r) row_id); cbn; rewrite ?E3; exact IH.
  - rewrite andb_false_r. cbn. rewrite IH. reflexivity.
Qed.

(** [removePasskey] for a signed-in user. *)
Lemma removePasskey_total (env : Env) (row_id : string) (c : state) (w : World)
      (u : user) :
  current_user c = Some u ->
  removePasskey env row_id (Page c w) =
    let w1 := emit (StoreCall (DeletePasskey row_id)) w in
    match store_fault env with
    | Some _ =>
        (Ok tt,
         Page {| current_user := Some u; twoFAEnabled := twoFAEnabled c;
                 passkeys := passkeys c; passkeyName := passkeyName c;
                 loading := false |}
              (emit (ToastError "Failed to remove passkey") w1))
    | None =>
        loadSettings env
          (Page {| current_user := Some u; twoFAEnabled := twoFAEnabled c;
                   passkeys := passkeys c; passkeyName := passkeyName c;
                   loading := false |}
                (emit (ToastSuccess "Passkey removed")
                      (with_db (without_passkey (id u) row_id (database w)) w1)))
    end.
Proof.
  destruct c as [cu en pks name l]. cbn. intros ->.
  unfold removePasskey, loadSettings, setLoading, Supabase.delete_passkey. run.
  destruct (store_fault env) as [e|]; cbn; destruct w; reflexivity.
Qed.

(** X15: [removePasskey] by a signed-in user, the store answering,
    deletes the rows of that id that belong to the account and no other
    row of either table: a row of another account stays, whatever its
    id, and every other account lists what it listed.  The refreshed
    list of the page is the account's passkeys without that id.  When
    the store fails, tables and list stay and the failure is shown. *)
Theorem removePasskey_removes_that_row (env : Env) (row_id : string) (c : state)
        (w : World) (u : user) :
  current_user c = Some u ->
  let before := Page c w in
  let after := snd (removePasskey env row_id before) in
  fst (removePasskey env row_id before) = Ok tt /\
  loading (comp after) = false /\
  (store_fault env = None ->
     added before after
       [StoreCall (DeletePasskey row_id); ToastSuccess "Passkey removed";
        StoreCall (SelectEnabled (id u)); StoreCall (SelectPasskeys (id u))] /\
     database (world after) = without_passkey (id u) row_id (database w) /\
     user_2fa (database (world after)) = user_2fa (database w) /\
     (forall r, In r (user_passkeys (database (world after))) <->
                In r (user_passkeys (database w)) /\
                (pk_id r <> row_id \/ pk_user_id r <> id u)) /\
     (forall other, other <> id u ->
        passkeys_of other (database (world after)) = passkeys_of other (database w)) /\
     passkeys (comp after) =
       filter (fun r => negb (String.eqb (pk_id r) row_id))
              (passkeys_of (id u) (database w)) /\
     (forall r, In r (passkeys (comp after)) -> pk_id r <> row_id)) /\
  (store_fault env <> None ->
     added before after
       [StoreCall (DeletePasskey row_id); ToastError "Failed to remove passkey"] /\
     database (world after) = database w /\
     passkeys (comp after) = passkeys c).
Proof.
  intros Hu. cbv zeta. rewrite (removePasskey_total env row_id c w u Hu). cbv zeta.
  destruct (store_fault env) as [e|] eqn:Hf.
  - cbn. do 2 (split; [reflexivity|]). split; [discriminate|].
    intros _. split; [trace_eq|]. split; reflexivity.
  - match goal with
    | |- context [loadSettings env (Page ?c1 ?w1)] =>
        rewrite (loadSettings_total env c1 w1 u eq_refl)
    end.
    cbn. rewrite Hf.
    do 2 (split; [reflexivity|]). split; [|congruence].
    intros _. split; [trace_eq|]. do 2 (split; [reflexivity|]).
    split; [|split; [|split]].
    + intros r. unfold without_passkey. cbn.
      rewrite filter_In, negb_true_iff, andb_false_iff, !String.eqb_neq. tauto.
    + intros other Hne. apply passkeys_of_without_other. exact Hne.
    + apply passkeys_of_without.
    + intros r Hin. rewrite passkeys_of_without in Hin.
      apply filter_In in Hin. destruct Hin as [_ H].
      apply negb_true_iff, String.eqb_neq in H. exact H.
Qed.

End SettingsPage.

(* ------------------------------------------------------------------ *)
(** ** Passkey registration, on every input *)

Section RegistrationTotal.
Import Settings.
Local Opaque Base64.btoa getRandomValues.
Local Arguments new_passkey : simpl never.

Lemma addPasskey_guard (env : Env) (c : state) (w : World) :
  current_user c = None \/ blank (passkeyName c) = true ->
  addPasskey env (Page c w) =
    (Ok tt, Page c (emit (ToastError "Please enter a device name") w)).
Proof.
  intros H. unfold addPasskey. run.
  destruct (current_user c) as [u|]; [|reflexivity].
  destruct H as [H|H]; [discriminate|]. rewrite H. reflexivity.
Qed.

(** [addPasskey] for a signed-in user who typed a device name. *)
Lemma addPasskey_total (env : Env) (c : state) (w : World) (u : user) :
  current_user c = Some u ->
  blank (passkeyName c) = false ->
  addPasskey env (Page c w) =
    let opts := creationOptions env u (getRandomValues env 32) in
    let w1 := emit (CredentialsCreate opts) w in
    let idle name :=
      {| current_user := Some u; twoFAEnabled := twoFAEnabled c;
         passkeys := passkeys c; passkeyName := name; loading := false |} in
    let failed e w' :=
      (Ok tt, Page (idle (passkeyName c)) (emit (ToastError (registration_notice e)) w')) in
    match credentials_create env opts with
    | Rejected e => failed e w1
    | Resolved None => failed (Error "Failed to create credential") w1
    | Resolved (Some cred) =>
        let credentialId := Base64.btoa (att_rawId cred) in
        let publicKey := Base64.btoa (publicKeyBytes cred) in
        let w2 :=
          emit (StoreCall (InsertPasskey (id u) credentialId publicKey (passkeyName c)))
               w1 in
        match store_fault env with
        | Some e => failed e w2
        | None =>
            if existsb (fun r => String.eqb (pk_credential_id r) credentialId)
                       (user_passkeys (database w))
            then failed (Supabase.postgrest "duplicate key value violates unique constraint") w2
            else
              loadSettings env
                (Page (idle EmptyString)
                      (emit (ToastSuccess "Passkey added successfully")
                            (with_db (new_passkey env (id u) credentialId publicKey
                                                  (passkeyName c) (database w))
                                     w2)))
        end
    end.
Proof.
  destruct c as [cu en pks name l]. cbn. intros -> Hb.
  unfold addPasskey, addPasskey_body, loadSettings, setLoading, setPasskeyName,
    registration_notice. run.
  rewrite Hb. run.
  destruct (credentials_create env _) as [[cred|]|e]; run.
  - destruct (store_fault env) as [e|]; run.
    + destruct (String.eqb (err_name e) "NotAllowedError");
        [|destruct (String.eqb (err_name e) "NotSupportedError")];
        destruct w; reflexivity.
    + destruct (existsb _ (user_passkeys (database w))); run;
        destruct w; reflexivity.
  - destruct w; reflexivity.
  - destruct (String.eqb (err_name e) "NotAllowedError");
      [|destruct (String.eqb (err_name e) "NotSupportedError")];
      destruct w; reflexivity.
Qed.

Lemma passkeys_of_new (env : Env) (uid cid pk name : string) (d : db) :
  passkeys_of uid (new_passkey env uid cid pk name d) =
  passkeys_of uid d ++ [passkey_row env uid cid pk name].
Proof.
  unfold passkeys_of, new_passkey. cbn. rewrite filter_app. cbn.
  rewrite String.eqb_refl. reflexivity.
Qed.



(** X17: [addPasskey] without a signed-in user or with a blank device
    name only asks for a name: no ceremony, no store call, the component
    as it was.  When the ceremony is rejected or resolves to nothing, the
    store is asked nothing, the tables and the typed name stay, the
    loading flag is down, and the notice is that of the error: a
    cancellation for NotAllowedError, missing support for
    NotSupportedError, the error's message otherwise. *)
Theorem addPasskey_failures_reported (env : Env) (c : state) (w : World) :
  let before := Page c w in
  let after := snd (addPasskey env before) in
  (current_user c = None \/ blank (passkeyName c) = true ->
     added before after [ToastError "Please enter a device name"] /\
     comp after = c /\ database (world after) = database w) /\
  (forall u e,
     current_user c = Some u -> blank (passkeyName c) = false ->
     let opts := creationOptions env u (getRandomValues env 32) in
     credentials_create env opts = Rejected e \/
     (credentials_create env opts = Resolved None /\
      e = Error "Failed to create credential") ->
     added before after
       [CredentialsCreate opts; ToastError (registration_notice e)] /\
     database (world after) = database w /\
     passkeyName (comp after) = passkeyName c /\
     passkeys (comp after) = passkeys c /\
     loading (comp after) = false /\
     (err_name e = "NotAllowedError"%string ->
        registration_notice e = "Passkey registration was cancelled"%string) /\
     (err_name e = "NotSupportedError"%string ->
        registration_notice e = "Passkeys are not supported on this device"%string)).
Proof.
  cbv zeta. split.
  - intros H. rewrite (addPasskey_guard env c w H). cbn.
    split; [trace_eq|]. split; reflexivity.
  - intros u e Hu Hb H. rewrite (addPasskey_total env c w u Hu Hb). cbv zeta.
    assert (Hn : (err_name e = "NotAllowedError"%string ->
                  registration_notice e = "Passkey registration was cancelled"%string) /\
                 (err_name e = "NotSupportedError"%string ->
                  registration_notice e = "Passkeys are not supported on this device"%string)).
    { unfold registration_notice. split; intros ->; reflexivity. }
    destruct H as [->|[-> ->]]; cbn;
      (split; [trace_eq|]; do 4 (split; [reflexivity|]); exact Hn).
Qed.


End RegistrationTotal.

(* ------------------------------------------------------------------ *)
(** ** Base64: what is stored decodes to what was encoded *)

Section Base64RoundTrip.

Lemma list_ind3 {A} (P : list A -> Prop) :
  P [] ->
  (forall a, P [a]) ->
  (forall a b, P [a; b]) ->
  (forall a b c rest, P rest -> P (a :: b :: c :: rest)) ->
  forall l, P l.
Proof.
  intros H0 H1 H2 H3 l.
  assert (H : forall n l, (List.length l <= n)%nat -> P l).
  { induction n as [|n IH]; intros [|a [|b [|c rest]]] Hl; cbn in Hl; auto; try lia.
    apply H3. apply IH. lia. }
  apply (H (List.length l)). lia.
Qed.

Lemma in_bytes256 (x : Z) : 0 <= x < 256 -> In x bytes256.
Proof.
  intros Hx. unfold bytes256. apply in_map_iff. exists (Z.to_nat x).
  split; [lia|]. apply in_seq. lia.
Qed.

Lemma forall_byte (P : Z -> bool) :
  forallb P bytes256 = true -> forall x, 0 <= x < 256 -> P x = true.
Proof.
  intros H x Hx. rewrite forallb_forall in H. apply H, in_bytes256, Hx.
Qed.

Lemma forall_byte2 (P : Z -> Z -> bool) :
  forallb (fun a => forallb (P a) bytes256) bytes256 = true ->
  forall a b, 0 <= a < 256 -> 0 <= b < 256 -> P a b = true.
Proof.
  intros H a b Ha Hb.
  apply (forall_byte (P a)); [|exact Hb].
  apply (forall_byte (fun a => forallb (P a) bytes256)); assumption.
Qed.

(** The first two six-bit groups give back the first byte and the high
    half of the second. *)
Lemma regroup_first (a b : Z) :
  0 <= a < 256 -> 0 <= b < 256 ->
  let x := Z.land (Z.shiftr a 2) 63 in
  let y := Z.land (Z.lor (Z.shiftl (Z.land a 3) 4) (Z.shiftr b 4)) 63 in
  Z.lor (Z.shiftl x 2) (Z.shiftr y 4) = a /\ Z.land y 15 = Z.shiftr b 4.
Proof.
  intros Ha Hb.
  pose proof (forall_byte2
    (fun a b =>
       let x := Z.land (Z.shiftr a 2) 63 in
       let y := Z.land (Z.lor (Z.shiftl (Z.land a 3) 4) (Z.shiftr b 4)) 63 in
       (Z.lor (Z.shiftl x 2) (Z.shiftr y 4) =? a) && (Z.land y 15 =? Z.shiftr b 4))
    ltac:(vm_compute; reflexivity) a b Ha Hb) as H.
  cbv zeta in H. apply andb_true_iff in H. destruct H as [H1 H2].
  apply Z.eqb_eq in H1, H2. auto.
Qed.

(** The last two give back the low half of the second byte and the
    third byte. *)
Lemma regroup_last (b c : Z) :
  0 <= b < 256 -> 0 <= c < 256 ->
  let z := Z.land (Z.lor (Z.shiftl (Z.land b 15) 2) (Z.shiftr c 6)) 63 in
  let t := Z.land c 63 in
  Z.shiftr z 2 = Z.land b 15 /\ Z.lor (Z.shiftl (Z.land z 3) 6) t = c.
Proof.
  intros Hb Hc.
  pose proof (forall_byte2
    (fun b c =>
       let z := Z.land (Z.lor (Z.shiftl (Z.land b 15) 2) (Z.shiftr c 6)) 63 in
       let t := Z.land c 63 in
       (Z.shiftr z 2 =? Z.land b 15) && (Z.lor (Z.shiftl (Z.land z 3) 6) t =? c))
    ltac:(vm_compute; reflexivity) b c Hb Hc) as H.
  cbv zeta in H. apply andb_true_iff in H. destruct H as [H1 H2].
  apply Z.eqb_eq in H1, H2. auto.
Qed.

Lemma regroup_middle (b : Z) :
  0 <= b < 256 ->
  Z.lor (Z.shiftl (Z.shiftr b 4) 4) (Z.land b 15) = b.
Proof.
  intros Hb.
  pose proof (forall_byte
    (fun b => Z.lor (Z.shiftl (Z.shiftr b 4) 4) (Z.land b 15) =? b)
    ltac:(vm_compute; reflexivity) b Hb) as H.
  apply Z.eqb_eq in H. exact H.
Qed.

Lemma enc_props (i : Z) :
  Base64.is_space (Base64.enc i) = false
  /\ Base64.enc i <> "="%char
  /\ index_of (Base64.enc i) Base64.alphabet = Some (Z.land i 63).
Proof.
  assert (Hr : 0 <= Z.land i 63 < 64).
  { change 63 with (Z.ones 6). rewrite Z.land_ones by lia.
    change (2 ^ 6) with 64. apply Z.mod_pos_bound. lia. }
  unfold Base64.enc. generalize dependent (Z.land i 63). intros n Hn.
  pose proof (forall_byte
    (fun n =>
       (64 <=? n)
       || (negb (Base64.is_space (char_at Base64.alphabet n))
           && negb (Ascii.eqb (char_at Base64.alphabet n) "=")
           && match index_of (char_at Base64.alphabet n) Base64.alphabet with
              | Some m => m =? n
              | None => false
              end))
    ltac:(vm_compute; reflexivity) n ltac:(lia)) as H.
  cbv beta in H. apply orb_true_iff in H. destruct H as [H|H]; [apply Z.leb_le in H; lia|].
  apply andb_true_iff in H. destruct H as [H H3].
  apply andb_true_iff in H. destruct H as [H1 H2].
  apply negb_true_iff in H1, H2. split; [exact H1|]. split.
  - intros E. rewrite E in H2. discriminate H2.
  - destruct (index_of (char_at Base64.alphabet n) Base64.alphabet); [|discriminate H3].
    apply Z.eqb_eq in H3. subst. reflexivity.
Qed.

Lemma btoa_chars (bs : list Z) :
  list_ascii_of_string (Base64.btoa bs)
  = map Base64.enc (sextets_of bs) ++ padding_of bs.
Proof.
  induction bs as [| a | a b | a b c rest IH] using list_ind3; try reflexivity.
  cbn [Base64.btoa sextets_of padding_of map app list_ascii_of_string].
  rewrite IH. reflexivity.
Qed.

Lemma padding_cases (bs : list Z) :
  (padding_of bs = [] /\ exists k, List.length (sextets_of bs) = (k * 4)%nat)
  \/ (padding_of bs = ["="%char] /\ exists k, List.length (sextets_of bs) = (3 + k * 4)%nat)
  \/ (padding_of bs = ["="%char; "="%char]
      /\ exists k, List.length (sextets_of bs) = (2 + k * 4)%nat).
Proof.
  induction bs as [| a | a b | a b c rest IH] using list_ind3.
  - left. split; [reflexivity|]. exists 0%nat. reflexivity.
  - right. right. split; [reflexivity|]. exists 0%nat. reflexivity.
  - right. left. split; [reflexivity|]. exists 0%nat. reflexivity.
  - cbn [padding_of sextets_of List.length].
    destruct IH as [[Hp [k Hk]] | [[Hp [k Hk]] | [Hp [k Hk]]]]; rewrite Hp, Hk;
      [left | right; left | right; right]; (split; [reflexivity|]); exists (S k); lia.
Qed.

Lemma filter_data (l : list Z) :
  filter (fun c => negb (Base64.is_space c)) (map Base64.enc l) = map Base64.enc l.
Proof.
  induction l as [|i l IH]; [reflexivity|].
  cbn [map filter]. destruct (enc_props i) as [H _]. rewrite H. cbn. rewrite IH. reflexivity.
Qed.

Lemma sextets_data (l : list Z) :
  Base64.sextets (map Base64.enc l) = Some (map (fun i => Z.land i 63) l).
Proof.
  induction l as [|i l IH]; [reflexivity|].
  cbn [map Base64.sextets]. destruct (enc_props i) as [_ [_ H]]. rewrite H, IH. reflexivity.
Qed.

Lemma rev_nil_inv {A} (l : list A) : rev l = [] -> l = [].
Proof.
  intros H. rewrite <- (rev_involutive l), H. reflexivity.
Qed.

Lemma rev_head_in {A} (l r : list A) (x : A) : rev l = x :: r -> In x l.
Proof.
  intros H. apply in_rev. rewrite H. left. reflexivity.
Qed.

Lemma data_not_equals (l : list Z) (x : ascii) :
  In x (map Base64.enc l) -> x <> "="%char.
Proof.
  intros H. apply in_map_iff in H. destruct H as [i [<- _]].
  destruct (enc_props i) as [_ [H _]]. exact H.
Qed.

Ltac by_bits x H :=
  destruct x as [[] [] [] [] [] [] [] []];
  try reflexivity; try (exfalso; apply H; reflexivity).

(** Stripping the padding of an encoding leaves its data characters. *)
Lemma strip_padding_encoding (bs : list Z) :
  Base64.strip_padding (map Base64.enc (sextets_of bs) ++ padding_of bs)
  = map Base64.enc (sextets_of bs).
Proof.
  unfold Base64.strip_padding.
  set (D := map Base64.enc (sextets_of bs)).
  assert (HD : forall x, In x D -> x <> "="%char) by (intros x; apply data_not_equals).
  assert (HL : List.length D = List.length (sextets_of bs)) by apply length_map.
  destruct (padding_cases bs) as [[Hp [k Hk]] | [[Hp [k Hk]] | [Hp [k Hk]]]];
    rewrite Hp, length_app, HL, Hk, rev_app_distr; cbn [List.length rev app].
  - rewrite Nat.add_0_r, Nat.Div0.mod_mul. cbn [Nat.eqb].
    rewrite app_nil_r.
    destruct (rev D) as [|x r] eqn:E; [reflexivity|].
    pose proof (HD x (rev_head_in _ _ _ E)) as Hx.
    by_bits x Hx.
  - replace (3 + k * 4 + 1)%nat with (S k * 4)%nat by lia.
    rewrite Nat.Div0.mod_mul. cbn [Nat.eqb].
    destruct (rev D) as [|y r] eqn:E.
    + apply rev_nil_inv in E. rewrite E. reflexivity.
    + pose proof (HD y (rev_head_in _ _ _ E)) as Hy.
      assert (Hr : rev (y :: r) = D) by (rewrite <- E; apply rev_involutive).
      clear E. revert Hr. by_bits y Hy; intros Hr; exact Hr.
  - replace (2 + k * 4 + 2)%nat with (S k * 4)%nat by lia.
    rewrite Nat.Div0.mod_mul. cbn [Nat.eqb].
    apply rev_involutive.
Qed.

Lemma data_length_ok (bs : list Z) :
  (List.length (map Base64.enc (sextets_of bs)) mod 4 =? 1)%nat = false.
Proof.
  rewrite length_map.
  destruct (padding_cases bs) as [[_ [k Hk]] | [[_ [k Hk]] | [_ [k Hk]]]]; rewrite Hk.
  - rewrite Nat.Div0.mod_mul. reflexivity.
  - rewrite Nat.Div0.mod_add. reflexivity.
  - rewrite Nat.Div0.mod_add. reflexivity.
Qed.

(** Regrouping the six-bit groups of a byte sequence gives it back. *)
Lemma bytes_of_sextets_of (bs : list Z) :
  Forall (fun b => 0 <= b < 256) bs ->
  Base64.bytes_of_sextets (map (fun i => Z.land i 63) (sextets_of bs)) = bs.
Proof.
  induction bs as [| a | a b | a b c rest IH] using list_ind3; intros HF.
  - reflexivity.
  - inversion HF as [|? ? Ha _]; subst.
    cbn [sextets_of map Base64.bytes_of_sextets].
    destruct (regroup_first a 0 Ha ltac:(lia)) as [H _]. cbv zeta in H.
    change (Z.shiftr 0 4) with 0 in H. rewrite Z.lor_0_r in H. rewrite H. reflexivity.
  - inversion HF as [|? ? Ha HF1]; subst. inversion HF1 as [|? ? Hb _]; subst.
    cbn [sextets_of map Base64.bytes_of_sextets].
    destruct (regroup_first a b Ha Hb) as [H1 H2]. cbv zeta in H1, H2.
    destruct (regroup_last b 0 Hb ltac:(lia)) as [H3 _]. cbv zeta in H3.
    change (Z.shiftr 0 6) with 0 in H3. rewrite Z.lor_0_r in H3.
    rewrite H1, H2, H3, (regroup_middle b Hb). reflexivity.
  - inversion HF as [|? ? Ha HF1]; subst. inversion HF1 as [|? ? Hb HF2]; subst.
    inversion HF2 as [|? ? Hc HF3]; subst.
    cbn [sextets_of map Base64.bytes_of_sextets].
    destruct (regroup_first a b Ha Hb) as [H1 H2]. cbv zeta in H1, H2.
    destruct (regroup_last b c Hb Hc) as [H3 H4]. cbv zeta in H3, H4.
    rewrite H1, H2, H3, H4, (regroup_middle b Hb), (IH HF3). reflexivity.
Qed.

Lemma atob_btoa (bs : list Z) :
  Forall (fun b => 0 <= b < 256) bs ->
  Base64.atob (Base64.btoa bs) = Some bs.
Proof.
  intros HF. unfold Base64.atob. rewrite btoa_chars, filter_app, filter_data.
  assert (Hp : filter (fun c => negb (Base64.is_space c)) (padding_of bs) = padding_of bs).
  { destruct (padding_cases bs) as [[Hp _] | [[Hp _] | [Hp _]]]; rewrite Hp; reflexivity. }
  rewrite Hp. cbv zeta. rewrite strip_padding_encoding, data_length_ok, sextets_data.
  cbn [option_map]. rewrite (bytes_of_sextets_of bs HF). reflexivity.
Qed.

(** X19: [atob] gives back the bytes [btoa] encoded, so the credential
    id and the public key stored at registration decode to the bytes the
    authenticator reported, and two byte sequences with the same encoding
    are the same: distinct raw ids are stored as distinct credential
    ids. *)
Theorem btoa_round_trip (bs : list Z) :
  Forall (fun b => 0 <= b < 256) bs ->
  Base64.atob (Base64.btoa bs) = Some bs /\
  (forall bs', Forall (fun b => 0 <= b < 256) bs' ->
               Base64.btoa bs' = Base64.btoa bs -> bs' = bs).
Proof.
  intros HF. split; [exact (atob_btoa bs HF)|].
  intros bs' HF' E.
  pose proof (atob_btoa bs' HF') as H'. rewrite E, (atob_btoa bs HF) in H'.
  injection H' as H'. symmetry. exact H'.
Qed.

End Base64RoundTrip.

(* ------------------------------------------------------------------ *)
(** ** From registration to authentication *)

Section RegisterThenAuthenticate.
Local Opaque Base64.btoa Base64.atob getRandomValues.
Local Arguments new_passkey : simpl never.
Local Arguments allow_list : simpl never.

Lemma allow_list_app (l1 l2 : list string) :
  allow_list (l1 ++ l2) =
  match allow_list l1, allow_list l2 with
  | Some a, Some b => Some (a ++ b)
  | _, _ => None
  end.
Proof.
  induction l1 as [|i l1 IH]; unfold allow_list; fold allow_list.
  - cbn [app]. destruct (allow_list l2); reflexivity.
  - cbn [app]. unfold allow_list; fold allow_list.
    destruct (Base64.atob i); [|reflexivity].
    rewrite IH. destruct (allow_list l1); [|reflexivity].
    destruct (allow_list l2); reflexivity.
Qed.

(** X20: a passkey registered on the settings page is offered to the
    authenticator at the next passkey step of that account, under the
    raw id the authenticator reported, after the ids stored before. *)
Theorem registered_passkey_is_allowed (env env' : Env) (c : Settings.state)
        (w : World) (u : Settings.user) (cred : attestation)
        (prior : list descriptor) :
  Settings.current_user c = Some u ->
  Settings.blank (Settings.passkeyName c) = false ->
  store_fault env = None ->
  credentials_create env (Settings.creationOptions env u (getRandomValues env 32))
    = Resolved (Some cred) ->
  existsb (fun r => String.eqb (pk_credential_id r) (Base64.btoa (att_rawId cred)))
          (user_passkeys (database w)) = false ->
  Forall (fun b => 0 <= b < 256) (att_rawId cred) ->
  allow_list (map pk_credential_id (passkeys_of (Settings.id u) (database w)))
    = Some prior ->
  in_iframe env' = false ->
  has_PublicKeyCredential env' = true ->
  store_fault env' = None ->
  let registered := world (snd (Settings.addPasskey env (Page c w))) in
  let before := Page (Choose2FA.mount (Some (Settings.id u))) registered in
  let after := snd (Choose2FA.handleUsePasskey env' before) in
  let opts :=
    assertionOptions env' (prior ++ [public_key_descriptor (att_rawId cred)]) in
  (exists rest,
     added before after
       (StoreCall (SelectCredentialIds (Some (Settings.id u)))
          :: CredentialsGet opts :: rest)) /\
  (forall a, credentials_get env' opts = Resolved (Some a) ->
     pathname (world after) = "/dashboard"%string).
Proof.
  intros Hu Hb Hf Hc Hfresh Hbytes Hprior Hi Hs Hf' registered before after opts.
  assert (Hdb : database registered
                = new_passkey env (Settings.id u) (Base64.btoa (att_rawId cred))
                    (Base64.btoa (Settings.publicKeyBytes cred))
                    (Settings.passkeyName c) (database w)).
  { subst registered. rewrite (addPasskey_total env c w u Hu Hb). cbv zeta.
    rewrite Hc, Hf, Hfresh.
    match goal with
    | |- context [Settings.loadSettings env (Page ?c1 ?w1)] =>
        rewrite (loadSettings_total env c1 w1 u eq_refl)
    end.
    reflexivity. }
  clearbody registered. subst after before.
  rewrite (handleUsePasskey_total env' _ registered Hi).
  unfold use_passkey_world. rewrite Hs, Hf'. cbn [negb Choose2FA.userId Choose2FA.mount].
  rewrite Hdb, passkeys_of_new, map_app. cbn [map passkey_row pk_credential_id].
  destruct (map pk_credential_id (passkeys_of (Settings.id u) (database w))
              ++ [Base64.btoa (att_rawId cred)]) as [|i rest] eqn:Hids.
  { symmetry in Hids. apply app_cons_not_nil in Hids. destruct Hids. }
  rewrite <- Hids, allow_list_app, Hprior.
  unfold allow_list. rewrite (atob_btoa _ Hbytes). fold opts.
  split.
  - destruct (credentials_get env' opts) as [[a|]|e]; eexists; trace_eq.
  - intros a Ha. rewrite Ha. reflexivity.
Qed.

End RegisterThenAuthenticate.

(* ------------------------------------------------------------------ *)
(** ** The properties on the sample data *)

(** X1 on the sample data: the accepted code of [alice]. *)
Lemma verify_dashboard_only_on_match_witness :
  exists uid secret32 key d,
    Verify2FA.userId (comp (verify_page "287082")) = Some uid /\
    store_fault sample_env = None /\
    map tf_secret (two_fa_of uid (database (world (verify_page "287082"))))
      = [secret32] /\
    Base32.decode secret32 = Some key /\
    OTPAuth.validate key "287082" (now sample_env) 1 = Some d.
Proof.
  apply (verify_dashboard_only_on_match sample_env
           (comp (verify_page "287082")) (world (verify_page "287082"))
           [StoreCall (SelectSecret alice);
            ToastSuccess "Verification successful!";
            Navigate "/dashboard" None]).
  - vm_compute. reflexivity.
  - right. right. left. reflexivity.
Defined.

(** X3 on the sample data: [bob], who has no 2FA record, at the code
    page, and the code page reached with an empty account id. *)
Lemma verify_failures_reported_witness :
  added (Page (verify_mount (sample_world "/auth/verify-2fa" bob))
              (sample_world "/auth/verify-2fa" bob))
        (snd (Verify2FA.handleVerify sample_env
                (Page (verify_mount (sample_world "/auth/verify-2fa" bob))
                      (sample_world "/auth/verify-2fa" bob))))
        [StoreCall (SelectSecret bob);
         ToastError "JSON object requested, multiple (or no) rows returned"] /\
  added (Page (verify_mount (sample_world "/auth/verify-2fa" ""))
              (sample_world "/auth/verify-2fa" ""))
        (snd (Verify2FA.handleVerify sample_env
                (Page (verify_mount (sample_world "/auth/verify-2fa" ""))
                      (sample_world "/auth/verify-2fa" ""))))
        [ToastError "User ID not found"].
Proof.
  split.
  - pose proof (verify_failures_reported sample_env
                  (verify_mount (sample_world "/auth/verify-2fa" bob))
                  (sample_world "/auth/verify-2fa" bob)) as H.
    cbv zeta in H. destruct H as [_ [_ H]].
    destruct (H bob eq_refl ltac:(discriminate) eq_refl eq_refl) as [H1 _].
    exact H1.
  - pose proof (verify_failures_reported sample_env
                  (verify_mount (sample_world "/auth/verify-2fa" ""))
                  (sample_world "/auth/verify-2fa" "")) as H.
    cbv zeta in H. destruct H as [H _].
    destruct (H (or_intror eq_refl)) as [H1 _]. exact H1.
Defined.

(** X4 on the sample data: the secret generated for [bob], and the
    setup page reached with an empty account id. *)
Lemma setup_mount_secret_witness :
  (exists key, Base32.decode (Setup2FA.secret (comp (setup_page ""))) = Some key) /\
  Setup2FA.qrCode (comp (setup_page "")) = "data:image/png;base64,iVBORw0KGgo="%string /\
  added (Page {| Setup2FA.userId := Some ""%string; Setup2FA.qrCode := "";
                 Setup2FA.secret := ""; Setup2FA.token := "";
                 Setup2FA.copied := false; Setup2FA.loading := false |}
              (sample_world "/auth/setup-2fa" ""))
        (snd (Setup2FA.mountEffect sample_env
                (Page {| Setup2FA.userId := Some ""%string; Setup2FA.qrCode := "";
                         Setup2FA.secret := ""; Setup2FA.token := "";
                         Setup2FA.copied := false; Setup2FA.loading := false |}
                      (sample_world "/auth/setup-2fa" ""))))
        [Navigate "/auth/login" None].
Proof.
  pose proof (setup_mount_secret sample_env
                {| Setup2FA.userId := Some bob; Setup2FA.qrCode := "";
                   Setup2FA.secret := ""; Setup2FA.token := "";
                   Setup2FA.copied := false; Setup2FA.loading := false |}
                (sample_world "/auth/setup-2fa" bob)) as H.
  cbv zeta in H. destruct H as [_ [_ H]].
  destruct (H bob eq_refl ltac:(discriminate)) as [_ [_ [_ [H1 [H2 _]]]]].
  split; [exact H1|]. split; [apply H2; reflexivity|].
  pose proof (setup_mount_secret sample_env
                {| Setup2FA.userId := Some ""%string; Setup2FA.qrCode := "";
                   Setup2FA.secret := ""; Setup2FA.token := "";
                   Setup2FA.copied := false; Setup2FA.loading := false |}
                (sample_world "/auth/setup-2fa" "")) as H'.
  cbv zeta in H'. destruct H' as [_ [H' _]].
  destruct (H' (or_intror eq_refl)) as [Ha _]. exact Ha.
Defined.

(** X21 on the sample data: [bob] types the code of the generated
    secret. *)
Lemma setup_round_trip_witness :
  database
    (world (snd (Setup2FA.handleVerify sample_env
                   (snd (Setup2FA.setToken
                           (OTPAuth.hotp_generate (getRandomValues sample_env 20) 1)
                           (snd (Setup2FA.mountEffect sample_env
                                   (Page {| Setup2FA.userId := Some bob;
                                            Setup2FA.qrCode := "";
                                            Setup2FA.secret := "";
                                            Setup2FA.token := "";
                                            Setup2FA.copied := false;
                                            Setup2FA.loading := false |}
                                         (sample_world "/auth/setup-2fa" bob)))))))))
    = new_two_fa sample_env bob "BMYFK6U7YTUQ4M2YPWRMP3ARGZNYBJOK" sample_db.
Proof.
  pose proof (setup_round_trip sample_env sample_env
                {| Setup2FA.userId := Some bob; Setup2FA.qrCode := "";
                   Setup2FA.secret := ""; Setup2FA.token := "";
                   Setup2FA.copied := false; Setup2FA.loading := false |}
                (sample_world "/auth/setup-2fa" bob) bob
                (getRandomValues sample_env 20) 1
                eq_refl ltac:(discriminate)) as H.
  cbv zeta in H.
  destruct (H ltac:(vm_compute; reflexivity) ltac:(vm_compute; split; discriminate)
              eq_refl eq_refl) as [_ [Hd _]].
  exact Hd.
Defined.

(** X5 on the sample data: after [bob]'s setup no two records share a
    user id. *)
Lemma setup_keeps_one_record_per_account_witness :
  NoDup (map tf_user_id
             (user_2fa (database (world (snd (Setup2FA.handleVerify sample_env
                                                (setup_page "682185"))))))).
Proof.
  assert (H0 : NoDup (map tf_user_id
                          (user_2fa (database (world (setup_page "682185")))))).
  { vm_compute. constructor; [intros []|constructor]. }
  pose proof (setup_keeps_one_record_per_account sample_env
                (comp (setup_page "682185")) (world (setup_page "682185")) H0) as H.
  cbv zeta in H. destruct H as [_ [_ [H _]]]. exact H.
Defined.

(** X6 on the sample data: [alice], who has a record, sets up again. *)
Lemma setup_again_refused_witness :
  database (world (snd (Setup2FA.handleVerify sample_env
                          (setup_page_of alice "682185")))) = sample_db /\
  added (setup_page_of alice "682185")
        (snd (Setup2FA.handleVerify sample_env (setup_page_of alice "682185")))
        [StoreCall (InsertTwoFA (Some alice) "BMYFK6U7YTUQ4M2YPWRMP3ARGZNYBJOK" true);
         ToastError "duplicate key value violates unique constraint"].
Proof.
  assert (H0 : two_fa_of alice (database (world (setup_page_of alice "682185"))) <> [])
    by (vm_compute; discriminate).
  pose proof (setup_again_refused sample_env
                (comp (setup_page_of alice "682185"))
                (world (setup_page_of alice "682185")) alice eq_refl H0) as H.
  cbv zeta in H. destruct H as [H1 [_ H2]].
  split; [exact H1|].
  apply (H2 (getRandomValues sample_env 20) 0); vm_compute; reflexivity.
Defined.

(** X7 on the sample data: [bob]'s setup with the code of the generated
    secret. *)
Lemma setup_dashboard_only_when_persisted_witness :
  exists uid key d,
    Setup2FA.userId (comp (setup_page "682185")) = Some uid /\
    Base32.decode (Setup2FA.secret (comp (setup_page "682185"))) = Some key /\
    OTPAuth.validate key (Setup2FA.token (comp (setup_page "682185")))
                     (now sample_env) 1 = Some d /\
    two_fa_of uid (database (world (setup_page "682185"))) = [] /\
    database (world (snd (Setup2FA.handleVerify sample_env
                            (Page (comp (setup_page "682185"))
                                  (world (setup_page "682185"))))))
      = new_two_fa sample_env uid (Setup2FA.secret (comp (setup_page "682185")))
                   (database (world (setup_page "682185"))).
Proof.
  apply (setup_dashboard_only_when_persisted sample_env
           (comp (setup_page "682185")) (world (setup_page "682185"))
           [StoreCall (InsertTwoFA (Some bob) "BMYFK6U7YTUQ4M2YPWRMP3ARGZNYBJOK" true);
            ToastSuccess "2FA setup complete!";
            Navigate "/dashboard" None]).
  - vm_compute. reflexivity.
  - right. right. left. reflexivity.
Defined.

(** X8 on the sample data: [alice] authenticates with her passkey. *)
Lemma passkey_dashboard_only_after_ceremony_witness :
  in_iframe sample_env = false /\
  has_PublicKeyCredential sample_env = true /\
  store_fault sample_env = None /\
  exists uid allow a,
    Choose2FA.userId (comp (choose_page alice)) = Some uid /\
    map pk_credential_id (passkeys_of uid (database (world (choose_page alice)))) <> [] /\
    allow_list (map pk_credential_id
                    (passkeys_of uid (database (world (choose_page alice)))))
      = Some allow /\
    In (CredentialsGet (assertionOptions sample_env allow))
       (trace (world (snd (Choose2FA.handleUsePasskey sample_env (choose_page alice))))) /\
    credentials_get sample_env (assertionOptions sample_env allow) = Resolved (Some a).
Proof.
  apply (passkey_dashboard_only_after_ceremony sample_env
           (comp (choose_page alice)) (world (choose_page alice))
           (trace (world (snd (Choose2FA.handleUsePasskey sample_env (choose_page alice)))))).
  - reflexivity.
  - vm_compute. right. right. right. left. reflexivity.
Defined.


(** X11 on the sample data: [alice] chooses the code and types the code
    of the current period. *)
Lemma code_path_reaches_dashboard_witness :
  flow (snd (Verify2FA.handleVerify sample_env
          (snd (Verify2FA.setToken "287082"
             (Page (verify_mount
                      (world (snd (Choose2FA.click sample_env Choose2FA.UseCode
                                     (choose_page alice)))))
                   (world (snd (Choose2FA.click sample_env Choose2FA.UseCode
                                  (choose_page alice)))))))))
    = Authenticated.
Proof.
  pose proof (code_path_reaches_dashboard sample_env alice "287082"
                (sample_world "/auth/choose-2fa" alice)
                "GEZDGNBVGY3TQOJQGEZDGNBVGY3TQOJQ" secret_rfc 0
                ltac:(discriminate) eq_refl ltac:(vm_compute; reflexivity)
                ltac:(vm_compute; reflexivity) ltac:(vm_compute; reflexivity)) as H.
  cbv zeta in H. destruct H as [_ [_ [_ [H _]]]]. exact H.
Defined.

(** X12 on the sample data: the settings page of [alice]. *)
Lemma loadSettings_reflects_store_witness :
  Settings.passkeys (comp (snd (Settings.loadSettings sample_env (settings_page ""))))
    = passkeys_of alice sample_db /\
  Settings.twoFAEnabled (comp (snd (Settings.loadSettings sample_env (settings_page ""))))
    = true.
Proof.
  pose proof (loadSettings_reflects_store sample_env
                (comp (settings_page "")) (world (settings_page ""))) as H.
  cbv zeta in H. destruct H as [_ H].
  destruct (H {| Settings.id := alice; Settings.email := Some "alice@example.org"%string |}
              eq_refl) as [_ [_ [_ [_ [_ [_ [H1 _]]]]]]].
  destruct (H1 eq_refl) as [Hp [Hb _]].
  split; [exact Hp|]. apply Hb. reflexivity.
Defined.

(** X13 on the sample data: [alice] switches 2FA off. *)
Lemma toggleTwoFA_flips_flag_only_witness :
  Settings.twoFAEnabled (comp (snd (Settings.toggleTwoFA sample_env (settings_page ""))))
    = false /\
  user_passkeys (database (world (snd (Settings.toggleTwoFA sample_env
                                         (settings_page "")))))
    = [alice_passkey].
Proof.
  pose proof (toggleTwoFA_flips_flag_only sample_env
                (comp (settings_page "")) (world (settings_page ""))
                {| Settings.id := alice; Settings.email := Some "alice@example.org"%string |}
                eq_refl) as H.
  cbv zeta in H. destruct H as [_ [_ [_ [H _]]]].
  destruct (H eq_refl) as [_ [H1 [_ [H2 _]]]].
  split; [exact H1|exact H2].
Defined.

(** X14 on the sample data: [alice] switches 2FA off and on again. *)
Lemma toggleTwoFA_twice_witness :
  Settings.twoFAEnabled
    (comp (snd (Settings.toggleTwoFA sample_env
                  (snd (Settings.toggleTwoFA sample_env (settings_page ""))))))
    = true.
Proof.
  pose proof (toggleTwoFA_twice sample_env sample_env
                (comp (settings_page "")) (world (settings_page ""))
                {| Settings.id := alice; Settings.email := Some "alice@example.org"%string |}
                eq_refl eq_refl eq_refl) as H.
  cbv zeta in H. destruct H as [_ [H _]]. exact H.
Defined.

(** X15 on the sample data: [alice] removes her passkey; [bob] asks
    for the removal of the same row and [alice] keeps it. *)
Lemma removePasskey_removes_that_row_witness :
  database (world (snd (Settings.removePasskey sample_env (pk_id alice_passkey)
                          (settings_page ""))))
    = without_passkey alice (pk_id alice_passkey) sample_db /\
  Settings.passkeys (comp (snd (Settings.removePasskey sample_env (pk_id alice_passkey)
                                  (settings_page ""))))
    = filter (fun r => negb (String.eqb (pk_id r) (pk_id alice_passkey)))
             (passkeys_of alice sample_db) /\
  passkeys_of alice
    (database (world (snd (Settings.removePasskey sample_env (pk_id alice_passkey)
                             (Page (settings_mount
                                      (Some {| Settings.id := bob;
                                               Settings.email := None |}))
                                   (sample_world "/dashboard/settings" bob))))))
    = passkeys_of alice sample_db.
Proof.
  pose proof (removePasskey_removes_that_row sample_env (pk_id alice_passkey)
                (comp (settings_page "")) (world (settings_page ""))
                {| Settings.id := alice; Settings.email := Some "alice@example.org"%string |}
                eq_refl) as H.
  cbv zeta in H. destruct H as [_ [_ [H _]]].
  destruct (H eq_refl) as [_ [H1 [_ [_ [_ [H2 _]]]]]].
  split; [exact H1|]. split; [exact H2|].
  pose proof (removePasskey_removes_that_row sample_env (pk_id alice_passkey)
                (settings_mount (Some {| Settings.id := bob; Settings.email := None |}))
                (sample_world "/dashboard/settings" bob)
                {| Settings.id := bob; Settings.email := None |}
                eq_refl) as H'.
  cbv zeta in H'. destruct H' as [_ [_ [H' _]]].
  destruct (H' eq_refl) as [_ [_ [_ [_ [H3 _]]]]].
  apply (H3 alice). discriminate.
Defined.


(** X17 on the sample data: the platform turns [alice]'s registration
    down. *)
Lemma addPasskey_failures_reported_witness :
  database (world (snd (Settings.addPasskey declining_env (settings_page "My iPhone"))))
    = sample_db /\
  registration_notice {| err_name := "NotAllowedError";
                         err_message := "The operation was cancelled" |}
    = "Passkey registration was cancelled"%string.
Proof.
  pose proof (addPasskey_failures_reported declining_env
                (comp (settings_page "My iPhone")) (world (settings_page "My iPhone"))) as H.
  cbv zeta in H. destruct H as [_ H].
  destruct (H {| Settings.id := alice; Settings.email := Some "alice@example.org"%string |}
              {| err_name := "NotAllowedError";
                 err_message := "The operation was cancelled" |}
              eq_refl eq_refl (or_introl eq_refl)) as [_ [H1 [_ [_ [_ [H2 _]]]]]].
  split; [exact H1|exact (H2 eq_refl)].
Defined.


(** X19 on the sample data: the raw id of the sample credential. *)
Lemma btoa_round_trip_witness :
  Base64.atob (Base64.btoa (att_rawId sample_attestation))
    = Some (att_rawId sample_attestation).
Proof.
  apply (btoa_round_trip (att_rawId sample_attestation)).
  vm_compute. repeat constructor; discriminate.
Defined.

(** X20 on the sample data: [alice] registers a second passkey and
    authenticates. *)
Lemma registered_passkey_is_allowed_witness :
  pathname
    (world (snd (Choose2FA.handleUsePasskey sample_env
                   (Page (Choose2FA.mount (Some alice))
                         (world (snd (Settings.addPasskey sample_env
                                        (Page (comp (settings_page "My iPhone"))
                                              (world (settings_page "My iPhone"))))))))))
    = "/dashboard"%string.
Proof.
  assert (Hb : Forall (fun b => 0 <= b < 256) (att_rawId sample_attestation))
    by (vm_compute; repeat constructor; discriminate).
  pose proof (registered_passkey_is_allowed sample_env sample_env
                (comp (settings_page "My iPhone")) (world (settings_page "My iPhone"))
                {| Settings.id := alice; Settings.email := Some "alice@example.org"%string |}
                sample_attestation [public_key_descriptor [1; 2; 3; 4]]
                eq_refl eq_refl eq_refl eq_refl
                ltac:(vm_compute; reflexivity) Hb
                ltac:(vm_compute; reflexivity) eq_refl eq_refl eq_refl) as H.
  cbv zeta in H. destruct H as [_ H].
  apply (H sample_assertion). reflexivity.
Defined.
